(** * jerelog_parser: a shallow embedding of the Verilog hierarchy parser

    The development follows [jerelog_parser.py] function by function:
    the lexical preprocessor ([get_uncommented], [check_ifdefs]), the
    body normaliser ([get_one_line_code]), the instance extractor
    ([save_module_attributes]), file ingestion ([parse_verilog]) and the
    two hierarchy algorithms ([report_hierarchy], [find_all_instances]).

    Python strings are modelled as [string] (ASCII text), Python integers
    as [Z], Python lists as [list] with [append] at the tail, and the
    module-level globals as one record threaded through the calls.
    Uncaught exceptions, [exit()] and loops that never end are explicit
    outcomes of the functions that can produce them. *)

From Stdlib Require Import String Ascii List ZArith Lia Bool DecimalString.
Import ListNotations.

Open Scope string_scope.
Open Scope list_scope.
Open Scope Z_scope.

(** Python's [+] on strings. *)
Infix "+++" := String.append (at level 60, right associativity).

(* ================================================================== *)
(** ** Python string primitives *)
(* ================================================================== *)

Module Py.

Definition len (s : string) : Z := Z.of_nat (String.length s).

(** [s.startswith(p)] *)
Fixpoint startswith (s p : string) {struct p} : bool :=
  match p with
  | EmptyString => true
  | String c p' =>
      match s with
      | EmptyString => false
      | String d s' => Ascii.eqb d c && startswith s' p'
      end
  end.

(** [s.find(sub)], counting from offset [k]: the lowest index of an
    occurrence, [-1] when there is none. *)
Fixpoint find_at (k : Z) (s sub : string) : Z :=
  if startswith s sub then k
  else match s with
       | EmptyString => -1
       | String _ s' => find_at (k + 1) s' sub
       end.

Definition find (s sub : string) : Z := find_at 0 s sub.

Fixpoint drop (n : nat) (s : string) : string :=
  match n, s with
  | O, _ => s
  | S _, EmptyString => EmptyString
  | S n', String _ s' => drop n' s'
  end.

Fixpoint take (n : nat) (s : string) : string :=
  match n, s with
  | O, _ => EmptyString
  | S _, EmptyString => EmptyString
  | S n', String c s' => String c (take n' s')
  end.

(** Normalisation of a slice bound against a length [n]: a negative
    bound counts from the end, and every bound is clipped to [0..n]. *)
Definition clamp (n i : Z) : Z :=
  if i <? 0 then Z.max (n + i) 0 else Z.min i n.

(** [s[lo:hi]] *)
Definition slice (s : string) (lo hi : Z) : string :=
  let l := clamp (len s) lo in
  let h := clamp (len s) hi in
  take (Z.to_nat (h - l)) (drop (Z.to_nat l) s).

(** [s[lo:]] *)
Definition slice_from (s : string) (lo : Z) : string :=
  drop (Z.to_nat (clamp (len s) lo)) s.

(** [s[:hi]] *)
Definition slice_to (s : string) (hi : Z) : string :=
  take (Z.to_nat (clamp (len s) hi)) s.

(** [str.isspace] on the ASCII range: TAB, LF, VT, FF, CR, FS, GS, RS,
    US and the space. *)
Definition isspace (c : ascii) : bool :=
  let n := nat_of_ascii c in
  (((9 <=? n) && (n <=? 13)) || ((28 <=? n) && (n <=? 32)))%nat.

Fixpoint lstrip (s : string) : string :=
  match s with
  | EmptyString => EmptyString
  | String c s' => if isspace c then lstrip s' else s
  end.

Fixpoint rev_onto (s acc : string) : string :=
  match s with
  | EmptyString => acc
  | String c s' => rev_onto s' (String c acc)
  end.

Definition rev (s : string) : string := rev_onto s EmptyString.

Definition rstrip (s : string) : string := rev (lstrip (rev s)).

(** [s.strip()] *)
Definition strip (s : string) : string := rstrip (lstrip s).

(** [s.replace(old, new)] for a non-empty [old]: every non-overlapping
    occurrence, leftmost first.  [skip] counts the characters of an
    occurrence that are still to be passed over. *)
Fixpoint replace_go (old new : string) (skip : nat) (s : string) : string :=
  match s with
  | EmptyString => EmptyString
  | String c s' =>
      match skip with
      | S k => replace_go old new k s'
      | O =>
          if startswith s old
          then new +++ replace_go old new (String.length old - 1) s'
          else String c (replace_go old new O s')
      end
  end.

(** With an empty [old] Python puts [new] before every character and at
    the end. *)
Fixpoint intersperse (new s : string) : string :=
  match s with
  | EmptyString => new
  | String c s' => new +++ String c (intersperse new s')
  end.

Definition replace (s old new : string) : string :=
  match old with
  | EmptyString => intersperse new s
  | _ => replace_go old new O s
  end.

(** [s.split(sep)] for a one-character separator: one field per
    separator, empty fields kept. *)
Fixpoint split (sep : ascii) (s : string) : list string :=
  match s with
  | EmptyString => [EmptyString]
  | String c s' =>
      if Ascii.eqb c sep then EmptyString :: split sep s'
      else match split sep s' with
           | [] => [String c EmptyString]
           | w :: ws => String c w :: ws
           end
  end.

(** [x in l] for a list of strings *)
Definition str_in (x : string) (l : list string) : bool :=
  existsb (String.eqb x) l.

Definition tab : string := String (ascii_of_nat 9) EmptyString.
Definition nl : string := String (ascii_of_nat 10) EmptyString.

End Py.

(* ================================================================== *)
(** ** Outcomes of a call *)
(* ================================================================== *)

(** The uncaught exceptions the parser can raise. *)
Inductive exn : Type :=
| IndexError
| SystemExit
| RecursionError.

(** A call returns a value, raises, or loops for ever because an
    iteration leaves the loop where it was ([Hang]). The loops of the
    source are run on an iteration budget computed from their input;
    [OutOfFuel] is a budget that ran out, which the last part of the file
    shows never to happen ([get_uncommented_returns],
    [get_one_line_code_outcome], [scan_submodules_outcome],
    [process_line_within_budget]). *)
Inductive result (A : Type) : Type :=
| Ok (a : A)
| Raise (e : exn)
| Hang
| OutOfFuel.

Arguments Ok {A} a.
Arguments Raise {A} e.
Arguments Hang {A}.
Arguments OutOfFuel {A}.

Definition bind {A B : Type} (r : result A) (k : A -> result B) : result B :=
  match r with
  | Ok a => k a
  | Raise e => Raise e
  | Hang => Hang
  | OutOfFuel => OutOfFuel
  end.

Notation "x <- r ;; k" := (bind r (fun x => k))
  (at level 61, r at next level, right associativity).
Notation "' p <- r ;; k" := (bind r (fun p => k))
  (at level 61, p pattern, r at next level, right associativity).

(* ================================================================== *)
(** ** Lexical preprocessor *)
(* ================================================================== *)

(** [while line.find("//*") != -1: line = line.replace("//*", "//")] *)
Fixpoint unblock (fuel : nat) (line : string) : result string :=
  match fuel with
  | O => OutOfFuel
  | S fuel' =>
      if negb (Py.find line "//*" =? -1)
      then unblock fuel' (Py.replace line "//*" "//")
      else Ok line
  end.

(** The [while i < len(line)] loop of [get_uncommented]. *)
Fixpoint uncomment_loop (fuel : nat) (line : string) (i : Z)
    (block_comment : bool) (out_line : string) : result (string * bool) :=
  match fuel with
  | O => OutOfFuel
  | S fuel' =>
      if i <? Py.len line then
        let rest := Py.slice_from line i in
        if block_comment then
          if negb (Py.find rest "*/" =? -1) then
            uncomment_loop fuel' line (i + Py.find rest "*/" + Py.len "*/")
              false (out_line +++ "")
          else
            uncomment_loop fuel' line (Py.len line) block_comment
              (out_line +++ "")
        else
          if negb (Py.find rest "/*" =? -1) then
            uncomment_loop fuel' line (i + Py.find rest "/*") true
              (out_line +++ Py.slice line i (i + Py.find rest "/*"))
          else if negb (Py.find rest "//" =? -1) then
            uncomment_loop fuel' line (Py.len line) block_comment
              (out_line +++ Py.slice line i (Py.find rest "//"))
          else
            uncomment_loop fuel' line (Py.len line) block_comment
              (out_line +++ Py.slice_from line i)
      else Ok (out_line, block_comment)
  end.

(** [get_uncommented(line, block_comment)] *)
Definition get_uncommented (line : string) (block_comment : bool)
    : result (string * bool) :=
  line' <- (if negb block_comment
            then unblock (S (String.length line)) line
            else Ok line) ;;
  uncomment_loop (2 * String.length line' + 2) line' 0 block_comment "".

(** A Python value that is either a string or a list of strings, for the
    membership tests of [check_ifdefs]. *)
Inductive pyval : Type :=
| PStr (s : string)
| PList (l : list string).

Fixpoint list_eqb (a b : list string) : bool :=
  match a, b with
  | [], [] => true
  | x :: a', y :: b' => String.eqb x y && list_eqb a' b'
  | _, _ => false
  end.

(** [==] on these values: a list never equals a string. *)
Definition py_eqb (a b : pyval) : bool :=
  match a, b with
  | PStr x, PStr y => String.eqb x y
  | PList x, PList y => list_eqb x y
  | _, _ => false
  end.

(** [x in verilog_define_variables], a list that holds strings only. *)
Definition py_in (x : pyval) (defs : list string) : bool :=
  existsb (fun d => py_eqb x (PStr d)) defs.

(** [l[-1]] of a non-empty list *)
Definition top (l : list string) : string := last l "".

(** [l.pop()] *)
Definition pop (l : list string) : result (list string) :=
  match l with
  | [] => Raise IndexError
  | _ => Ok (removelast l)
  end.

(** What [check_ifdefs] hands back, with the global
    [verilog_define_variables] it may have extended. *)
Record ifdef_state : Type := mk_ifdef_state {
  filtered_line : string;
  inside_ifdef : bool;
  ifdef_stack : list string;
  define_variables : list string
}.

Definition space : ascii := " "%char.

(** [check_ifdefs(line, inside_ifdef, ifdef_stack)] *)
Definition check_ifdefs (line : string) (inside : bool)
    (stack : list string) (defs : list string) : result ifdef_state :=
  let temp_line := Py.replace (Py.strip line) Py.tab " " in
  if Py.startswith temp_line "`ifdef" then
    let stack := (stack ++ [last (Py.split space temp_line) ""])%list in
    Ok (mk_ifdef_state "" (py_in (PStr (top stack)) defs) stack defs)
  else if Py.startswith temp_line "`protected" then
    let stack := (stack ++ ["protected"])%list in
    Ok (mk_ifdef_state "" (py_in (PStr (top stack)) defs) stack defs)
  else if Py.startswith temp_line "`ifndef" then
    let stack := (stack ++ [last (Py.split space temp_line) ""])%list in
    Ok (mk_ifdef_state ""
          ((Z.of_nat (List.length stack) =? 0)
           && negb (py_in (PStr (top stack)) defs))
          stack defs)
  else if Py.startswith temp_line "`endif" then
    stack <- pop stack ;;
    Ok (mk_ifdef_state ""
          ((Z.of_nat (List.length stack) >? 0)
           && py_in (PStr (top stack)) defs)
          stack defs)
  else if Py.startswith temp_line "`endprotected" then
    stack <- pop stack ;;
    Ok (mk_ifdef_state ""
          ((Z.of_nat (List.length stack) >? 0)
           && py_in (PList stack) defs)
          stack defs)
  else if Py.startswith temp_line "`else" then
    Ok (mk_ifdef_state ""
          ((Z.of_nat (List.length stack) >? 0)
           && negb (py_in (PStr (top stack)) defs))
          stack defs)
  else if Py.startswith temp_line "`define" then
    if inside || (Z.of_nat (List.length stack) =? 0) then
      let tokens := Py.split space temp_line in
      if Z.of_nat (List.length tokens) >=? 2
      then Ok (mk_ifdef_state "" inside stack
                 (defs ++ [nth 1 tokens ""])%list)
      else Ok (mk_ifdef_state "" inside stack defs)
    else Ok (mk_ifdef_state "" inside stack defs)
  else
    if inside || (Z.of_nat (List.length stack) =? 0)
    then Ok (mk_ifdef_state line inside stack defs)
    else Ok (mk_ifdef_state "" inside stack defs).

(* ================================================================== *)
(** ** Module name and body normalisation *)
(* ================================================================== *)

(** The [while(1)] loop of [get_module_name] over [end_idx]. *)
Fixpoint name_end (fuel : nat) (line : string) (end_idx : Z) : result Z :=
  match fuel with
  | O => OutOfFuel
  | S fuel' =>
      let head := Py.slice_to line end_idx in
      if negb (Py.find head " " =? -1) then Ok end_idx
      else if negb (Py.find head Py.tab =? -1) then Ok end_idx
      else if negb (Py.find head "(" =? -1) then Ok end_idx
      else if negb (Py.find head ";" =? -1) then Ok end_idx
      else if negb (Py.find head Py.nl =? -1) then Ok end_idx
      else if end_idx =? Py.len line then Ok (Py.len line + 1)
      else name_end fuel' line (end_idx + 1)
  end.

(** [get_module_name(line)] *)
Definition get_module_name (line : string) : result string :=
  let start_idx := Py.find line "module " + Py.len "module " in
  let line := Py.strip (Py.slice_from line start_idx) in
  end_idx <- name_end (String.length line + 2) line 0 ;;
  if negb (end_idx =? -1)
  then Ok (Py.slice_to line (end_idx - 1))
  else Ok "".

(** The inner [while 1] of the block skipper: [rest] is the text from
    index [i] on, so reading [one_line_code[i]] past the end is the
    empty case. Returns the index just after the closer. *)
Fixpoint paren_scan (rest : string) (i : Z) (parenth_lvl : Z) : result Z :=
  match rest with
  | EmptyString => Raise IndexError
  | String c rest' =>
      let parenth_lvl :=
        if Ascii.eqb c ")" then parenth_lvl - 1 else parenth_lvl in
      let parenth_lvl :=
        if Ascii.eqb c "(" then parenth_lvl + 1 else parenth_lvl in
      if parenth_lvl =? 0 then Ok (i + 1)
      else paren_scan rest' (i + 1) parenth_lvl
  end.

(** One turn of a [while 1] that skips a block opened by [opener]
    (["#("] or ["@("]): [None] when no opener is left. *)
Definition skip_block (opener : string) (one_line_code : string)
    : result (option string) :=
  if negb (Py.find one_line_code opener =? -1) then
    let i := Py.find one_line_code opener + Py.len opener in
    i <- paren_scan (Py.slice_from one_line_code i) i 1 ;;
    Ok (Some (Py.replace one_line_code
                (Py.slice one_line_code (Py.find one_line_code opener) i)
                ""))
  else Ok None.

Fixpoint skip_blocks (fuel : nat) (opener : string) (one_line_code : string)
    : result string :=
  match fuel with
  | O => OutOfFuel
  | S fuel' =>
      r <- skip_block opener one_line_code ;;
      match r with
      | Some code' => skip_blocks fuel' opener code'
      | None => Ok one_line_code
      end
  end.

(** [while find("  ") != -1: replace("  ", " ")] *)
Fixpoint squeeze (fuel : nat) (one_line_code : string) : result string :=
  match fuel with
  | O => OutOfFuel
  | S fuel' =>
      if negb (Py.find one_line_code "  " =? -1)
      then squeeze fuel' (Py.replace one_line_code "  " " ")
      else Ok one_line_code
  end.

(** [get_one_line_code(module_code)] *)
Definition get_one_line_code (module_code : list string) : result string :=
  let one_line_code := fold_left String.append module_code "" in
  let one_line_code := Py.replace one_line_code Py.nl " " in
  let one_line_code := Py.replace one_line_code Py.tab " " in
  let one_line_code := Py.replace one_line_code ", " "," in
  let one_line_code := Py.replace one_line_code "# (" "#(" in
  one_line_code <- skip_blocks (S (String.length one_line_code)) "#("
                     one_line_code ;;
  one_line_code <- skip_blocks (S (String.length one_line_code)) "@("
                     one_line_code ;;
  squeeze (S (String.length one_line_code)) one_line_code.

(* ================================================================== *)
(** ** Port and instance extraction *)
(* ================================================================== *)

(** [get_module_type_name(type_name_string)] *)
Definition get_module_type_name (type_name_string : string)
    : string * string :=
  let type_name_string := Py.strip type_name_string in
  let type_string :=
    Py.slice_to type_name_string (Py.find type_name_string " " + Py.len " ") in
  let name_string :=
    Py.slice_from type_name_string
      (Py.find type_name_string " " + Py.len " ") in
  (Py.strip type_string, Py.strip name_string).

Definition invalid_module_names : list string :=
  [ "if"; "else";
    "begin"; "end";
    "case"; "endcase";
    "generate"; "endgenerate";
    "initial";
    "wire";
    "logic";
    "parameter";
    "localparam";
    "assign";
    "always";
    "always_ff";
    "for";
    "$display";
    "$finish";
    "@" ].

(** The body of [for inval_mod_name in invalid_module_names]: the state
    is [(submod_start, found_one)]. *)
Definition strip_one (code : string) (submod_end : Z) (st : Z * bool)
    (inval_mod_name : string) : Z * bool :=
  let '(submod_start, found_one) := st in
  let span := Py.slice code submod_start submod_end in
  if Py.startswith (Py.strip span) (inval_mod_name +++ " ")
  then (submod_start + Py.find span (inval_mod_name +++ " ")
          + Py.len (inval_mod_name +++ " "), true)
  else (submod_start, found_one).

(** The whole pass: [submod_start] moves as soon as a keyword is
    stripped, and later keywords of the same pass see the moved start. *)
Definition strip_pass (code : string) (submod_end : Z) (submod_start : Z)
    : Z * bool :=
  fold_left (strip_one code submod_end) invalid_module_names
    (submod_start, false).

(** The [while(1)] around the pass. *)
Fixpoint strip_keywords (fuel : nat) (code : string) (submod_end : Z)
    (submod_start : Z) : result Z :=
  match fuel with
  | O => OutOfFuel
  | S fuel' =>
      let '(submod_start, found_one) :=
        strip_pass code submod_end submod_start in
      if negb found_one then Ok submod_start
      else strip_keywords fuel' code submod_end submod_start
  end.

(** The acceptance test of a candidate [(inst_type, inst_name)]. *)
Definition accepts (inst_type inst_name : string) : bool :=
  let inst_type_name_cat := inst_type +++ inst_name in
  negb (String.eqb inst_type "") &&
  negb (String.eqb inst_name "") &&
  negb (Py.str_in inst_type invalid_module_names) &&
  negb (Py.str_in inst_name invalid_module_names) &&
  (Py.find inst_type_name_cat "=" =? -1) &&
  (Py.find inst_type_name_cat ":" =? -1) &&
  (Py.find inst_type_name_cat "." =? -1) &&
  (Py.find inst_type_name_cat "[" =? -1) &&
  (Py.find inst_type_name_cat "]" =? -1) &&
  (Py.find inst_type_name_cat "$" =? -1) &&
  (Py.find inst_type_name_cat "<" =? -1) &&
  (Py.find inst_type_name_cat ">" =? -1) &&
  (Py.find inst_type_name_cat " " =? -1).

(** What the branch for a parenthesis appends to [submod_list] for the
    span [code[submod_start:submod_end]]. *)
Definition candidate (code : string) (submod_start submod_end : Z)
    : list (string * string) :=
  let span := Py.slice code submod_start submod_end in
  if Py.find span ";" =? -1 then
    let '(inst_type, inst_name) := get_module_type_name span in
    if accepts inst_type inst_name then [(inst_type, inst_name)] else []
  else [].

(** One iteration of [while i < len(one_line_module_code)] in
    [save_module_attributes]: the new cursor and the new [submod_list]. *)
Definition scan_step (module code : string) (i : Z)
    (submod_list : list (string * string))
    : result (Z * list (string * string)) :=
  let rest := Py.slice_from code i in
  if negb (Py.find rest ("module " +++ module) =? -1) then
    if negb (Py.find rest ";" =? -1)
    then Ok (i + Py.find rest ";" + Py.len ";", submod_list)
    else Ok (Py.len code, submod_list)
  else if Py.find rest "wire " =? 0 then
    Ok (i + Py.find rest ";" + Py.len ";", submod_list)
  else if Py.find rest "assign " =? 0 then
    Ok (i + Py.find rest ";" + Py.len ";", submod_list)
  else if negb (Py.find rest "(" =? -1) then
    let submod_start := i in
    let submod_end := i + Py.find rest "(" in
    submod_start <- strip_keywords (S (Z.to_nat (submod_end - submod_start)))
                      code submod_end submod_start ;;
    Ok (i + Py.find rest ";" + Py.len ";",
        submod_list ++ candidate code submod_start submod_end)
  else
    if negb (Py.find rest ";" =? -1)
    then Ok (i + Py.find rest ";" + Py.len ";", submod_list)
    else Ok (Py.len code, submod_list).

(** The loop itself. An iteration that leaves [i] where it was is
    repeated for ever, since the branch taken depends on [i] alone and
    [i < len] stays true: the call never returns. *)
Fixpoint scan_loop (fuel : nat) (module code : string) (i : Z)
    (submod_list : list (string * string))
    : result (list (string * string)) :=
  match fuel with
  | O => OutOfFuel
  | S fuel' =>
      if i <? Py.len code then
        '(i', submod_list) <- scan_step module code i submod_list ;;
        if i' =? i then Hang
        else scan_loop fuel' module code i' submod_list
      else Ok submod_list
  end.

Definition scan_submodules (module code : string)
    : result (list (string * string)) :=
  scan_loop (S (String.length code)) module code 0 [].

(** A port as [port_type, port_name, port_width]. *)
Definition port : Type := string * string * string.

(** The data of a [VerilogModule] object. *)
Record VerilogModule : Type := mk_module {
  name : string;
  inputs : list port;
  outputs : list port;
  submodules : list (string * string);
  filepath : string;
  linenum : Z;
  startcol : Z
}.

(** The module-level lists of the parser. *)
Record globals : Type := mk_globals {
  verilog_modules : list VerilogModule;
  module_list : list string;
  multi_defined_list : list (string * string * Z * Z);
  used_module_list : list string;
  used_file_list : list string;
  unused_file_list : list string;
  verilog_define_variables : list string
}.

Definition initial_globals : globals := mk_globals [] [] [] [] [] [] [].

Definition set_modules (g : globals) (ms : list VerilogModule) : globals :=
  mk_globals ms (module_list g) (multi_defined_list g) (used_module_list g)
    (used_file_list g) (unused_file_list g) (verilog_define_variables g).

Definition set_module_list (g : globals) (l : list string) : globals :=
  mk_globals (verilog_modules g) l (multi_defined_list g)
    (used_module_list g) (used_file_list g) (unused_file_list g)
    (verilog_define_variables g).

Definition set_multi_defined (g : globals)
    (l : list (string * string * Z * Z)) : globals :=
  mk_globals (verilog_modules g) (module_list g) l (used_module_list g)
    (used_file_list g) (unused_file_list g) (verilog_define_variables g).

Definition set_used_modules (g : globals) (l : list string) : globals :=
  mk_globals (verilog_modules g) (module_list g) (multi_defined_list g) l
    (used_file_list g) (unused_file_list g) (verilog_define_variables g).

Definition set_used_files (g : globals) (l : list string) : globals :=
  mk_globals (verilog_modules g) (module_list g) (multi_defined_list g)
    (used_module_list g) l (unused_file_list g) (verilog_define_variables g).

Definition set_unused_files (g : globals) (l : list string) : globals :=
  mk_globals (verilog_modules g) (module_list g) (multi_defined_list g)
    (used_module_list g) (used_file_list g) l (verilog_define_variables g).

Definition set_defines (g : globals) (l : list string) : globals :=
  mk_globals (verilog_modules g) (module_list g) (multi_defined_list g)
    (used_module_list g) (used_file_list g) (unused_file_list g) l.

(** A result that is not a value, at another type; it is applied to
    nothing else. *)
Definition fail_as {A B : Type} (r : result A) : result B :=
  match r with
  | Ok _ => OutOfFuel
  | Raise e => Raise e
  | Hang => Hang
  | OutOfFuel => OutOfFuel
  end.

(** The local variables of [parse_verilog] that live across lines. *)
Record locals : Type := mk_locals {
  active_module : bool;
  block_comment : bool;
  l_inside_ifdef : bool;
  l_ifdef_stack : list string;
  line_number : Z;
  module_code : list string;
  module : string;
  start_line : Z;
  start_column : Z
}.

Definition initial_locals : locals :=
  mk_locals false false false [] 0 [] "" 0 0.

Section Ingestion.

(** [port_pattern.finditer(verilog_text)] of the [re] library, as the
    groups [(port_type, bit_width, port_group)] of each match; the
    second group is [None] when it took no part in the match. *)
Variable port_pattern_finditer :
  string -> list (string * option string * string).

Definition comma : ascii := ","%char.

(** [parse_ports(verilog_text)] *)
Definition parse_ports (verilog_text : string) : list port :=
  flat_map
    (fun m : string * option string * string =>
       let '(port_type, bit_width, port_group) := m in
       let port_names := map Py.strip (Py.split comma port_group) in
       map (fun port_name =>
              let bit_width_formatted :=
                match bit_width with
                | Some w => if String.eqb w "" then "" else Py.strip w
                | None => ""
                end in
              (port_type, port_name, bit_width_formatted))
           port_names)
    (port_pattern_finditer verilog_text).

(** [save_module_attributes(module, one_line_module_code)] *)
Definition save_module_attributes (module one_line_module_code : string)
    : result (list port * list port * list (string * string)) :=
  let ports := parse_ports one_line_module_code in
  let '(input_list, output_list) :=
    fold_left
      (fun (io : list port * list port) (p : port) =>
         let '(input_list, output_list) := io in
         let '(port_type, _, _) := p in
         let input_list :=
           if String.eqb port_type "input" then input_list ++ [p]
           else input_list in
         let output_list :=
           if String.eqb port_type "output" then output_list ++ [p]
           else output_list in
         if String.eqb port_type "inout"
         then (input_list ++ [p], output_list ++ [p])
         else (input_list, output_list))
      ports ([], []) in
  submod_list <- scan_submodules module one_line_module_code ;;
  Ok (input_list, output_list, submod_list).

(** The [endmodule] case once the tracker is known to be active: the
    body is normalised, then the module is registered or recorded as a
    second definition. *)
Definition finish_module (filename : string) (l : locals) (g : globals)
    (uncommented_line : string) : globals * result locals :=
  let module_code := module_code l ++ [uncommented_line] in
  match get_one_line_code module_code with
  | Ok one_line_module_code =>
      let l' := mk_locals false (block_comment l) (l_inside_ifdef l)
                  (l_ifdef_stack l) (line_number l) [] (module l)
                  (start_line l) (start_column l) in
      if negb (Py.str_in (module l) (module_list g)) then
        let g := set_module_list g (module_list g ++ [module l]) in
        match save_module_attributes (module l) one_line_module_code with
        | Ok (input_list, output_list, submod_list) =>
            (set_modules g
               (verilog_modules g ++
                  [mk_module (module l) input_list output_list submod_list
                     filename (start_line l) (start_column l)]),
             Ok l')
        | r => (g, fail_as r)
        end
      else
        (set_multi_defined g
           (multi_defined_list g ++
              [(module l, filename, start_line l, start_column l)]),
         Ok l')
  | r => (g, fail_as r)
  end.

(** The body of [for line in file]. *)
Definition process_line (filename : string) (l : locals) (g : globals)
    (line : string) : globals * result locals :=
  let line_number := line_number l + 1 in
  match get_uncommented line (block_comment l) with
  | Ok (uncommented_line, block_comment) =>
      match check_ifdefs uncommented_line (l_inside_ifdef l)
              (l_ifdef_stack l) (verilog_define_variables g) with
      | Ok st =>
          let uncommented_line := filtered_line st in
          let g := set_defines g (define_variables st) in
          let l := mk_locals (active_module l) block_comment
                     (inside_ifdef st) (ifdef_stack st) line_number
                     (module_code l) (module l) (start_line l)
                     (start_column l) in
          if negb (String.eqb uncommented_line "")
             || negb (String.eqb uncommented_line Py.nl) then
            if negb (Py.find uncommented_line "endmodule" =? -1) then
              if negb (active_module l) then (g, Raise SystemExit)
              else finish_module filename l g uncommented_line
            else if Py.startswith (Py.strip uncommented_line) "module "
                 || Py.startswith (Py.strip uncommented_line)
                      ("module" +++ Py.tab)
                 || negb (Py.find uncommented_line " module " =? -1) then
              match get_module_name uncommented_line with
              | Ok module =>
                  (g, Ok (mk_locals true block_comment (inside_ifdef st)
                            (ifdef_stack st) line_number
                            (module_code l ++ [uncommented_line]) module
                            line_number
                            (Py.find uncommented_line module
                               + Py.len module + 1)))
              | r => (g, fail_as r)
              end
            else if active_module l then
              (g, Ok (mk_locals true block_comment (inside_ifdef st)
                        (ifdef_stack st) line_number
                        (module_code l ++ [uncommented_line]) (module l)
                        (start_line l) (start_column l)))
            else (g, Ok l)
          else (g, Ok l)
      | r => (g, fail_as r)
      end
  | r => (g, fail_as r)
  end.

(** The whole [for] loop, stopping at the first line that does not
    return. *)
Fixpoint process_lines (filename : string) (l : locals) (g : globals)
    (lines : list string) : globals * result locals :=
  match lines with
  | [] => (g, Ok l)
  | line :: lines' =>
      match process_line filename l g line with
      | (g', Ok l') => process_lines filename l' g' lines'
      | stopped => stopped
      end
  end.

(** [parse_verilog(filename)] on a file that exists, given as the lines
    iterating over it yields: the globals when the call ends, and how it
    ends. *)
Definition parse_verilog_file (filename : string) (lines : list string)
    (g : globals) : globals * result unit :=
  match process_lines filename initial_locals g lines with
  | (g', Ok l) =>
      if active_module l then (g', Raise SystemExit) else (g', Ok tt)
  | (g', r) => (g', fail_as r)
  end.

(** [parse_verilog(filename)]: [None] is a path that is not a file. *)
Definition parse_verilog (filename : string) (file : option (list string))
    (g : globals) : globals * result unit :=
  match file with
  | Some lines => parse_verilog_file filename lines g
  | None => (g, Ok tt)
  end.

End Ingestion.

(* ================================================================== *)
(** ** Registry lookup and the hierarchy algorithms *)
(* ================================================================== *)

Definition seperating_char : string := ".".

(** [read_module_info(module_name)]: the first registered module of that
    name, [None] when the [for] loop ends without a [return]. The record
    stands for the dictionary of its fields. *)
Fixpoint read_module_info (mods : list VerilogModule) (module_name : string)
    : option VerilogModule :=
  match mods with
  | [] => None
  | m :: mods' =>
      if String.eqb (name m) module_name then Some m
      else read_module_info mods' module_name
  end.

(** What the reports write: the console, the report file handed to or
    opened by the call, and [unused_files.txt]. One entry per [print] or
    [write], with the text as passed. *)
Record io : Type := mk_io {
  stdout : list string;
  out_file : list string;
  unused_log_file : list string
}.

Definition print (o : io) (s : string) : io :=
  mk_io (stdout o ++ [s]) (out_file o) (unused_log_file o).

Definition write (o : io) (s : string) : io :=
  mk_io (stdout o) (out_file o ++ [s]) (unused_log_file o).

Definition write_unused (o : io) (s : string) : io :=
  mk_io (stdout o) (out_file o) (unused_log_file o ++ [s]).

Definition world : Type := globals * io.

(** [str(n)] of an integer *)
Definition str_of_int (n : Z) : string := NilZero.string_of_int (Z.to_int n).

(** [s * n] *)
Fixpoint repeat_str (s : string) (n : nat) : string :=
  match n with
  | O => ""
  | S n' => s +++ repeat_str s n'
  end.

(** The [for i_type, i_name in top_module_info['submodules']] loop of
    [report_hierarchy]; [rec] is the recursive call one frame deeper. *)
Fixpoint report_instances
    (rec : string -> Z -> world -> world * result unit)
    (subs : list (string * string)) (hier_num max_depth : Z) (w : world)
    : world * result unit :=
  match subs with
  | [] => (w, Ok tt)
  | (i_type, i_name) :: rest =>
      let indent := repeat_str "| " (Z.to_nat (hier_num + 1)) in
      let file_indent := repeat_str Py.tab (Z.to_nat (hier_num + 1)) in
      let '(g, o) := w in
      let o := print o (indent +++ i_name +++ " (" +++ i_type +++ ")") in
      let o := write o (file_indent +++ i_name +++ " (" +++ i_type +++ ")"
                          +++ Py.nl) in
      let g := set_used_modules g (used_module_list g ++ [i_type]) in
      if (max_depth =? 0) || (hier_num <? max_depth - 1) then
        match rec i_type (hier_num + 1) (g, o) with
        | (w', Ok _) => report_instances rec rest hier_num max_depth w'
        | stopped => stopped
        end
      else report_instances rec rest hier_num max_depth (g, o)
  end.

(** The part of [report_hierarchy] that runs before the traversal when
    [hier_num == 0]. *)
Definition report_open (top_module : string) (report_unused : bool)
    (max_depth : Z) (w : world) : world :=
  let '(g, o) := w in
  let o := mk_io (stdout o) [] (unused_log_file o) in
  let g := if report_unused then set_used_modules g [top_module] else g in
  let o := if negb (max_depth =? 0)
           then write o ("INFO : max_depth set to " +++ str_of_int max_depth
                           +++ Py.nl +++ Py.nl)
           else o in
  let o := print o (Py.nl +++ "INFO : reporting hierarchy below module "
                      +++ top_module +++ "..." +++ Py.nl) in
  let o := print o top_module in
  let o := write o (top_module +++ Py.nl) in
  (g, o).

(** The part that runs after it when [hier_num == 0]. *)
Definition report_close (top_module : string) (report_unused : bool)
    (w : world) : world :=
  let '(g, o) := w in
  let '(g, o) :=
    if report_unused then
      let o := print o (Py.nl +++ "INFO : generating report of unused modules under "
                          +++ top_module +++ "...") in
      let unique_unused_module_list :=
        filter (fun m => negb (Py.str_in (name m) (used_module_list g)))
          (verilog_modules g) in
      let o :=
        fold_left
          (fun o m =>
             print o (Py.tab +++ "module type " +++ name m +++ " was unused ("
                        +++ filepath m +++ ":" +++ str_of_int (linenum m)
                        +++ ":" +++ str_of_int (startcol m) +++ ")"))
          unique_unused_module_list o in
      let o := mk_io (stdout o) (out_file o) [] in
      fold_left
        (fun (w : world) m =>
           let '(g, o) := w in
           if negb (Py.str_in (filepath m) (unused_file_list g))
              && negb (Py.str_in (filepath m) (used_file_list g))
           then (set_unused_files g (unused_file_list g ++ [filepath m]),
                 write_unused o ("No modules from this file were used : "
                                   +++ filepath m +++ Py.nl))
           else (g, o))
        unique_unused_module_list (g, o)
    else (g, o) in
  (g, print o (Py.nl +++ "INFO : end of hierarchy report")).

(** [report_hierarchy(top_module, hier_num, report_unused, max_depth)].
    [depth] is the number of frames left before the interpreter raises
    [RecursionError]. *)
Fixpoint report_hierarchy (depth : nat) (top_module : string) (hier_num : Z)
    (report_unused : bool) (max_depth : Z) (w : world)
    : world * result unit :=
  match depth with
  | O => (w, Raise RecursionError)
  | S depth' =>
      let top_module_info :=
        read_module_info (verilog_modules (fst w)) top_module in
      let w := if hier_num =? 0
               then report_open top_module report_unused max_depth w
               else w in
      let '(w, r) :=
        match top_module_info with
        | Some info =>
            let '(g, o) := w in
            let g := if negb (Py.str_in (filepath info) (used_file_list g))
                     then set_used_files g (used_file_list g ++ [filepath info])
                     else g in
            report_instances
              (fun i_type hier_num' w =>
                 report_hierarchy depth' i_type hier_num' false max_depth w)
              (submodules info) hier_num max_depth (g, o)
        | None => (w, Ok tt)
        end in
      match r with
      | Ok _ =>
          if hier_num =? 0
          then (report_close top_module report_unused w, Ok tt)
          else (w, Ok tt)
      | _ => (w, r)
      end
  end.

(** The inner [for i_type, i_name in module.submodules] loop of
    [find_all_instances]. *)
Fixpoint search_submodules
    (rec : string -> string -> io -> io * result unit)
    (module_name : string) (subs : list (string * string))
    (module_type search_module current_path : string) (o : io)
    : io * result unit :=
  match subs with
  | [] => (o, Ok tt)
  | (i_type, i_name) :: rest =>
      if String.eqb i_type module_type then
        let append_path :=
          if String.eqb current_path "" then i_name
          else i_name +++ seperating_char +++ current_path in
        let o :=
          if String.eqb module_name search_module then
            let o := print o ("INFO : Found path:  = " +++ module_name
                                +++ seperating_char +++ append_path) in
            write o (module_name +++ seperating_char +++ append_path
                       +++ Py.nl)
          else o in
        match rec module_name append_path o with
        | (o', Ok _) =>
            search_submodules rec module_name rest module_type search_module
              current_path o'
        | stopped => stopped
        end
      else
        search_submodules rec module_name rest module_type search_module
          current_path o
  end.

(** The outer [for module in verilog_modules] loop. *)
Fixpoint search_modules
    (rec : string -> string -> io -> io * result unit)
    (mods : list VerilogModule)
    (module_type search_module current_path : string) (o : io)
    : io * result unit :=
  match mods with
  | [] => (o, Ok tt)
  | m :: mods' =>
      match search_submodules rec (name m) (submodules m) module_type
              search_module current_path o with
      | (o', Ok _) =>
          search_modules rec mods' module_type search_module current_path o'
      | stopped => stopped
      end
  end.

(** [color.GREEN] and [color.RESET] *)
Definition color_GREEN : string := String (ascii_of_nat 27) "[38;5;10m".
Definition color_RESET : string := String (ascii_of_nat 27) "[0;0m".

(** [find_all_instances(module_type, search_module, outfile,
    current_path)] over the registry [registry]; [depth] as in
    [report_hierarchy]. *)
Fixpoint find_all_instances (depth : nat) (registry : list VerilogModule)
    (module_type search_module current_path : string) (o : io)
    : io * result unit :=
  match depth with
  | O => (o, Raise RecursionError)
  | S depth' =>
      let o :=
        if String.eqb current_path "" then
          print o (color_GREEN +++ "INFO" +++ color_RESET
                     +++ " : searching for all instances under "
                     +++ search_module
                     +++ " where the module type is '" +++ module_type
                     +++ "'" +++ Py.nl)
        else o in
      search_modules
        (fun module_type' current_path' o' =>
           find_all_instances depth' registry module_type' search_module
             current_path' o')
        registry module_type search_module current_path o
  end.

Definition no_io : io := mk_io [] [] [].

(* ================================================================== *)
(** ** The other searches and the snapshot calls *)
(* ================================================================== *)

(** The inner loop of [find_all_instances_re] and of
    [find_all_instances_iname_re]. The two functions repeat the loops of
    [find_all_instances] with another test on the instance, here
    [matches i_type i_name], and go on with [find_all_instances] itself,
    here [rec], one frame deeper. *)
Fixpoint first_submodules (matches : string -> string -> bool)
    (rec : string -> string -> io -> io * result unit)
    (module_name : string) (subs : list (string * string))
    (search_module current_path : string) (o : io) : io * result unit :=
  match subs with
  | [] => (o, Ok tt)
  | (i_type, i_name) :: rest =>
      if matches i_type i_name then
        let append_path :=
          if String.eqb current_path "" then i_name
          else i_name +++ seperating_char +++ current_path in
        let o :=
          if String.eqb module_name search_module then
            let o := print o ("INFO : Found path  = " +++ module_name
                                +++ seperating_char +++ append_path) in
            write o (module_name +++ seperating_char +++ append_path
                       +++ Py.nl)
          else o in
        match rec module_name append_path o with
        | (o', Ok _) =>
            first_submodules matches rec module_name rest search_module
              current_path o'
        | stopped => stopped
        end
      else
        first_submodules matches rec module_name rest search_module
          current_path o
  end.

(** Their outer loop. *)
Fixpoint first_modules (matches : string -> string -> bool)
    (rec : string -> string -> io -> io * result unit)
    (mods : list VerilogModule) (search_module current_path : string)
    (o : io) : io * result unit :=
  match mods with
  | [] => (o, Ok tt)
  | m :: mods' =>
      match first_submodules matches rec (name m) (submodules m)
              search_module current_path o with
      | (o', Ok _) =>
          first_modules matches rec mods' search_module current_path o'
      | stopped => stopped
      end
  end.

(** [find_all_instances_re(module_type, search_module, outfile,
    current_path)] *)
Definition find_all_instances_re (depth : nat)
    (registry : list VerilogModule)
    (module_type search_module current_path : string) (o : io)
    : io * result unit :=
  match depth with
  | O => (o, Raise RecursionError)
  | S depth' =>
      let o :=
        print o (color_GREEN +++ "INFO" +++ color_RESET
                   +++ " : searching for all instances under "
                   +++ search_module
                   +++ " where the module type contains the string '"
                   +++ module_type +++ "'" +++ Py.nl) in
      first_modules
        (fun i_type _ => negb (Py.find i_type module_type =? -1))
        (fun m p o' => find_all_instances depth' registry m search_module p o')
        registry search_module current_path o
  end.

(** [find_all_instances_iname_re(module_name, search_module, outfile,
    current_path)] *)
Definition find_all_instances_iname_re (depth : nat)
    (registry : list VerilogModule)
    (module_name search_module current_path : string) (o : io)
    : io * result unit :=
  match depth with
  | O => (o, Raise RecursionError)
  | S depth' =>
      let o :=
        print o (color_GREEN +++ "INFO" +++ color_RESET
                   +++ " : searching for all instances under "
                   +++ search_module
                   +++ " which contain the string '"
                   +++ module_name +++ "'" +++ Py.nl) in
      first_modules
        (fun _ i_name => negb (Py.find i_name module_name =? -1))
        (fun m p o' => find_all_instances depth' registry m search_module p o')
        registry search_module current_path o
  end.



(* ================================================================== *)
(** ** Vocabulary of the statements *)
(* ================================================================== *)

(** The text [check_ifdefs] looks at for a directive: the line stripped,
    with its tabs turned into spaces. *)
Definition trimmed (line : string) : string :=
  Py.replace (Py.strip line) Py.tab " ".

(** A line whose directive pops the conditional stack. *)
Definition is_pop_directive (line : string) : bool :=
  Py.startswith (trimmed line) "`endif"
  || Py.startswith (trimmed line) "`endprotected".

(** The character [c] occurs in [s]. *)
Definition has_char (c : ascii) (s : string) : Prop :=
  In c (list_ascii_of_string s).

(** The characters no instance type or name may hold. *)
Definition forbidden_chars : list ascii :=
  ["="; ":"; "."; "["; "]"; "$"; "<"; ">"; " "]%char.

(** The acceptance rule for a candidate pair, in the words of the text:
    both parts non-empty, neither a reserved keyword, and none of the
    forbidden characters in either part or in their concatenation. *)
Definition acceptable (inst_type inst_name : string) : Prop :=
  inst_type <> "" /\
  inst_name <> "" /\
  ~ In inst_type invalid_module_names /\
  ~ In inst_name invalid_module_names /\
  forall c, In c forbidden_chars ->
    ~ has_char c inst_type /\ ~ has_char c inst_name /\
    ~ has_char c (inst_type +++ inst_name).

(** What a character adds to the parenthesis level. *)
Definition paren_delta (c : ascii) : Z :=
  if Ascii.eqb c ")" then -1 else if Ascii.eqb c "(" then 1 else 0.

(** Starting [d] parentheses deep, the text never closes more than is
    open and ends with nothing open. *)
Fixpoint balanced_from (d : Z) (s : string) : bool :=
  match s with
  | EmptyString => d =? 0
  | String c s' =>
      (0 <=? d + paren_delta c) && balanced_from (d + paren_delta c) s'
  end.

(** A text whose parentheses match up. *)
Definition balanced (s : string) : bool := balanced_from 0 s.

(** The state after the loop of [report_hierarchy] has printed and
    written the line of one instance and noted its type as used. *)
Definition instance_reported (hier_num : Z) (i_type i_name : string)
    (w : world) : world :=
  let '(g, o) := w in
  (set_used_modules g (used_module_list g ++ [i_type]),
   write
     (print o (repeat_str "| " (Z.to_nat (hier_num + 1))
                 +++ i_name +++ " (" +++ i_type +++ ")"))
     (repeat_str Py.tab (Z.to_nat (hier_num + 1))
        +++ i_name +++ " (" +++ i_type +++ ")" +++ Py.nl)).

(** The path of an instance found while [current_path] is the path
    traced so far. *)
Definition path_of (i_name current_path : string) : string :=
  if String.eqb current_path "" then i_name
  else i_name +++ seperating_char +++ current_path.

(** The line the path finder writes for a path under a scope. *)
Definition found_line (search_module path : string) : string :=
  search_module +++ seperating_char +++ path +++ Py.nl.

(** No module instantiates itself, directly or through others: every
    instance has a type of higher rank than the module that holds it. *)
Definition acyclic (rank : string -> nat) (registry : list VerilogModule)
    : Prop :=
  forall m i_type i_name,
    In m registry -> In (i_type, i_name) (submodules m) ->
    (rank (name m) < rank i_type)%nat.

(** The report file of [o'] is the one of [o] with more lines. *)
Definition grows (o o' : io) : Prop :=
  exists l, out_file o' = out_file o ++ l.

(** The two files of the end-to-end scenario, as the lines read from
    them. *)
Definition lines_of (l : list string) : list string :=
  map (fun s => s +++ Py.nl) l.

Definition top_v : list string :=
  lines_of [ "// the top level";
             "module top;";
             "  leaf u0 ();";
             "endmodule" ].

Definition leaf_v : list string :=
  lines_of [ "module leaf;";
             "endmodule" ].

(** Neither file declares a port. *)
Definition no_ports : string -> list (string * option string * string) :=
  fun _ => [].

(** The registry after both files are read. *)
Definition two_module_registry : list VerilogModule :=
  [ mk_module "top" [] [] [("leaf", "u0")] "top.v" 2 11;
    mk_module "leaf" [] [] [] "leaf.v" 1 12 ].

(** A registry in which [top] instantiates [ring], a module read before
    it that instantiates itself. *)
Definition ring_registry : list VerilogModule :=
  [ mk_module "ring" [] [] [("ring", "r0")] "ring.v" 1 12;
    mk_module "top" [] [] [("ring", "u0")] "top.v" 1 11 ].

(** A registry in which [top] instantiates [ghost], defined nowhere. *)
Definition ghost_registry : list VerilogModule :=
  [ mk_module "top" [] [] [("ghost", "g0"); ("leaf", "u0")] "top.v" 1 11;
    mk_module "leaf" [] [] [] "leaf.v" 1 12 ].

(** The registry proper: the kept modules, the names taken, and the
    records of later definitions. *)
Definition registry (g : globals)
    : list VerilogModule * list string * list (string * string * Z * Z) :=
  (verilog_modules g, module_list g, multi_defined_list g).


(** Every line of [region] is processed to its end and leaves the
    boundary tracker inside a module. *)
Fixpoint stays_in_module
    (finditer : string -> list (string * option string * string))
    (filename : string) (l : locals) (g : globals) (region : list string)
    : Prop :=
  match region with
  | [] => True
  | line :: region' =>
      match process_line finditer filename l g line with
      | (g', Ok l') =>
          active_module l' = true /\
          stays_in_module finditer filename l' g' region'
      | _ => False
      end
  end.

(** [parse_verilog] on one file after the other, as [parse_file_list]
    and the command line do, up to the first call that does not
    return. *)
Fixpoint parse_files
    (finditer : string -> list (string * option string * string))
    (files : list (string * list string)) (g : globals)
    : globals * result unit :=
  match files with
  | [] => (g, Ok tt)
  | (filename, lines) :: files' =>
      match parse_verilog_file finditer filename lines g with
      | (g', Ok _) => parse_files finditer files' g'
      | stopped => stopped
      end
  end.

(** Every kept module has its name in [module_list]. *)
Definition names_registered (g : globals) : Prop :=
  forall m, In m (verilog_modules g) -> In (name m) (module_list g).


(** The two files of the scenario, by name. *)
Definition two_files : list (string * list string) :=
  [("top.v", top_v); ("leaf.v", leaf_v)].

(** Files that give the ring registry and the ghost registry. *)
Definition ring_files : list (string * list string) :=
  [ ("ring.v", lines_of ["module ring;"; "  ring r0 ();"; "endmodule"]);
    ("top.v", lines_of ["module top;"; "  ring u0 ();"; "endmodule"]) ].

Definition ghost_files : list (string * list string) :=
  [ ("top.v", lines_of ["module top;"; "  ghost g0 ();"; "  leaf u0 ();";
                        "endmodule"]);
    ("leaf.v", lines_of ["module leaf;"; "endmodule"]) ].


(** [hier_path registry scope t p q]: [q] is a hierarchical path, from
    below the module [scope] down to an instance of type [t], that ends
    with the path [p]. Either the instance is held by a module named
    [scope], or it is held by a module to whose instances such a path
    leads. *)
Inductive hier_path (registry : list VerilogModule) (scope : string)
    : string -> string -> string -> Prop :=
| path_here (m : VerilogModule) (t n p : string) :
    In m registry -> In (t, n) (submodules m) -> name m = scope ->
    hier_path registry scope t p (path_of n p)
| path_above (m : VerilogModule) (t n p q : string) :
    In m registry -> In (t, n) (submodules m) ->
    hier_path registry scope (name m) (path_of n p) q ->
    hier_path registry scope t p q.

(** The report file of [o'] is the one of [o] followed by lines that all
    satisfy [P]. *)
Definition grows_by (P : string -> Prop) (o o' : io) : Prop :=
  exists l, out_file o' = out_file o ++ l /\ Forall P l.

(** The globals a report has no business with. *)
Definition ingested (g : globals)
    : list VerilogModule * list string * list (string * string * Z * Z)
      * list string :=
  (verilog_modules g, module_list g, multi_defined_list g,
   verilog_define_variables g).

(** The kept modules have distinct names, all of them taken. *)
Definition distinct_names (g : globals) : Prop :=
  NoDup (map name (verilog_modules g)) /\ names_registered g.

(** The line of the hierarchy file for an instance [hier_num] levels
    below the root. *)
Definition tree_line (hier_num : Z) (inst : string * string) : string :=
  repeat_str Py.tab (Z.to_nat (hier_num + 1))
    +++ snd inst +++ " (" +++ fst inst +++ ")" +++ Py.nl.

(** A line of the search report that spells a hierarchical path down to
    an instance of type [t], ending with [p]. *)
Definition path_line (registry : list VerilogModule) (scope t p : string)
    (line : string) : Prop :=
  exists q, hier_path registry scope t p q /\ line = found_line scope q.

(** [first_path registry scope matches p q]: [q] is a hierarchical path
    from below the module [scope] down to an instance that passes the
    test [matches], ending with [p]. *)
Definition first_path (registry : list VerilogModule) (scope : string)
    (matches : string -> string -> bool) (p q : string) : Prop :=
  exists m t n,
    In m registry /\ In (t, n) (submodules m) /\ matches t n = true /\
    ((name m = scope /\ q = path_of n p) \/
     hier_path registry scope (name m) (path_of n p) q).

Definition first_line (registry : list VerilogModule) (scope : string)
    (matches : string -> string -> bool) (p : string) (line : string)
    : Prop :=
  exists q, first_path registry scope matches p q /\
            line = found_line scope q.

(** The ports that go to [input_list] and to [output_list]. *)
Definition is_input (p : port) : bool :=
  let '(port_type, _, _) := p in
  String.eqb port_type "input" || String.eqb port_type "inout".

Definition is_output (p : port) : bool :=
  let '(port_type, _, _) := p in
  String.eqb port_type "output" || String.eqb port_type "inout".

(** A matcher that finds one declaration of two [inout] ports. *)
Definition one_inout : string -> list (string * option string * string) :=
  fun _ => [("inout", Some "[7:0]", "a, b")].

(** The text of a body after the four replacements at the head of
    [get_one_line_code], where the block skipper starts. *)
Definition flattened (module_code : list string) : string :=
  Py.replace
    (Py.replace
       (Py.replace
          (Py.replace (fold_left String.append module_code "") Py.nl " ")
          Py.tab " ")
       ", " ",")
    "# (" "#(".

(** The characters at which [get_module_name] ends a name. *)
Definition name_delimiters : list ascii :=
  [" "%char; ascii_of_nat 9; "("%char; ";"%char; ascii_of_nat 10].

(** A non-empty word without white space, [(] or [;]. *)
Definition is_name (nm : string) : Prop :=
  nm <> "" /\
  forall c, has_char c nm ->
    Py.isspace c = false /\ c <> "("%char /\ c <> ";"%char.

(** What may follow a name: nothing, or a text that begins with one of
    the delimiters. *)
Definition ends_name (tail : string) : Prop :=
  tail = "" \/
  exists d rest, tail = String d rest /\ In d name_delimiters.




(* ================================================================== *)
(** ** Facts about the string primitives *)
(* ================================================================== *)

Lemma startswith_app (p r : string) : Py.startswith (p +++ r) p = true.
Proof.
  induction p as [|c p IH]; simpl.
  - reflexivity.
  - rewrite Ascii.eqb_refl. exact IH.
Qed.

Lemma startswith_inv (s p : string) :
  Py.startswith s p = true -> exists r, s = p +++ r.
Proof.
  revert s. induction p as [|c p IH]; intros s H; simpl in *.
  - exists s. reflexivity.
  - destruct s as [|d s]; [discriminate|].
    apply andb_true_iff in H. destruct H as [Hc Hp].
    apply Ascii.eqb_eq in Hc. subst d.
    destruct (IH _ Hp) as [r ->]. exists r. reflexivity.
Qed.

(** Rewrites a prefix test that holds into the shape of the text. *)
Ltac expose_prefix H :=
  let r := fresh "rest" in
  let E := fresh "E" in
  apply startswith_inv in H; destruct H as [r E]; simpl in E.

(* ================================================================== *)
(** ** The conditional-compilation filter *)
(* ================================================================== *)

Lemma endif_is_no_push (t : string) :
  Py.startswith t "`endif" = true ->
  Py.startswith t "`ifdef" = false /\
  Py.startswith t "`protected" = false /\
  Py.startswith t "`ifndef" = false.
Proof.
  intros H. expose_prefix H. subst t. repeat split; reflexivity.
Qed.

Lemma endprotected_is_no_push (t : string) :
  Py.startswith t "`endprotected" = true ->
  Py.startswith t "`ifdef" = false /\
  Py.startswith t "`protected" = false /\
  Py.startswith t "`ifndef" = false /\
  Py.startswith t "`endif" = false.
Proof.
  intros H. expose_prefix H. subst t. repeat split; reflexivity.
Qed.

Lemma ifndef_is_no_ifdef (t : string) :
  Py.startswith t "`ifndef" = true ->
  Py.startswith t "`ifdef" = false /\
  Py.startswith t "`protected" = false.
Proof.
  intros H. expose_prefix H. subst t. repeat split; reflexivity.
Qed.

Lemma length_app_one (A : Type) (l : list A) (x : A) :
  (Z.of_nat (List.length (l ++ [x])) =? 0) = false.
Proof.
  rewrite length_app. simpl. apply Z.eqb_neq. lia.
Qed.

(** A list is never a member of a list of strings. *)
Lemma py_in_list (l defs : list string) : py_in (PList l) defs = false.
Proof.
  unfold py_in. induction defs as [|d defs IH]; simpl; [reflexivity|exact IH].
Qed.

(** [`ifndef] never makes the block visible: the length test runs after
    the push, on a stack that holds at least the pushed name. *)
Lemma ifndef_never_active (line : string) (inside : bool)
    (stack defs : list string) :
  Py.startswith (trimmed line) "`ifndef" = true ->
  check_ifdefs line inside stack defs =
    Ok (mk_ifdef_state "" false
          (stack ++ [last (Py.split space (trimmed line)) ""]) defs).
Proof.
  intros H. unfold check_ifdefs. fold (trimmed line).
  destruct (ifndef_is_no_ifdef _ H) as [-> ->]. rewrite H.
  rewrite length_app_one. reflexivity.
Qed.

(** [`endif] with a non-empty stack follows the rule of the text. *)
Lemma endif_rule (line : string) (inside : bool)
    (stack defs : list string) (x : string) :
  Py.startswith (trimmed line) "`endif" = true ->
  check_ifdefs line inside (stack ++ [x]) defs =
    Ok (mk_ifdef_state ""
          (negb (Nat.eqb (List.length stack) 0)
           && Py.str_in (last stack "") defs)
          stack defs).
Proof.
  intros H. unfold check_ifdefs. fold (trimmed line).
  destruct (endif_is_no_push _ H) as (-> & -> & ->). rewrite H.
  unfold pop. destruct (stack ++ [x]) eqn:E.
  - destruct stack; discriminate.
  - rewrite <- E. rewrite removelast_last. simpl.
    f_equal. f_equal. unfold top, py_in, Py.str_in. simpl.
    destruct stack; simpl; reflexivity.
Qed.

(** [`endprotected] pops, and the block is never visible afterwards: the
    membership test is on the stack itself, not on its top. *)
Lemma endprotected_never_active (line : string) (inside : bool)
    (stack defs : list string) (x : string) :
  Py.startswith (trimmed line) "`endprotected" = true ->
  check_ifdefs line inside (stack ++ [x]) defs =
    Ok (mk_ifdef_state "" false stack defs).
Proof.
  intros H. unfold check_ifdefs. fold (trimmed line).
  destruct (endprotected_is_no_push _ H) as (-> & -> & -> & ->). rewrite H.
  unfold pop. destruct (stack ++ [x]) eqn:E.
  - destruct stack; discriminate.
  - rewrite <- E. rewrite removelast_last. simpl.
    rewrite py_in_list, andb_false_r. reflexivity.
Qed.

(** C2, at the input where the text and the code part: an [`ifndef] of an
    undefined name on an empty stack. The name is pushed, and the block
    is left invisible. *)
Theorem ifndef_undefined_on_empty_stack :
  check_ifdefs "`ifndef FOO" false [] [] =
    Ok (mk_ifdef_state "" false ["FOO"] []).
Proof. reflexivity. Qed.

(** C4, at the input where the two directives part: after the pop the
    stack is non-empty and its top [FOO] is defined; [`endif] makes the
    block visible, [`endprotected] does not. *)
Theorem endprotected_differs_from_endif :
  check_ifdefs "`endif" false ["FOO"; "protected"] ["FOO"] =
    Ok (mk_ifdef_state "" true ["FOO"] ["FOO"]) /\
  check_ifdefs "`endprotected" false ["FOO"; "protected"] ["FOO"] =
    Ok (mk_ifdef_state "" false ["FOO"] ["FOO"]).
Proof. split; reflexivity. Qed.

Lemma check_ifdefs_raises (line : string) (inside : bool)
    (defs : list string) :
  is_pop_directive line = true ->
  check_ifdefs line inside [] defs = Raise IndexError.
Proof.
  unfold is_pop_directive. intros H. apply orb_true_iff in H.
  unfold check_ifdefs. fold (trimmed line). destruct H as [H|H].
  - destruct (endif_is_no_push _ H) as (-> & -> & ->). rewrite H.
    reflexivity.
  - destruct (endprotected_is_no_push _ H) as (-> & -> & -> & ->).
    rewrite H. reflexivity.
Qed.

Lemma check_ifdefs_returns (line : string) (inside : bool)
    (stack defs : list string) :
  is_pop_directive line = false \/ stack <> [] ->
  exists st, check_ifdefs line inside stack defs = Ok st.
Proof.
  unfold is_pop_directive. intros H. unfold check_ifdefs.
  fold (trimmed line).
  assert (Hpop : (Py.startswith (trimmed line) "`endif" = false /\
                  Py.startswith (trimmed line) "`endprotected" = false)
                 \/ exists s, pop stack = Ok s).
  { destruct H as [H|H].
    - left. apply orb_false_iff in H. exact H.
    - right. destruct stack; [congruence|]. eexists. reflexivity. }
  repeat match goal with
         | |- context [if ?b then _ else _] =>
             destruct b eqn:?; try (eexists; reflexivity)
         end;
    destruct Hpop as [[? ?]|[s Hs]]; try congruence;
    rewrite Hs; simpl; eexists; reflexivity.
Qed.

(** [check_ifdefs] returns or raises [IndexError]. *)
Lemma check_ifdefs_outcome (line : string) (inside : bool)
    (stack defs : list string) :
  (exists st, check_ifdefs line inside stack defs = Ok st) \/
  check_ifdefs line inside stack defs = Raise IndexError.
Proof.
  destruct (is_pop_directive line) eqn:E.
  - destruct stack as [|x stack].
    + right. apply check_ifdefs_raises. exact E.
    + left. apply check_ifdefs_returns. right. discriminate.
  - left. apply check_ifdefs_returns. left. exact E.
Qed.

(** C10: a pop directive on an empty stack raises [IndexError], and that
    is the only way for [check_ifdefs] not to return: on any other line,
    or with a non-empty stack, it returns. *)
Theorem check_ifdefs_pop_on_empty_stack (line : string) (inside : bool)
    (stack defs : list string) :
  (is_pop_directive line = true -> stack = [] ->
   check_ifdefs line inside stack defs = Raise IndexError) /\
  (is_pop_directive line = false \/ stack <> [] ->
   exists st, check_ifdefs line inside stack defs = Ok st).
Proof.
  split.
  - intros H ->. apply check_ifdefs_raises. exact H.
  - apply check_ifdefs_returns.
Qed.

Lemma check_ifdefs_pop_on_empty_stack_witness :
  check_ifdefs "`endif" true [] ["FOO"] = Raise IndexError /\
  exists st, check_ifdefs "`endif" true ["FOO"] ["FOO"] = Ok st.
Proof.
  split.
  - apply (proj1 (check_ifdefs_pop_on_empty_stack "`endif" true [] ["FOO"]));
      reflexivity.
  - apply (proj2 (check_ifdefs_pop_on_empty_stack "`endif" true ["FOO"]
                    ["FOO"])).
    right. discriminate.
Defined.

(* ================================================================== *)
(** ** The comment stripper *)
(* ================================================================== *)

Lemma find_at_lower (sub s : string) (k : Z) :
  Py.find_at k s sub = -1 \/ k <= Py.find_at k s sub.
Proof.
  revert k. induction s as [|c s IH]; intros k; simpl.
  - destruct (Py.startswith "" sub); [right; lia|left; reflexivity].
  - destruct (Py.startswith (String c s) sub); [right; lia|].
    destruct (IH (k + 1)) as [E|E]; [left; exact E|right; lia].
Qed.

Lemma find_empty (sub : string) :
  Py.find "" sub <> -1 -> sub = "".
Proof.
  unfold Py.find. simpl. destruct sub; [reflexivity|]. simpl. congruence.
Qed.

Lemma slice_from_0 (s : string) : Py.slice_from s 0 = s.
Proof.
  unfold Py.slice_from, Py.clamp. simpl.
  rewrite Z.min_l by (unfold Py.len; lia). reflexivity.
Qed.

(** Where the stripper does what the text says: a line scanned from its
    first character, outside a block comment, with no block-comment
    opener on it, is cut at its first [//]. *)
Lemma line_comment_from_column_0 (line : string) (k : Z) :
  Py.find line "//*" = -1 ->
  Py.find line "/*" = -1 ->
  Py.find line "//" = k -> k <> -1 ->
  get_uncommented line false = Ok (Py.slice line 0 k, false).
Proof.
  intros Hu Hb Hk Hk'.
  assert (Hlen : 0 < Py.len line).
  { destruct line; [|unfold Py.len; simpl; lia].
    subst k. exfalso. apply Hk'. reflexivity. }
  unfold get_uncommented. cbn [negb unblock]. rewrite Hu.
  change (-1 =? -1) with true. cbn [negb bind].
  replace (2 * String.length line + 2)%nat
    with (S (S (2 * String.length line)))%nat by lia.
  cbn [uncomment_loop].
  destruct (0 <? Py.len line) eqn:E0; [|apply Z.ltb_ge in E0; lia].
  rewrite slice_from_0, Hb, Hk. change (-1 =? -1) with true. cbn [negb].
  destruct (k =? -1) eqn:Ek; [apply Z.eqb_eq in Ek; congruence|].
  cbn [negb]. rewrite Z.ltb_irrefl. reflexivity.
Qed.

(** C3, at an input where the text and the code part: a [//] comment
    after a block comment closed on the same line. The text before the
    marker is [" wire x; "]; the stripper keeps [" w"], the characters
    between the absolute columns 7 and 9, because the end of the kept
    slice is the offset of the marker in the rest of the line, not its
    column. *)
Theorem line_comment_after_block_comment :
  get_uncommented "/* c */ wire x; // d" false = Ok (" w", false).
Proof. reflexivity. Qed.

(** A block-comment opener inside a line comment is looked for first:
    the line comment stays in the output and the next line starts inside
    a block comment. *)
Lemma block_opener_inside_line_comment :
  get_uncommented "wire x; // see /* below" false
    = Ok ("wire x; // see ", true).
Proof. reflexivity. Qed.

(* ================================================================== *)
(** ** The instance extractor *)
(* ================================================================== *)

Lemma find_char_at (c : ascii) (s : string) (k : Z) :
  0 <= k ->
  (Py.find_at k s (String c "") = -1 <-> ~ has_char c s).
Proof.
  unfold has_char. revert k.
  induction s as [|d s IH]; intros k Hk; simpl.
  - tauto.
  - rewrite andb_true_r. destruct (Ascii.eqb d c) eqn:E.
    + apply Ascii.eqb_eq in E. split; [lia|]. intros H. exfalso. auto.
    + apply Ascii.eqb_neq in E. rewrite IH by lia. tauto.
Qed.

Lemma find_char (c : ascii) (s : string) :
  (Py.find s (String c "") =? -1) = true <-> ~ has_char c s.
Proof.
  rewrite Z.eqb_eq. apply find_char_at. lia.
Qed.

Lemma has_char_app (c : ascii) (a b : string) :
  has_char c (a +++ b) <-> has_char c a \/ has_char c b.
Proof.
  unfold has_char. induction a as [|d a IH]; simpl.
  - tauto.
  - rewrite IH. tauto.
Qed.

Lemma str_in_iff (x : string) (l : list string) :
  Py.str_in x l = true <-> In x l.
Proof.
  unfold Py.str_in. rewrite existsb_exists. split.
  - intros (y & Hy & E). apply String.eqb_eq in E. subst. exact Hy.
  - intros H. exists x. split; [exact H|apply String.eqb_refl].
Qed.

Lemma str_not_in_iff (x : string) (l : list string) :
  negb (Py.str_in x l) = true <-> ~ In x l.
Proof.
  rewrite negb_true_iff, <- str_in_iff. destruct (Py.str_in x l); split;
    congruence.
Qed.

Lemma non_empty_iff (s : string) :
  negb (String.eqb s "") = true <-> s <> "".
Proof.
  rewrite negb_true_iff. apply String.eqb_neq.
Qed.

(** The test of the code is the rule of the text. *)
Lemma accepts_iff (inst_type inst_name : string) :
  accepts inst_type inst_name = true <-> acceptable inst_type inst_name.
Proof.
  unfold accepts, acceptable. cbv zeta.
  rewrite !andb_true_iff, !find_char, !non_empty_iff, !str_not_in_iff.
  split.
  - intros H. decompose [and] H. clear H. repeat split; try assumption;
      simpl in H; decompose [or] H; subst; try contradiction;
      rewrite has_char_app in *; tauto.
  - intros (Ht & Hn & Hkt & Hkn & Hc).
    repeat split; try assumption; apply Hc; simpl; tauto.
Qed.

(** A span that strips to a single word gives no candidate: the word
    lands in the name and the type is empty. *)
Lemma candidate_single_word (code : string) (submod_start submod_end : Z)
    (w : string) :
  Py.strip (Py.slice code submod_start submod_end) = w ->
  Py.find w " " = -1 ->
  candidate code submod_start submod_end = [].
Proof.
  intros Hw Hs. unfold candidate. cbv zeta.
  destruct (Py.find _ ";" =? -1); [|reflexivity].
  unfold get_module_type_name. rewrite Hw, Hs.
  unfold Py.slice_to, Py.clamp. simpl.
  rewrite Z.min_l by (unfold Py.len; lia). reflexivity.
Qed.

Lemma candidate_cases (code : string) (submod_start submod_end : Z) :
  candidate code submod_start submod_end = [] \/
  exists inst_type inst_name,
    candidate code submod_start submod_end = [(inst_type, inst_name)] /\
    accepts inst_type inst_name = true.
Proof.
  unfold candidate. cbv zeta.
  destruct (Py.find _ ";" =? -1); [|left; reflexivity].
  destruct (get_module_type_name _) as [t n].
  destruct (accepts t n) eqn:E; [right|left; reflexivity].
  exists t, n. split; [reflexivity|exact E].
Qed.

(** C1: the extractor appends the pair split from a candidate span
    exactly when the span holds no [;] and the pair is acceptable in the
    sense of the text; every iteration of the scan appends nothing or
    one acceptable pair; and the two bodies of the text give one
    instance and none. For the bare text ["if (cond) begin"] the scan
    appends nothing either, and stays on the same cursor since no [;]
    follows. *)
Theorem instance_acceptance :
  (forall code submod_start submod_end inst_type inst_name,
     get_module_type_name (Py.slice code submod_start submod_end)
       = (inst_type, inst_name) ->
     (Py.find (Py.slice code submod_start submod_end) ";" = -1 /\
      acceptable inst_type inst_name ->
      candidate code submod_start submod_end = [(inst_type, inst_name)]) /\
     (~ (Py.find (Py.slice code submod_start submod_end) ";" = -1 /\
         acceptable inst_type inst_name) ->
      candidate code submod_start submod_end = [])) /\
  (forall module code i submod_list i' submod_list',
     scan_step module code i submod_list = Ok (i', submod_list') ->
     submod_list' = submod_list \/
     exists inst_type inst_name,
       submod_list' = submod_list ++ [(inst_type, inst_name)] /\
       acceptable inst_type inst_name) /\
  scan_submodules "top" "my_adder u_add (...);"
    = Ok [("my_adder", "u_add")] /\
  scan_submodules "top" "module top; my_adder u_add (...); endmodule"
    = Ok [("my_adder", "u_add")] /\
  scan_submodules "top" "module top; if (cond) begin q <= d; end endmodule"
    = Ok [] /\
  scan_step "top" "if (cond) begin" 0 [] = Ok (0, []).
Proof.
  split; [|split; [|repeat split; reflexivity]].
  - intros code s e t n Hp. unfold candidate. cbv zeta. rewrite Hp.
    split.
    + intros [Hs Ha]. rewrite Hs. simpl.
      apply accepts_iff in Ha. rewrite Ha. reflexivity.
    + intros H. destruct (Py.find _ ";" =? -1) eqn:Es; [|reflexivity].
      destruct (accepts t n) eqn:Ea; [|reflexivity].
      exfalso. apply H. split; [apply Z.eqb_eq; exact Es|].
      apply accepts_iff. exact Ea.
  - intros module code i subs i' subs' H. unfold scan_step in H.
    cbv zeta in H.
    repeat match type of H with
           | (if ?b then _ else _) = _ => destruct b
           end;
      try (injection H as _ <-; left; reflexivity).
    destruct (strip_keywords _ _ _ _) as [start| | |]; simpl in H;
      try discriminate.
    injection H as _ <-.
    destruct (candidate_cases code start
                (i + Py.find (Py.slice_from code i) "("))
      as [->|(t & n & -> & Ha)].
    + left. apply app_nil_r.
    + right. exists t, n. split; [reflexivity|].
      apply accepts_iff. exact Ha.
Qed.

Lemma instance_acceptance_witness :
  candidate "my_adder u_add (...);" 0 15 = [("my_adder", "u_add")].
Proof.
  apply (proj1 (proj1 instance_acceptance "my_adder u_add (...);" 0 15
                  "my_adder" "u_add" eq_refl)).
  split; [reflexivity|].
  apply accepts_iff. reflexivity.
Defined.

(* ================================================================== *)
(** ** The body normaliser *)
(* ================================================================== *)

Lemma append_assoc (a b c : string) : (a +++ b) +++ c = a +++ b +++ c.
Proof.
  induction a as [|x a IH]; simpl; [reflexivity|rewrite IH; reflexivity].
Qed.

Lemma append_nil_r (a : string) : a +++ "" = a.
Proof.
  induction a as [|x a IH]; simpl; [reflexivity|rewrite IH; reflexivity].
Qed.

Lemma length_append (a b : string) :
  String.length (a +++ b) = (String.length a + String.length b)%nat.
Proof.
  induction a as [|x a IH]; simpl; [reflexivity|rewrite IH; reflexivity].
Qed.

Lemma len_append (a b : string) : Py.len (a +++ b) = Py.len a + Py.len b.
Proof.
  unfold Py.len. rewrite length_append. lia.
Qed.

Lemma len_nonneg (a : string) : 0 <= Py.len a.
Proof. unfold Py.len. lia. Qed.

Lemma drop_append (a b : string) : Py.drop (String.length a) (a +++ b) = b.
Proof.
  induction a as [|x a IH]; simpl; [destruct b; reflexivity|exact IH].
Qed.

Lemma take_append (a b : string) : Py.take (String.length a) (a +++ b) = a.
Proof.
  induction a as [|x a IH]; simpl; [reflexivity|rewrite IH; reflexivity].
Qed.

Lemma clamp_inside (n i : Z) : 0 <= i <= n -> Py.clamp n i = i.
Proof.
  intros H. unfold Py.clamp. destruct (i <? 0) eqn:E.
  - apply Z.ltb_lt in E. lia.
  - lia.
Qed.

Lemma slice_from_append (a b : string) :
  Py.slice_from (a +++ b) (Py.len a) = b.
Proof.
  unfold Py.slice_from. rewrite clamp_inside.
  - unfold Py.len. rewrite Nat2Z.id. apply drop_append.
  - rewrite len_append. pose proof (len_nonneg a). pose proof (len_nonneg b).
    lia.
Qed.

Lemma slice_middle (a b c : string) :
  Py.slice (a +++ b +++ c) (Py.len a) (Py.len a + Py.len b) = b.
Proof.
  unfold Py.slice. cbv zeta.
  pose proof (len_nonneg a). pose proof (len_nonneg b).
  pose proof (len_nonneg c).
  rewrite !clamp_inside by (rewrite !len_append; lia).
  replace (Py.len a + Py.len b - Py.len a) with (Py.len b) by lia.
  unfold Py.len. rewrite !Nat2Z.id, drop_append. apply take_append.
Qed.

Lemma startswith_append_l (s a b : string) :
  Py.startswith s (a +++ b) = true -> Py.startswith s a = true.
Proof.
  revert s. induction a as [|x a IH]; intros s H; simpl in *.
  - reflexivity.
  - destruct s as [|y s]; [discriminate|].
    apply andb_true_iff in H. destruct H as [-> H]. simpl. eauto.
Qed.

(** The text up to the first occurrence, and the text after it. *)
Lemma find_at_split (sub s : string) (k : Z) :
  Py.find_at k s sub <> -1 ->
  exists pre rest,
    s = pre +++ sub +++ rest /\ Py.find_at k s sub = k + Py.len pre.
Proof.
  revert k. induction s as [|c s IH]; intros k H; simpl in *.
  - destruct (Py.startswith "" sub) eqn:E; [|congruence].
    apply startswith_inv in E. destruct E as [r E].
    exists "", r. split; [exact E|unfold Py.len; simpl; lia].
  - destruct (Py.startswith (String c s) sub) eqn:E.
    + apply startswith_inv in E. destruct E as [r E].
      exists "", r. split; [exact E|unfold Py.len; simpl; lia].
    + destruct (IH _ H) as (pre & rest & -> & Hk).
      exists (String c pre), rest. split; [reflexivity|].
      rewrite Hk. unfold Py.len. simpl String.length. lia.
Qed.

(** Once inside an occurrence, [replace] passes over the rest of it. *)
Lemma replace_go_skip (old new a post : string) :
  Py.replace_go old new (String.length a) (a +++ post)
    = Py.replace_go old new O post.
Proof.
  induction a as [|x a IH]; simpl.
  - destruct post; reflexivity.
  - exact IH.
Qed.

(** [replace] on a text whose first occurrence of [opener] starts the
    first occurrence of [opener +++ tail]. *)
Lemma replace_first (opener tail new pre post : string) (k : Z) :
  opener <> "" ->
  Py.find_at k (pre +++ (opener +++ tail) +++ post) opener = k + Py.len pre ->
  Py.replace_go (opener +++ tail) new O (pre +++ (opener +++ tail) +++ post)
    = pre +++ new +++ Py.replace_go (opener +++ tail) new O post.
Proof.
  intros Hne. revert k. induction pre as [|c pre IH]; intros k Hk.
  - simpl. destruct opener as [|o opener]; [congruence|]. simpl.
    rewrite Ascii.eqb_refl. simpl.
    rewrite startswith_app. simpl.
    rewrite Nat.sub_0_r. f_equal. apply replace_go_skip.
  - simpl in Hk. cbn [String.append Py.replace_go].
    destruct (Py.startswith (String c (pre +++ (opener +++ tail) +++ post))
                (opener +++ tail)) eqn:E.
    + apply startswith_append_l in E.
      cbn [String.append] in E. rewrite E in Hk.
      unfold Py.len in Hk. simpl String.length in Hk. lia.
    + destruct (Py.startswith (String c (pre +++ (opener +++ tail) +++ post))
                  opener) eqn:E'.
      * unfold Py.len in Hk. simpl String.length in Hk. lia.
      * f_equal. apply (IH (k + 1)). rewrite Hk. unfold Py.len.
        simpl String.length. lia.
Qed.

Lemma replace_nonempty (s old new : string) :
  old <> "" -> Py.replace s old new = Py.replace_go old new O s.
Proof.
  destruct old; [congruence|reflexivity].
Qed.

(** The scan for the closer runs over a balanced text and stops just
    after the [)] that follows it. *)
Lemma paren_scan_balanced (inner rest : string) (i d : Z) :
  0 <= d ->
  balanced_from d inner = true ->
  paren_scan (inner +++ ")" +++ rest) i (1 + d) = Ok (i + Py.len inner + 1).
Proof.
  revert i d. induction inner as [|c inner IH]; intros i d Hd Hb.
  - simpl in Hb. apply Z.eqb_eq in Hb. subst d. unfold Py.len. simpl.
    f_equal. lia.
  - cbn [balanced_from] in Hb. apply andb_true_iff in Hb.
    destruct Hb as [Hc Hb]. apply Z.leb_le in Hc.
    cbn [String.append paren_scan]. unfold paren_delta in *.
    destruct (Ascii.eqb c ")") eqn:E1.
    + apply Ascii.eqb_eq in E1. subst c. simpl (Ascii.eqb ")" "(").
      cbv iota.
      destruct (1 + d - 1 =? 0) eqn:E0; [apply Z.eqb_eq in E0; lia|].
      replace (1 + d - 1) with (1 + (d + -1)) by lia.
      rewrite IH by (assumption || lia).
      unfold Py.len. simpl String.length. f_equal. lia.
    + destruct (Ascii.eqb c "(") eqn:E2.
      * destruct (1 + d + 1 =? 0) eqn:E0; [apply Z.eqb_eq in E0; lia|].
        replace (1 + d + 1) with (1 + (d + 1)) by lia.
        rewrite IH by (assumption || lia).
        unfold Py.len. simpl String.length. f_equal. lia.
      * destruct (1 + d =? 0) eqn:E0; [apply Z.eqb_eq in E0; lia|].
        replace (1 + d) with (1 + (d + 0)) at 1 by lia.
        rewrite IH by (assumption || lia).
        unfold Py.len. simpl String.length. f_equal. lia.
Qed.

(** One turn of the skipper on a text whose first opener is followed by
    a balanced text and its closer: the whole span goes, with every
    later copy of the same span. *)
Lemma skip_block_balanced (opener pre inner post : string) :
  opener <> "" ->
  Py.find (pre +++ (opener +++ inner +++ ")") +++ post) opener = Py.len pre ->
  balanced inner = true ->
  skip_block opener (pre +++ (opener +++ inner +++ ")") +++ post)
    = Ok (Some (pre +++ Py.replace post (opener +++ inner +++ ")") "")).
Proof.
  intros Hne Hf Hb. unfold skip_block. rewrite Hf.
  pose proof (len_nonneg pre) as Hp. pose proof (len_nonneg opener) as Ho.
  destruct (Py.len pre =? -1) eqn:E; [apply Z.eqb_eq in E; lia|].
  cbn [negb].
  assert (Hshape : pre +++ (opener +++ inner +++ ")") +++ post
                   = (pre +++ opener) +++ inner +++ ")" +++ post).
  { rewrite !append_assoc. reflexivity. }
  rewrite Hshape at 1. rewrite <- len_append, slice_from_append.
  change 1 with (1 + 0) at 1.
  rewrite paren_scan_balanced by (exact Hb || lia).
  cbn [bind]. f_equal. f_equal.
  replace (Py.len (pre +++ opener) + Py.len inner + 1)
    with (Py.len pre + Py.len (opener +++ inner +++ ")")).
  2:{ rewrite !len_append. change (Py.len ")") with 1. lia. }
  rewrite slice_middle.
  assert (Hspan : opener +++ inner +++ ")" <> "").
  { destruct opener; [congruence|discriminate]. }
  rewrite !replace_nonempty by exact Hspan.
  apply (replace_first opener (inner +++ ")") "" pre post 0 Hne).
  exact Hf.
Qed.

(** The loop ends on a text with no opener left. *)
Lemma skip_blocks_none_left (fuel : nat) (opener code r : string) :
  skip_blocks fuel opener code = Ok r -> Py.find r opener = -1.
Proof.
  revert code. induction fuel as [|fuel IH]; intros code H; simpl in H.
  - discriminate.
  - unfold skip_block in H.
    destruct (Py.find code opener =? -1) eqn:E; cbn [negb] in H.
    + simpl in H. injection H as <-. apply Z.eqb_eq. exact E.
    + destruct (paren_scan _ _ _); simpl in H; try discriminate.
      eapply IH. exact H.
Qed.

Lemma paren_scan_split (rest : string) (i lvl j : Z) :
  paren_scan rest i lvl = Ok j ->
  exists a b, rest = a +++ b /\ a <> "" /\ j = i + Py.len a.
Proof.
  revert i lvl. induction rest as [|c rest IH]; intros i lvl H; simpl in H.
  - discriminate.
  - match type of H with (if ?b then _ else _) = _ => destruct b end.
    + injection H as <-. exists (String c ""), rest.
      split; [reflexivity|]. split; [discriminate|reflexivity].
    + destruct (IH _ _ H) as (a & b & -> & _ & ->).
      exists (String c a), b.
      split; [reflexivity|]. split; [discriminate|].
      unfold Py.len. simpl String.length. lia.
Qed.

Lemma replace_go_length (old s : string) (k : nat) :
  (String.length (Py.replace_go old "" k s) <= String.length s)%nat.
Proof.
  revert k. induction s as [|c s IH]; intros k; simpl.
  - lia.
  - destruct k.
    + destruct (Py.startswith (String c s) old); simpl.
      * specialize (IH (String.length old - 1)%nat). lia.
      * specialize (IH O). lia.
    + specialize (IH k). lia.
Qed.

(** Every turn of the skipper that goes on shortens the text. *)
Lemma skip_block_shrinks (opener code code' : string) :
  opener <> "" ->
  skip_block opener code = Ok (Some code') ->
  (String.length code' < String.length code)%nat.
Proof.
  intros Hne H. unfold skip_block in H.
  destruct (Py.find code opener =? -1) eqn:E; cbn [negb] in H;
    [discriminate|].
  apply Z.eqb_neq in E.
  destruct (find_at_split opener code 0 E) as (pre & rest & Hc & Hf).
  fold (Py.find code opener) in Hf. rewrite Hf in H. simpl in Hf, H.
  subst code. rewrite <- len_append in H.
  rewrite <- append_assoc in H. rewrite slice_from_append in H.
  destruct (paren_scan rest _ 1) as [j| | |] eqn:Ep; simpl in H;
    try discriminate.
  destruct (paren_scan_split _ _ _ _ Ep) as (a & b & -> & Ha & ->).
  injection H as <-.
  assert (Hshape : (pre +++ opener) +++ a +++ b
                   = pre +++ (opener +++ a) +++ b).
  { rewrite !append_assoc. reflexivity. }
  rewrite Hshape.
  replace (Py.len (pre +++ opener) + Py.len a)
    with (Py.len pre + Py.len (opener +++ a))
    by (rewrite !len_append; lia).
  rewrite slice_middle.
  assert (Hspan : opener +++ a <> "").
  { destruct opener; [congruence|discriminate]. }
  rewrite replace_nonempty by exact Hspan.
  rewrite (replace_first opener a "" pre b 0 Hne).
  - cbn [String.append]. rewrite !length_append.
    pose proof (replace_go_length (opener +++ a) b 0).
    assert (0 < String.length opener)%nat
      by (destruct opener; [congruence|simpl; lia]).
    lia.
  - rewrite append_assoc. exact Hf.
Qed.

Lemma paren_scan_outcome (rest : string) (i lvl : Z) :
  (exists j, paren_scan rest i lvl = Ok j) \/
  paren_scan rest i lvl = Raise IndexError.
Proof.
  revert i lvl. induction rest as [|c rest IH]; intros i lvl; simpl.
  - right. reflexivity.
  - match goal with |- context [if ?b then _ else _] => destruct b end.
    + left. eexists. reflexivity.
    + apply IH.
Qed.

(** The budget of [get_one_line_code] for the skipper is enough. *)
Lemma skip_blocks_fuel (opener : string) (fuel : nat) (code : string) :
  opener <> "" ->
  (String.length code < fuel)%nat ->
  skip_blocks fuel opener code <> OutOfFuel.
Proof.
  intros Hne. revert code. induction fuel as [|fuel IH]; intros code Hl.
  - lia.
  - simpl. destruct (skip_block opener code) as [[code'|]| | |] eqn:E;
      simpl; try discriminate.
    + apply IH. apply skip_block_shrinks in E; [lia|exact Hne].
    + unfold skip_block in E.
      destruct (negb _); [|discriminate].
      match type of E with
      | context [paren_scan ?r ?i ?l] =>
          destruct (paren_scan_outcome r i l) as [[j Hj]|Hj]; rewrite Hj in E
      end; discriminate.
Qed.

(** C5: a turn of the parameter-block skipper on a text whose first [#(]
    is followed by a balanced text and its closer deletes the span from
    the opener to the closer (and the later copies of that span); the
    turns repeat, within the budget, until no [#(] is left; and the body
    of the text normalises to ["foo bar(...);"]. *)
Theorem parameter_blocks_removed :
  (forall pre inner post,
     Py.find (pre +++ ("#(" +++ inner +++ ")") +++ post) "#(" = Py.len pre ->
     balanced inner = true ->
     skip_block "#(" (pre +++ ("#(" +++ inner +++ ")") +++ post)
       = Ok (Some (pre +++ Py.replace post ("#(" +++ inner +++ ")") ""))) /\
  (forall code,
     skip_blocks (S (String.length code)) "#(" code <> OutOfFuel) /\
  (forall code r,
     skip_blocks (S (String.length code)) "#(" code = Ok r ->
     Py.find r "#(" = -1) /\
  get_one_line_code ["foo #(WIDTH(8)) bar(...);"] = Ok "foo bar(...);".
Proof.
  repeat split.
  - intros pre inner post Hf Hb.
    apply skip_block_balanced; [discriminate|exact Hf|exact Hb].
  - intros code. apply skip_blocks_fuel; [discriminate|lia].
  - intros code r. apply skip_blocks_none_left.
Qed.

Lemma parameter_blocks_removed_witness :
  skip_block "#(" "foo #(WIDTH(8)) bar(...);" = Ok (Some "foo  bar(...);").
Proof.
  apply (proj1 parameter_blocks_removed "foo " "WIDTH(8)" " bar(...);");
    reflexivity.
Defined.

(* ================================================================== *)
(** ** The registries of the examples *)
(* ================================================================== *)

(** Each registry used below is what reading its files leaves in
    [verilog_modules]. *)
Lemma example_registries :
  parse_files no_ports two_files initial_globals
    = (mk_globals two_module_registry ["top"; "leaf"] [] [] [] [] [], Ok tt) /\
  parse_files no_ports ring_files initial_globals
    = (mk_globals ring_registry ["ring"; "top"] [] [] [] [] [], Ok tt) /\
  parse_files no_ports ghost_files initial_globals
    = (mk_globals ghost_registry ["top"; "leaf"] [] [] [] [] [], Ok tt).
Proof. repeat split; vm_compute; reflexivity. Qed.

(* ================================================================== *)
(** ** The hierarchy reporter *)
(* ================================================================== *)

(** A call on a type that is not registered, below the root: it returns
    at once, in its own frame, and leaves everything as it was. *)
Lemma report_unregistered (depth : nat) (i_type : string) (hier_num : Z)
    (report_unused : bool) (max_depth : Z) (w : world) :
  read_module_info (verilog_modules (fst w)) i_type = None ->
  hier_num <> 0 ->
  report_hierarchy (S depth) i_type hier_num report_unused max_depth w
    = (w, Ok tt).
Proof.
  intros Hn Hh. cbn [report_hierarchy]. rewrite Hn.
  apply Z.eqb_neq in Hh. rewrite Hh. reflexivity.
Qed.

(** C9: a call of [report_hierarchy] on an unregistered type, below the
    root, returns in its own frame with the state and the output
    untouched; so an instance of such a type costs the loop of its parent
    its own line and nothing more, and the loop goes on with the next
    instance. In the registry where [top] holds an instance of the
    undefined [ghost] before one of [leaf], the report is the root line
    and one line per instance. *)
Theorem undefined_type_is_leaf :
  (forall depth i_type hier_num report_unused max_depth w,
     read_module_info (verilog_modules (fst w)) i_type = None ->
     hier_num <> 0 ->
     report_hierarchy (S depth) i_type hier_num report_unused max_depth w
       = (w, Ok tt)) /\
  (forall depth i_type i_name rest hier_num max_depth w,
     read_module_info (verilog_modules (fst w)) i_type = None ->
     0 <= hier_num ->
     report_instances
       (fun t h w' => report_hierarchy (S depth) t h false max_depth w')
       ((i_type, i_name) :: rest) hier_num max_depth w
     = report_instances
         (fun t h w' => report_hierarchy (S depth) t h false max_depth w')
         rest hier_num max_depth
         (instance_reported hier_num i_type i_name w)) /\
  (let '(w, r) :=
     report_hierarchy 3 "top" 0 false 0
       (set_modules initial_globals ghost_registry, no_io) in
   r = Ok tt /\
   out_file (snd w)
     = [ "top" +++ Py.nl;
         Py.tab +++ "g0 (ghost)" +++ Py.nl;
         Py.tab +++ "u0 (leaf)" +++ Py.nl ]).
Proof.
  split; [|split].
  - intros. apply report_unregistered; assumption.
  - intros depth i_type i_name rest hier_num max_depth [g o] Hn Hh.
    cbn [report_instances instance_reported].
    destruct ((max_depth =? 0) || (hier_num <? max_depth - 1));
      [|reflexivity].
    rewrite report_unregistered; [reflexivity|exact Hn|lia].
  - split; reflexivity.
Qed.

Lemma undefined_type_is_leaf_witness :
  report_hierarchy 1 "ghost" 1 false 0
    (set_modules initial_globals ghost_registry, no_io)
  = ((set_modules initial_globals ghost_registry, no_io), Ok tt).
Proof.
  apply (proj1 undefined_type_is_leaf 0%nat "ghost" 1 false 0
           (set_modules initial_globals ghost_registry, no_io)).
  - reflexivity.
  - discriminate.
Defined.

(* ================================================================== *)
(** ** The reverse path finder *)
(* ================================================================== *)

Lemma grows_refl (o : io) : grows o o.
Proof. exists []. symmetry. apply app_nil_r. Qed.

Lemma grows_trans (o1 o2 o3 : io) : grows o1 o2 -> grows o2 o3 -> grows o1 o3.
Proof.
  intros [l1 H1] [l2 H2]. exists (l1 ++ l2). rewrite H2, H1.
  symmetry. apply app_assoc.
Qed.

Lemma grows_print (o : io) (s : string) : grows o (print o s).
Proof. exists []. simpl. symmetry. apply app_nil_r. Qed.

Lemma grows_write (o : io) (s : string) : grows o (write o s).
Proof. exists [s]. reflexivity. Qed.

Lemma grows_In (o o' : io) (x : string) :
  grows o o' -> In x (out_file o) -> In x (out_file o').
Proof.
  intros [l ->] H. apply in_or_app. left. exact H.
Qed.

Section Search.

Variable rec : string -> string -> io -> io * result unit.
Variables module_type search_module : string.

(** The call one frame deeper only adds to the report file. *)
Hypothesis rec_grows : forall m p o, grows o (fst (rec m p o)).

Lemma search_submodules_grows (module_name : string)
    (subs : list (string * string)) (current_path : string) (o : io) :
  grows o (fst (search_submodules rec module_name subs module_type
                  search_module current_path o)).
Proof.
  revert o. induction subs as [|[t n] subs IH]; intros o; simpl.
  - apply grows_refl.
  - destruct (String.eqb t module_type); [|apply IH].
    match goal with
    | |- context [rec ?m ?p ?o1] =>
        pose proof (rec_grows m p o1) as Hr;
        assert (Hw : grows o o1);
        [|destruct (rec m p o1) as [o2 [[]| | |]]; simpl in Hr |- *;
          try (eapply grows_trans; [exact Hw|exact Hr])]
    end.
    + destruct (String.eqb module_name search_module);
        [|apply grows_refl].
      eapply grows_trans; [apply grows_print|apply grows_write].
    + eapply grows_trans; [exact Hw|].
      eapply grows_trans; [exact Hr|apply IH].
Qed.

Lemma search_modules_grows (mods : list VerilogModule)
    (current_path : string) (o : io) :
  grows o (fst (search_modules rec mods module_type search_module
                  current_path o)).
Proof.
  revert o. induction mods as [|m mods IH]; intros o; simpl.
  - apply grows_refl.
  - pose proof (search_submodules_grows (name m) (submodules m)
                  current_path o) as H.
    destruct (search_submodules _ _ _ _ _ _ _) as [o1 [[]| | |]];
      simpl in H |- *; try exact H.
    eapply grows_trans; [exact H|apply IH].
Qed.

(** A search that returns has written the line of every matching
    instance of the scope module. *)
Lemma search_submodules_emits (subs : list (string * string))
    (current_path : string) (o o' : io) (i_name : string) :
  search_submodules rec search_module subs module_type search_module
    current_path o = (o', Ok tt) ->
  In (module_type, i_name) subs ->
  In (found_line search_module (path_of i_name current_path)) (out_file o').
Proof.
  revert o. induction subs as [|[t n] subs IH]; intros o H Hin.
  - destruct Hin.
  - simpl in H. destruct (String.eqb t module_type) eqn:Et.
    + rewrite String.eqb_refl in H.
      match type of H with
      | context [rec ?m ?p ?o1] =>
          pose proof (rec_grows m p o1) as Hr;
          destruct (rec m p o1) as [o2 [[]| | |]]; simpl in Hr;
          try discriminate
      end.
      destruct Hin as [E|Hin].
      * injection E as -> ->.
        pose proof (search_submodules_grows search_module subs current_path
                      o2) as Hg.
        rewrite H in Hg. simpl in Hg.
        eapply grows_In; [exact Hg|].
        eapply grows_In; [exact Hr|].
        simpl. apply in_or_app. right. left. reflexivity.
      * eapply IH; [exact H|exact Hin].
    + destruct Hin as [E|Hin].
      * injection E as -> ->. rewrite String.eqb_refl in Et. discriminate.
      * eapply IH; [exact H|exact Hin].
Qed.

Lemma search_modules_emits (mods : list VerilogModule)
    (current_path : string) (o o' : io) (m : VerilogModule)
    (i_name : string) :
  search_modules rec mods module_type search_module current_path o
    = (o', Ok tt) ->
  In m mods -> name m = search_module ->
  In (module_type, i_name) (submodules m) ->
  In (found_line search_module (path_of i_name current_path)) (out_file o').
Proof.
  revert o. induction mods as [|m0 mods IH]; intros o H Hin Hn Hs.
  - destruct Hin.
  - simpl in H.
    destruct (search_submodules rec (name m0) _ _ _ _ o)
      as [o1 [[]| | |]] eqn:E; try discriminate.
    destruct Hin as [->|Hin].
    + rewrite Hn in E.
      pose proof (search_modules_grows mods current_path o1) as Hg.
      rewrite H in Hg. simpl in Hg.
      eapply grows_In; [exact Hg|].
      eapply search_submodules_emits; [exact E|exact Hs].
    + eapply IH; eassumption.
Qed.

(** The loops return when the deeper call returns for every module that
    holds a matching instance. *)
Lemma search_submodules_returns (module_name : string)
    (subs : list (string * string)) (current_path : string) (o : io) :
  ((exists n, In (module_type, n) subs) ->
   forall p o1, exists o2, rec module_name p o1 = (o2, Ok tt)) ->
  exists o',
    search_submodules rec module_name subs module_type search_module
      current_path o = (o', Ok tt).
Proof.
  revert o. induction subs as [|[t n] subs IH]; intros o Hrec; simpl.
  - eexists. reflexivity.
  - destruct (String.eqb t module_type) eqn:Et.
    + apply String.eqb_eq in Et. subst t.
      match goal with
      | |- context [rec ?m ?p ?o1] =>
          destruct (Hrec (ex_intro _ n (or_introl eq_refl)) p o1)
            as [o2 ->]
      end.
      apply IH. intros _. apply Hrec. exists n. left. reflexivity.
    + apply IH. intros [n' Hn']. apply Hrec. exists n'. right. exact Hn'.
Qed.

Lemma search_modules_returns (mods : list VerilogModule)
    (current_path : string) (o : io) :
  (forall m, In m mods -> (exists n, In (module_type, n) (submodules m)) ->
   forall p o1, exists o2, rec (name m) p o1 = (o2, Ok tt)) ->
  exists o',
    search_modules rec mods module_type search_module current_path o
      = (o', Ok tt).
Proof.
  revert o. induction mods as [|m mods IH]; intros o Hrec; simpl.
  - eexists. reflexivity.
  - destruct (search_submodules_returns (name m) (submodules m)
                current_path o) as [o1 ->].
    + apply Hrec. left. reflexivity.
    + apply IH. intros m' Hm'. apply Hrec. right. exact Hm'.
Qed.

End Search.

Lemma find_all_instances_grows (depth : nat) (registry : list VerilogModule)
    (module_type search_module current_path : string) (o : io) :
  grows o (fst (find_all_instances depth registry module_type search_module
                  current_path o)).
Proof.
  revert module_type current_path o.
  induction depth as [|depth IH]; intros module_type current_path o.
  - apply grows_refl.
  - cbn [find_all_instances].
    eapply grows_trans;
      [|apply search_modules_grows; intros m p o1; apply IH].
    destruct (String.eqb current_path ""); [apply grows_print|apply grows_refl].
Qed.

(** On an acyclic registry the search returns within a number of frames
    given by the rank of the type looked for. *)
Lemma find_all_instances_returns (rank : string -> nat)
    (registry : list VerilogModule) (search_module : string) :
  acyclic rank registry ->
  forall depth module_type current_path o,
    (rank module_type < depth)%nat ->
    exists o',
      find_all_instances depth registry module_type search_module
        current_path o = (o', Ok tt).
Proof.
  intros Hacyc. induction depth as [|depth IH];
    intros module_type current_path o Hr.
  - lia.
  - cbn [find_all_instances]. apply search_modules_returns.
    intros m Hm [n Hn] p o1. apply IH.
    specialize (Hacyc m module_type n Hm Hn). lia.
Qed.

(** In the ring registry the search for [ring] never gets past the first
    module: every frame opens the next one, until the interpreter gives
    up, and nothing is written. *)
Lemma ring_search (depth : nat) (current_path : string) (o : io) :
  exists o',
    find_all_instances depth ring_registry "ring" "top" current_path o
      = (o', Raise RecursionError) /\
    out_file o' = out_file o.
Proof.
  revert current_path o. induction depth as [|depth IH];
    intros current_path o.
  - exists o. split; reflexivity.
  - cbn [find_all_instances ring_registry search_modules search_submodules
           name submodules].
    change (String.eqb "ring" "ring") with true.
    change (String.eqb "ring" "top") with false. cbv iota.
    match goal with
    | |- context [find_all_instances depth ring_registry "ring" "top" ?p ?o1] =>
        destruct (IH p o1) as (o' & -> & Ho)
    end.
    exists o'. split; [reflexivity|]. rewrite Ho.
    destruct (String.eqb current_path ""); reflexivity.
Qed.

(** C7 as stated fails: in the ring registry [top] holds an instance
    [u0] of type [ring], and no number of frames lets the search for
    [ring] under [top] write [top.u0]. *)
Lemma finder_misses_instance_behind_cycle :
  ~ (forall registry module_type search_module m i_name,
       In m registry -> name m = search_module ->
       In (module_type, i_name) (submodules m) ->
       exists depth,
         In (found_line search_module i_name)
            (out_file (fst (find_all_instances depth registry module_type
                              search_module "" no_io)))).
Proof.
  intros H.
  destruct (H ring_registry "ring" "top"
              (mk_module "top" [] [] [("ring", "u0")] "top.v" 1 11) "u0")
    as [depth Hin].
  - right. left. reflexivity.
  - reflexivity.
  - left. reflexivity.
  - destruct (ring_search depth "" no_io) as (o' & E & Ho).
    rewrite E in Hin. simpl in Hin. rewrite Ho in Hin. exact Hin.
Qed.

(** C7, amended: on an acyclic registry, with more frames than the rank
    of the type looked for, the search returns and has written the line
    [scope.path] of every instance of that type held by a module named
    as the scope, where the path is the instance name followed by the
    path traced so far; and in the two-module scenario the search for
    [leaf] under [top] writes [top.u0] and nothing else. *)
Theorem finder_emits_on_acyclic_registry :
  (forall rank depth registry module_type search_module current_path o,
     acyclic rank registry ->
     (rank module_type < depth)%nat ->
     exists o',
       find_all_instances depth registry module_type search_module
         current_path o = (o', Ok tt) /\
       forall m i_name,
         In m registry -> name m = search_module ->
         In (module_type, i_name) (submodules m) ->
         In (found_line search_module (path_of i_name current_path))
            (out_file o')) /\
  (forall depth,
     let '(o', r) :=
       find_all_instances (2 + depth) two_module_registry "leaf" "top" ""
         no_io in
     r = Ok tt /\ out_file o' = [found_line "top" "u0"]).
Proof.
  split.
  - intros rank depth registry module_type search_module current_path o
      Hacyc Hr.
    destruct (find_all_instances_returns rank registry search_module Hacyc
                depth module_type current_path o Hr) as [o' E].
    exists o'. split; [exact E|].
    intros m i_name Hm Hn Hs.
    destruct depth as [|depth]; [lia|].
    cbn [find_all_instances] in E.
    eapply search_modules_emits; [|exact E|exact Hm|exact Hn|exact Hs].
    intros m' p o1. apply find_all_instances_grows.
  - intros depth. split; reflexivity.
Qed.

Lemma finder_emits_on_acyclic_registry_witness :
  exists o',
    find_all_instances 2 two_module_registry "leaf" "top" "" no_io
      = (o', Ok tt) /\
    forall m i_name,
      In m two_module_registry -> name m = "top" ->
      In ("leaf", i_name) (submodules m) ->
      In (found_line "top" (path_of i_name "")) (out_file o').
Proof.
  apply (proj1 finder_emits_on_acyclic_registry
           (fun s => if String.eqb s "top" then 0%nat else 1%nat)
           2%nat two_module_registry "leaf" "top" "" no_io).
  - intros m t n Hm Hs.
    destruct Hm as [<-|[<-|[]]]; simpl in Hs.
    + destruct Hs as [E|[]]. injection E as <- <-. simpl. lia.
    + destruct Hs.
  - simpl. lia.
Defined.

(* ================================================================== *)
(** ** File ingestion: the boundary tracker *)
(* ================================================================== *)

(** The guard [(line != "") or (line != "\n")] holds of every line. *)
Lemma line_guard (u : string) :
  negb (String.eqb u "") || negb (String.eqb u Py.nl) = true.
Proof. destruct u; reflexivity. Qed.

Lemma set_defines_same (g : globals) :
  set_defines g (verilog_define_variables g) = g.
Proof. destruct g. reflexivity. Qed.

(** A line that comes out of the filter with text on it is no directive:
    the filter hands it back and changes nothing. *)
Lemma check_ifdefs_passes (line : string) (inside : bool)
    (stack defs : list string) (st : ifdef_state) :
  check_ifdefs line inside stack defs = Ok st ->
  filtered_line st <> "" ->
  st = mk_ifdef_state line inside stack defs.
Proof.
  unfold check_ifdefs. intros H Hne.
  repeat match type of H with
         | (if ?b then _ else _) = _ => destruct b
         | bind (pop ?s) _ = _ => destruct (pop s); simpl in H
         end;
    try discriminate; injection H as <-; simpl in Hne; congruence.
Qed.

Section Tracker.

Variable finditer : string -> list (string * option string * string).
Variable filename : string.

Lemma process_lines_app (a b : list string) (l : locals) (g : globals) :
  process_lines finditer filename l g (a ++ b) =
    match process_lines finditer filename l g a with
    | (g', Ok l') => process_lines finditer filename l' g' b
    | stopped => stopped
    end.
Proof.
  revert l g. induction a as [|x a IH]; intros l g; simpl.
  - reflexivity.
  - destruct (process_line finditer filename l g x) as [g' [l'| | |]]; try reflexivity.
    apply IH.
Qed.

(** [endmodule] on a filtered line while no module is open. *)
Lemma process_line_idle_endmodule (l : locals) (g : globals)
    (line u : string) (bc : bool) (st : ifdef_state) :
  get_uncommented line (block_comment l) = Ok (u, bc) ->
  check_ifdefs u (l_inside_ifdef l) (l_ifdef_stack l)
    (verilog_define_variables g) = Ok st ->
  Py.find (filtered_line st) "endmodule" <> -1 ->
  active_module l = false ->
  process_line finditer filename l g line = (g, Raise SystemExit).
Proof.
  intros Hu Hc Hf Ha. unfold process_line.
  rewrite Hu, Hc. cbv zeta. rewrite line_guard.
  assert (Hne : filtered_line st <> "").
  { intros E. rewrite E in Hf. apply find_empty in Hf. discriminate. }
  rewrite (check_ifdefs_passes _ _ _ _ _ Hc Hne) in *. simpl in *.
  apply Z.eqb_neq in Hf. rewrite Hf. simpl. rewrite Ha. simpl.
  rewrite set_defines_same. reflexivity.
Qed.

Lemma finish_module_idle (l l' : locals) (g g' : globals) (u : string) :
  finish_module finditer filename l g u = (g', Ok l') -> active_module l' = false.
Proof.
  unfold finish_module. intros H.
  destruct (get_one_line_code _); try (injection H as _ H; discriminate).
  destruct (negb _).
  - destruct (save_module_attributes _ _ _) as [[[i o] s]| | |];
      injection H as _ H; try discriminate.
    subst l'. reflexivity.
  - injection H as _ H. subst l'. reflexivity.
Qed.

(** A line after which the tracker is inside a module has not touched
    the registry. *)
Lemma process_line_stays (l l' : locals) (g g' : globals) (line : string) :
  process_line finditer filename l g line = (g', Ok l') ->
  active_module l' = true ->
  registry g' = registry g.
Proof.
  unfold process_line. intros H Ha.
  destruct (get_uncommented _ _) as [[u bc]| | |];
    try (injection H as _ H; discriminate).
  destruct (check_ifdefs _ _ _ _) as [st| | |];
    try (injection H as _ H; discriminate).
  cbv zeta in H. rewrite line_guard in H.
  destruct (negb (Py.find (filtered_line st) "endmodule" =? -1)).
  - destruct (negb _) in H; [injection H as _ H; discriminate|].
    apply finish_module_idle in H. congruence.
  - destruct (_ || _) in H.
    + destruct (get_module_name _); injection H as <- H; try discriminate.
      reflexivity.
    + destruct (active_module _) in H; injection H as <- H; reflexivity.
Qed.

Lemma stays_in_module_registry (region : list string) (l : locals)
    (g : globals) :
  stays_in_module finditer filename l g region ->
  exists g' l',
    process_lines finditer filename l g region = (g', Ok l') /\
    registry g' = registry g /\
    (region <> [] -> active_module l' = true) /\
    (region = [] -> l' = l).
Proof.
  revert l g. induction region as [|line region IH]; intros l g H.
  - exists g, l. repeat split; congruence.
  - simpl in H |- *.
    destruct (process_line finditer filename l g line) as [g1 [l1| | |]] eqn:E;
      try contradiction.
    destruct H as [Ha H].
    destruct (IH _ _ H) as (g' & l' & -> & Hr & Hact & Hnil).
    exists g', l'. split; [reflexivity|].
    split; [rewrite Hr; eapply process_line_stays; eassumption|].
    split; [|discriminate].
    intros _. destruct region as [|x region].
    + rewrite (Hnil eq_refl). exact Ha.
    + apply Hact. discriminate.
Qed.

End Tracker.

(** C8: a filtered line that holds [endmodule] while no module is open
    ends the call by [exit()], with the globals as the lines before it
    left them; the end of the file while a module is open ends the call
    by [exit()] too; and when the lines of the open region have all kept
    the tracker inside the module, the registry at that exit is the one
    from before the region. *)
Theorem fatal_structure_errors
    (finditer : string -> list (string * option string * string))
    (filename : string) :
  (forall pre line post g g1 l1 u bc st,
     process_lines finditer filename initial_locals g pre = (g1, Ok l1) ->
     get_uncommented line (block_comment l1) = Ok (u, bc) ->
     check_ifdefs u (l_inside_ifdef l1) (l_ifdef_stack l1)
       (verilog_define_variables g1) = Ok st ->
     Py.find (filtered_line st) "endmodule" <> -1 ->
     active_module l1 = false ->
     parse_verilog_file finditer filename (pre ++ line :: post) g
       = (g1, Raise SystemExit)) /\
  (forall lines g g1 l1,
     process_lines finditer filename initial_locals g lines = (g1, Ok l1) ->
     active_module l1 = true ->
     parse_verilog_file finditer filename lines g
       = (g1, Raise SystemExit)) /\
  (forall pre region g g1 l1,
     process_lines finditer filename initial_locals g pre = (g1, Ok l1) ->
     region <> [] ->
     stays_in_module finditer filename l1 g1 region ->
     exists g2,
       parse_verilog_file finditer filename (pre ++ region) g
         = (g2, Raise SystemExit) /\
       registry g2 = registry g1).
Proof.
  split; [|split].
  - intros pre line post g g1 l1 u bc st Hpre Hu Hc Hf Ha.
    unfold parse_verilog_file. rewrite process_lines_app, Hpre.
    simpl. rewrite (process_line_idle_endmodule _ _ _ _ _ _ _ _ Hu Hc Hf Ha).
    reflexivity.
  - intros lines g g1 l1 H Ha. unfold parse_verilog_file.
    rewrite H, Ha. reflexivity.
  - intros pre region g g1 l1 Hpre Hne Hstay.
    destruct (stays_in_module_registry _ _ _ _ _ Hstay)
      as (g2 & l2 & Hrun & Hreg & Hact & _).
    exists g2. split; [|exact Hreg].
    unfold parse_verilog_file. rewrite process_lines_app, Hpre, Hrun.
    rewrite (Hact Hne). reflexivity.
Qed.

Lemma fatal_structure_errors_witness :
  parse_verilog_file no_ports "x.v"
    (lines_of ["module a;"; "endmodule"; "endmodule"; "module b;"])
    initial_globals
  = (fst (process_lines no_ports "x.v" initial_locals initial_globals
            (lines_of ["module a;"; "endmodule"])),
     Raise SystemExit).
Proof.
  eapply (proj1 (fatal_structure_errors no_ports "x.v")
            (lines_of ["module a;"; "endmodule"])
            ("endmodule" +++ Py.nl) (lines_of ["module b;"])
            initial_globals).
  - reflexivity.
  - reflexivity.
  - reflexivity.
  - discriminate.
  - reflexivity.
Defined.

(* ================================================================== *)
(** ** File ingestion: the registry *)
(* ================================================================== *)








Section Registry.

Variable finditer : string -> list (string * option string * string).







End Registry.




Section Replay.

Variable finditer : string -> list (string * option string * string).






End Replay.




(* ================================================================== *)
(** ** The iteration budgets are enough *)
(* ================================================================== *)

Lemma replace_go_bound (old new s : string) (k : nat) :
  (String.length new <= String.length old)%nat ->
  (String.length (Py.replace_go old new k s) + Nat.min k (String.length s)
   <= String.length s)%nat.
Proof.
  intros Hn. revert k. induction s as [|c s IH]; intros k.
  - simpl. lia.
  - destruct k as [|k]; cbn [Py.replace_go].
    + destruct (Py.startswith (String c s) old) eqn:E.
      * apply startswith_inv in E. destruct E as [r E].
        apply (f_equal String.length) in E. rewrite length_append in E.
        simpl in E. rewrite length_append.
        specialize (IH (String.length old - 1)%nat). simpl. lia.
      * specialize (IH O). simpl in *. lia.
    + specialize (IH k). simpl. lia.
Qed.

(** Replacing an occurrence by something shorter shortens the text. *)
Lemma replace_shrinks (s old new : string) :
  (String.length new < String.length old)%nat ->
  Py.find s old <> -1 ->
  (String.length (Py.replace s old new) < String.length s)%nat.
Proof.
  intros Hn Hf.
  assert (Hne : old <> "") by (destruct old; [simpl in Hn; lia|discriminate]).
  destruct (find_at_split old s 0 Hf) as (pre & rest & -> & Hk).
  rewrite replace_nonempty by exact Hne.
  assert (HA : Py.find_at 0 (pre +++ (old +++ "") +++ rest) old
               = 0 + Py.len pre) by (rewrite append_nil_r; exact Hk).
  pose proof (replace_first old "" new pre rest 0 Hne HA) as R.
  rewrite append_nil_r in R. rewrite R, !length_append.
  pose proof (replace_go_bound old new rest 0). simpl in H. lia.
Qed.

Lemma unblock_returns (fuel : nat) (line : string) :
  (String.length line < fuel)%nat -> exists line', unblock fuel line = Ok line'.
Proof.
  revert line. induction fuel as [|fuel IH]; intros line H; [lia|].
  simpl. destruct (Py.find line "//*" =? -1) eqn:E; simpl.
  - eexists. reflexivity.
  - apply IH. apply Z.eqb_neq in E.
    pose proof (replace_shrinks line "//*" "//"). simpl in H0.
    specialize (H0 ltac:(lia) E). lia.
Qed.

Lemma squeeze_returns (fuel : nat) (code : string) :
  (String.length code < fuel)%nat -> exists code', squeeze fuel code = Ok code'.
Proof.
  revert code. induction fuel as [|fuel IH]; intros code H; [lia|].
  simpl. destruct (Py.find code "  " =? -1) eqn:E; simpl.
  - eexists. reflexivity.
  - apply IH. apply Z.eqb_neq in E.
    pose proof (replace_shrinks code "  " " "). simpl in H0.
    specialize (H0 ltac:(lia) E). lia.
Qed.

Lemma find_bounds (s sub : string) :
  Py.find s sub <> -1 ->
  0 <= Py.find s sub /\ Py.find s sub + Py.len sub <= Py.len s.
Proof.
  intros H. destruct (find_at_split sub s 0 H) as (pre & rest & -> & Hk).
  fold (Py.find (pre +++ sub +++ rest) sub) in Hk. rewrite Hk.
  rewrite !len_append.
  pose proof (len_nonneg pre). pose proof (len_nonneg rest). lia.
Qed.

Lemma length_drop (n : nat) (s : string) :
  String.length (Py.drop n s) = (String.length s - n)%nat.
Proof.
  revert s. induction n as [|n IH]; intros s; simpl.
  - lia.
  - destruct s; simpl; [reflexivity|apply IH].
Qed.

Lemma len_slice_from (s : string) (i : Z) :
  0 <= i <= Py.len s -> Py.len (Py.slice_from s i) = Py.len s - i.
Proof.
  intros H. unfold Py.slice_from. rewrite clamp_inside by exact H.
  unfold Py.len in *. rewrite length_drop. lia.
Qed.

(** The loop of the comment stripper: what is left to scan, counted
    twice outside a block comment, goes down at every turn. *)
Lemma uncomment_loop_returns (fuel : nat) (line : string) (i : Z)
    (bc : bool) (out : string) :
  0 <= i ->
  Z.max 0 (Py.len line - i) + (if bc then 0 else 1) < Z.of_nat fuel ->
  exists r, uncomment_loop fuel line i bc out = Ok r.
Proof.
  revert i bc out. induction fuel as [|fuel IH]; intros i bc out Hi Hm.
  - destruct bc; lia.
  - cbn [uncomment_loop].
    destruct (i <? Py.len line) eqn:Ei; [|eexists; reflexivity].
    apply Z.ltb_lt in Ei.
    assert (Hl : Py.len (Py.slice_from line i) = Py.len line - i)
      by (apply len_slice_from; lia).
    destruct bc.
    + destruct (Py.find (Py.slice_from line i) "*/" =? -1) eqn:E; cbn [negb].
      * apply IH; lia.
      * apply Z.eqb_neq in E. apply find_bounds in E.
        change (Py.len "*/") with 2 in *. apply IH; lia.
    + destruct (Py.find (Py.slice_from line i) "/*" =? -1) eqn:E; cbn [negb].
      * destruct (negb _); apply IH; lia.
      * apply Z.eqb_neq in E. apply find_bounds in E.
        change (Py.len "/*") with 2 in *. apply IH; lia.
Qed.

(** [get_uncommented] returns on every line. *)
Lemma get_uncommented_returns (line : string) (bc : bool) :
  exists out bc', get_uncommented line bc = Ok (out, bc').
Proof.
  unfold get_uncommented.
  assert (H : exists line',
             (if negb bc then unblock (S (String.length line)) line
              else Ok line) = Ok line').
  { destruct bc; simpl negb; cbv iota.
    - eexists. reflexivity.
    - apply unblock_returns. lia. }
  destruct H as [line' ->]. cbn [bind].
  destruct (uncomment_loop_returns (2 * String.length line' + 2) line' 0 bc "")
    as [[out bc'] ->].
  - lia.
  - unfold Py.len. destruct bc; lia.
  - eexists. eexists. reflexivity.
Qed.

Lemma name_end_returns (fuel : nat) (line : string) (end_idx : Z) :
  0 <= end_idx <= Py.len line ->
  Py.len line - end_idx < Z.of_nat fuel ->
  exists r, name_end fuel line end_idx = Ok r.
Proof.
  revert end_idx. induction fuel as [|fuel IH]; intros end_idx Hi Hm; [lia|].
  cbn [name_end]. cbv zeta.
  repeat match goal with
         | |- context [if negb ?b then _ else _] =>
             destruct b; cbn [negb]; try (eexists; reflexivity)
         end.
  destruct (end_idx =? Py.len line) eqn:E; [eexists; reflexivity|].
  apply Z.eqb_neq in E. apply IH; lia.
Qed.

(** [get_module_name] returns on every line. *)
Lemma get_module_name_returns (line : string) :
  exists module, get_module_name line = Ok module.
Proof.
  unfold get_module_name. cbv zeta.
  match goal with
  | |- context [name_end ?f ?l 0] =>
      destruct (name_end_returns f l 0) as [r ->]
  end.
  - pose proof (len_nonneg
                  (Py.strip (Py.slice_from line
                     (Py.find line "module " + Py.len "module ")))). lia.
  - unfold Py.len. lia.
  - cbn [bind]. destruct (negb _); eexists; reflexivity.
Qed.

Lemma find_ge (s sub : string) : -1 <= Py.find s sub.
Proof.
  unfold Py.find. destruct (find_at_lower sub s 0) as [E|E]; lia.
Qed.

Lemma slice_empty (code : string) (lo hi : Z) :
  0 <= hi <= lo -> Py.slice code lo hi = "".
Proof.
  intros H. unfold Py.slice, Py.clamp. cbv zeta.
  destruct (lo <? 0) eqn:E1; [apply Z.ltb_lt in E1; lia|].
  destruct (hi <? 0) eqn:E2; [apply Z.ltb_lt in E2; lia|].
  replace (Z.to_nat (Z.min hi (Py.len code) - Z.min lo (Py.len code)))
    with O by lia.
  reflexivity.
Qed.

Lemma keyword_no_prefix_of_empty (inval_mod_name : string) :
  Py.startswith (Py.strip "") (inval_mod_name +++ " ") = false.
Proof. destruct inval_mod_name; reflexivity. Qed.

(** The keyword pass never moves the start back, and a pass that strips
    a keyword moves it forward, from before the end of the span. *)
Lemma strip_fold (code : string) (submod_end : Z) (kws : list string) :
  Forall (fun kw => kw <> "") kws ->
  0 <= submod_end ->
  forall c f, 0 <= c ->
    let '(c', f') := fold_left (strip_one code submod_end) kws (c, f) in
    c <= c' /\ (f' = true -> f = true \/ (c < c' /\ c < submod_end)).
Proof.
  intros Hkw He. induction Hkw as [|kw kws Hne _ IH]; intros c f Hc.
  - simpl. split; [lia|]. intros ->. left. reflexivity.
  - cbn [fold_left]. unfold strip_one at 2. cbv zeta.
    destruct (Py.startswith (Py.strip (Py.slice code c submod_end))
                (kw +++ " ")) eqn:E.
    + assert (Hlt : c < submod_end).
      { destruct (Z.lt_ge_cases c submod_end) as [?|Hge]; [assumption|].
        rewrite slice_empty in E by lia.
        rewrite keyword_no_prefix_of_empty in E. discriminate. }
      pose proof (find_ge (Py.slice code c submod_end) (kw +++ " ")) as Hf.
      assert (Hk : 2 <= Py.len (kw +++ " ")).
      { rewrite len_append. change (Py.len " ") with 1.
        assert (0 < Py.len kw)
          by (destruct kw; [congruence|unfold Py.len; simpl; lia]).
        lia. }
      set (c1 := c + Py.find (Py.slice code c submod_end) (kw +++ " ")
                   + Py.len (kw +++ " ")) in *.
      specialize (IH c1 true ltac:(lia)).
      destruct (fold_left _ kws _) as [c' f'].
      destruct IH as [Hle _]. split; [lia|]. intros _. right. lia.
    + specialize (IH c f Hc).
      destruct (fold_left _ kws _) as [c' f']. exact IH.
Qed.

Lemma keywords_non_empty : Forall (fun kw => kw <> "") invalid_module_names.
Proof. repeat constructor; discriminate. Qed.

Lemma strip_keywords_returns (fuel : nat) (code : string)
    (submod_end submod_start : Z) :
  0 <= submod_start -> 0 <= submod_end ->
  Z.max 0 (submod_end - submod_start) < Z.of_nat fuel ->
  exists r, strip_keywords fuel code submod_end submod_start = Ok r.
Proof.
  revert submod_start. induction fuel as [|fuel IH];
    intros submod_start Hs He Hm; [lia|].
  cbn [strip_keywords]. unfold strip_pass.
  pose proof (strip_fold code submod_end invalid_module_names
                keywords_non_empty He submod_start false Hs) as H.
  destruct (fold_left _ invalid_module_names _) as [c' f'].
  destruct H as [Hle Hf]. destruct f'; cbn [negb].
  - destruct (Hf eq_refl) as [?|[? ?]]; [discriminate|].
    apply IH; lia.
  - eexists. reflexivity.
Qed.

(** An iteration of the instance scan returns, and never moves the
    cursor back. *)
Lemma scan_step_returns (module code : string) (i : Z)
    (submod_list : list (string * string)) :
  0 <= i < Py.len code ->
  exists i' submod_list',
    scan_step module code i submod_list = Ok (i', submod_list') /\ i <= i'.
Proof.
  intros Hi. unfold scan_step. cbv zeta.
  pose proof (find_ge (Py.slice_from code i) ";") as Hsemi.
  change (Py.len ";") with 1.
  repeat match goal with
         | |- context [if ?b then _ else _] =>
             lazymatch b with
             | context [if _ then _ else _] => fail
             | _ => destruct b eqn:?
             end
         end;
    try (do 2 eexists; split; [reflexivity|lia]).
  match goal with
  | |- context [strip_keywords ?f code ?e i] =>
      destruct (strip_keywords_returns f code e i) as [r ->]
  end.
  - lia.
  - pose proof (find_ge (Py.slice_from code i) "("). 
    match goal with
    | H : negb (_ =? -1) = true |- _ =>
        apply negb_true_iff, Z.eqb_neq in H
    end. lia.
  - pose proof (find_ge (Py.slice_from code i) "(").
    match goal with
    | H : negb (_ =? -1) = true |- _ =>
        apply negb_true_iff, Z.eqb_neq in H
    end. lia.
  - cbn [bind]. do 2 eexists. split; [reflexivity|lia].
Qed.

(** The instance scan returns or hangs. *)
Lemma scan_loop_outcome (fuel : nat) (module code : string) (i : Z)
    (submod_list : list (string * string)) :
  0 <= i ->
  Z.max 0 (Py.len code - i) < Z.of_nat fuel ->
  (exists r, scan_loop fuel module code i submod_list = Ok r) \/
  scan_loop fuel module code i submod_list = Hang.
Proof.
  revert i submod_list. induction fuel as [|fuel IH];
    intros i submod_list Hi Hm; [lia|].
  cbn [scan_loop].
  destruct (i <? Py.len code) eqn:E; [|left; eexists; reflexivity].
  apply Z.ltb_lt in E.
  destruct (scan_step_returns module code i submod_list)
    as (i' & subs' & -> & Hle); [lia|].
  cbn [bind]. destruct (i' =? i) eqn:E'; [right; reflexivity|].
  apply Z.eqb_neq in E'. apply IH; lia.
Qed.

Lemma scan_submodules_outcome (module code : string) :
  (exists r, scan_submodules module code = Ok r) \/
  scan_submodules module code = Hang.
Proof.
  unfold scan_submodules. apply scan_loop_outcome; [lia|].
  unfold Py.len. lia.
Qed.

(** One turn of the block skipper returns or raises [IndexError]. *)
Lemma skip_block_outcome (opener code : string) :
  (exists r, skip_block opener code = Ok r) \/
  skip_block opener code = Raise IndexError.
Proof.
  unfold skip_block. destruct (negb _); [|left; eexists; reflexivity].
  match goal with
  | |- context [paren_scan ?r ?i ?l] =>
      destruct (paren_scan_outcome r i l) as [[j ->]| ->]
  end.
  - left. eexists. reflexivity.
  - right. reflexivity.
Qed.

Lemma skip_blocks_outcome (fuel : nat) (opener code : string) :
  opener <> "" ->
  (String.length code < fuel)%nat ->
  (exists r, skip_blocks fuel opener code = Ok r /\
             (String.length r <= String.length code)%nat) \/
  skip_blocks fuel opener code = Raise IndexError.
Proof.
  intros Hne. revert code. induction fuel as [|fuel IH]; intros code Hl;
    [lia|].
  cbn [skip_blocks].
  destruct (skip_block_outcome opener code) as [[[code'|] E]|E]; rewrite E;
    cbn [bind].
  - apply skip_block_shrinks in E; [|exact Hne].
    destruct (IH code' ltac:(lia)) as [(r & -> & Hr)| ->].
    + left. exists r. split; [reflexivity|lia].
    + right. reflexivity.
  - left. exists code. split; [reflexivity|lia].
  - right. reflexivity.
Qed.

(** [get_one_line_code] returns or raises [IndexError]. *)
Lemma get_one_line_code_outcome (module_code : list string) :
  (exists r, get_one_line_code module_code = Ok r) \/
  get_one_line_code module_code = Raise IndexError.
Proof.
  unfold get_one_line_code. cbv zeta.
  match goal with
  | |- context [skip_blocks (S (String.length ?c)) "#(" ?c] =>
      destruct (skip_blocks_outcome (S (String.length c)) "#(" c)
        as [(r1 & -> & _)| ->]; [discriminate|lia| |right; reflexivity]
  end.
  cbn [bind].
  destruct (skip_blocks_outcome (S (String.length r1)) "@(" r1)
    as [(r2 & -> & _)| ->]; [discriminate|lia| |right; reflexivity].
  cbn [bind].
  destruct (squeeze_returns (S (String.length r2)) r2) as [r3 ->]; [lia|].
  left. eexists. reflexivity.
Qed.

(** No step of the ingestion runs out of its budget. *)
Lemma process_line_within_budget
    (finditer : string -> list (string * option string * string))
    (filename : string) (l : locals) (g g' : globals) (line : string)
    (r : result locals) :
  process_line finditer filename l g line = (g', r) -> r <> OutOfFuel.
Proof.
  unfold process_line. intros H.
  destruct (get_uncommented_returns line (block_comment l))
    as (u & bc & E). rewrite E in H.
  destruct (check_ifdefs_outcome u (l_inside_ifdef l) (l_ifdef_stack l)
              (verilog_define_variables g)) as [[st E']|E'];
    rewrite E' in H; [|injection H as _ <-; discriminate].
  cbv zeta in H. rewrite line_guard in H.
  destruct (negb (Py.find (filtered_line st) "endmodule" =? -1)).
  - destruct (negb _) in H; [injection H as _ <-; discriminate|].
    unfold finish_module in H.
    match type of H with
    | context [get_one_line_code ?c] =>
        destruct (get_one_line_code_outcome c) as [[code Ec]|Ec];
        rewrite Ec in H; [|injection H as _ <-; discriminate]
    end.
    destruct (negb _) in H; [|injection H as _ <-; discriminate].
    unfold save_module_attributes in H.
    match type of H with
    | context [scan_submodules ?m ?c] =>
        destruct (scan_submodules_outcome m c) as [[subs Es]|Es];
        rewrite Es in H
    end;
      destruct (fold_left _ _ _) as [ins outs] in H;
      injection H as _ <-; discriminate.
  - destruct (_ || _) in H.
    + destruct (get_module_name_returns (filtered_line st)) as [m Em].
      rewrite Em in H. injection H as _ <-. discriminate.
    + destruct (active_module _) in H; injection H as _ <-; discriminate.
Qed.

(* ================================================================== *)
(** ** More on the registry *)
(* ================================================================== *)

Lemma read_module_info_some (mods : list VerilogModule) (n : string)
    (m : VerilogModule) :
  read_module_info mods n = Some m -> In m mods /\ name m = n.
Proof.
  induction mods as [|m0 mods IH]; simpl; [discriminate|].
  destruct (String.eqb (name m0) n) eqn:E.
  - intros H. injection H as <-. apply String.eqb_eq in E. auto.
  - intros H. destruct (IH H). auto.
Qed.

Lemma read_module_info_none (mods : list VerilogModule) (n : string) :
  read_module_info mods n = None <-> forall m, In m mods -> name m <> n.
Proof.
  induction mods as [|m0 mods IH]; simpl.
  - split; [intros _ m []|reflexivity].
  - destruct (String.eqb (name m0) n) eqn:E.
    + apply String.eqb_eq in E. split; [discriminate|].
      intros H. exfalso. apply (H m0); auto.
    + apply String.eqb_neq in E. rewrite IH. split.
      * intros H m [<-|Hm]; auto.
      * intros H m Hm. apply H. auto.
Qed.

Lemma read_module_info_unique (mods : list VerilogModule) (m : VerilogModule) :
  NoDup (map name mods) -> In m mods ->
  read_module_info mods (name m) = Some m.
Proof.
  induction mods as [|m0 mods IH]; simpl; intros Hnd Hin; [destruct Hin|].
  inversion Hnd as [|? ? Hnot Hnd']; subst.
  destruct Hin as [->|Hin].
  - rewrite String.eqb_refl. reflexivity.
  - destruct (String.eqb (name m0) (name m)) eqn:E.
    + apply String.eqb_eq in E. exfalso. apply Hnot. rewrite E.
      apply in_map. exact Hin.
    + apply IH; assumption.
Qed.

(** X1: [read_module_info] answers with a registered module of the name
    asked for, the first one in the registry, and with [None] exactly
    when no registered module has that name. *)
Theorem read_module_info_lookup (before after : list VerilogModule)
    (m : VerilogModule) (n : string) :
  (read_module_info (before ++ m :: after) n = Some m ->
   name m = n) /\
  (name m = n -> (forall m', In m' before -> name m' <> n) ->
   read_module_info (before ++ m :: after) n = Some m) /\
  (read_module_info before n = None <->
   forall m', In m' before -> name m' <> n).
Proof.
  split; [|split].
  - intros H. apply read_module_info_some in H. tauto.
  - intros Hn Hb. induction before as [|b before IH]; simpl.
    + rewrite Hn, String.eqb_refl. reflexivity.
    + destruct (String.eqb (name b) n) eqn:E.
      * apply String.eqb_eq in E. exfalso. apply (Hb b); auto. left. auto.
      * apply IH. intros m' Hm'. apply Hb. right. exact Hm'.
  - apply read_module_info_none.
Qed.

Lemma read_module_info_lookup_witness :
  read_module_info ([] ++ mk_module "top" [] [] [] "top.v" 1 11 :: []) "top"
    = Some (mk_module "top" [] [] [] "top.v" 1 11).
Proof.
  apply (proj1 (proj2 (read_module_info_lookup [] []
                         (mk_module "top" [] [] [] "top.v" 1 11) "top"))).
  - reflexivity.
  - intros m' [].
Defined.

Section Distinct.

Variable finditer : string -> list (string * option string * string).

Lemma distinct_defines (g : globals) (d : list string) :
  distinct_names g -> distinct_names (set_defines g d).
Proof. intros H. exact H. Qed.

Lemma finish_module_distinct (filename : string) (l : locals)
    (g g' : globals) (u : string) (r : result locals) :
  distinct_names g ->
  finish_module finditer filename l g u = (g', r) -> distinct_names g'.
Proof.
  intros [Hnd Hreg] H. unfold finish_module in H.
  destruct (get_one_line_code _);
    try (injection H as <- _; split; assumption).
  destruct (negb (Py.str_in (module l) (module_list g))) eqn:E.
  - apply str_not_in_iff in E.
    assert (Hreg' : forall m, In m (verilog_modules g) ->
                      In (name m) (module_list g ++ [module l])).
    { intros m Hm. apply in_or_app. left. apply Hreg. exact Hm. }
    destruct (save_module_attributes _ _ _) as [[[i o] s]| | |];
      injection H as <- _; try (split; [exact Hnd|exact Hreg']).
    split; simpl.
    + rewrite map_app. apply NoDup_app; [exact Hnd|repeat constructor; auto|].
      intros x Hx [Hx'|[]]. simpl in Hx'. subst x. apply E.
      apply in_map_iff in Hx.
      destruct Hx as (m & <- & Hm). apply Hreg. exact Hm.
    + intros m Hm. simpl in Hm. apply in_app_or in Hm. apply in_or_app.
      destruct Hm as [Hm|[<-|[]]]; [left; apply Hreg; exact Hm|].
      right. left. reflexivity.
  - injection H as <- _. split; assumption.
Qed.

Lemma process_line_distinct (filename : string) (l : locals) (g g' : globals)
    (line : string) (r : result locals) :
  distinct_names g ->
  process_line finditer filename l g line = (g', r) -> distinct_names g'.
Proof.
  intros Hd. unfold process_line. intros H.
  destruct (get_uncommented _ _) as [[u bc]| | |];
    try (injection H as <- _; exact Hd).
  destruct (check_ifdefs _ _ _ _) as [st| | |];
    try (injection H as <- _; exact Hd).
  cbv zeta in H. rewrite line_guard in H.
  destruct (negb (Py.find (filtered_line st) "endmodule" =? -1)).
  - destruct (negb _) in H.
    + injection H as <- _. exact Hd.
    + eapply finish_module_distinct; [|exact H]. exact Hd.
  - destruct (_ || _) in H.
    + destruct (get_module_name _); injection H as <- _; exact Hd.
    + destruct (active_module _) in H; injection H as <- _; exact Hd.
Qed.

Lemma process_lines_distinct (filename : string) (lines : list string)
    (l : locals) (g g' : globals) (r : result locals) :
  distinct_names g ->
  process_lines finditer filename l g lines = (g', r) -> distinct_names g'.
Proof.
  revert l g. induction lines as [|line lines IH]; intros l g Hd H;
    simpl in H.
  - injection H as <- _. exact Hd.
  - destruct (process_line finditer filename l g line) as [g1 r1] eqn:E.
    apply process_line_distinct in E; [|exact Hd].
    destruct r1; try (injection H as <- _; exact E).
    eapply IH; [exact E|exact H].
Qed.

Lemma parse_verilog_file_distinct (filename : string) (lines : list string)
    (g g' : globals) (r : result unit) :
  distinct_names g ->
  parse_verilog_file finditer filename lines g = (g', r) ->
  distinct_names g'.
Proof.
  unfold parse_verilog_file. intros Hd H.
  destruct (process_lines finditer filename initial_locals g lines)
    as [g1 r1] eqn:E.
  apply process_lines_distinct in E; [|exact Hd].
  destruct r1; [destruct (active_module _)|..]; injection H as <- _; exact E.
Qed.

Lemma parse_files_distinct (files : list (string * list string))
    (g g' : globals) (r : result unit) :
  distinct_names g ->
  parse_files finditer files g = (g', r) -> distinct_names g'.
Proof.
  revert g. induction files as [|[filename lines] files IH]; intros g Hd H;
    simpl in H.
  - injection H as <- _. exact Hd.
  - destruct (parse_verilog_file finditer filename lines g) as [g1 r1] eqn:E.
    apply parse_verilog_file_distinct in E; [|exact Hd].
    destruct r1; try (injection H as <- _; exact E).
    eapply IH; [exact E|exact H].
Qed.

End Distinct.

Lemma distinct_initial : distinct_names initial_globals.
Proof. split; [constructor|intros m []]. Qed.

(** X2: however the reading of a list of files ends, the registry it
    leaves never holds two modules of one name, and every module it
    holds is the one [read_module_info] returns for its name. *)
Theorem registry_names_are_unique
    (finditer : string -> list (string * option string * string))
    (files : list (string * list string)) :
  let g := fst (parse_files finditer files initial_globals) in
  NoDup (map name (verilog_modules g)) /\
  forall m, In m (verilog_modules g) ->
    read_module_info (verilog_modules g) (name m) = Some m.
Proof.
  cbv zeta.
  destruct (parse_files finditer files initial_globals) as [g r] eqn:E.
  destruct (parse_files_distinct finditer _ _ _ _ distinct_initial E)
    as [Hnd _].
  simpl. split; [exact Hnd|].
  intros m Hm. apply read_module_info_unique; assumption.
Qed.



(* ================================================================== *)
(** ** More on the hierarchy reporter *)
(* ================================================================== *)

Lemma report_open_ingested (top_module : string) (report_unused : bool)
    (max_depth : Z) (w : world) :
  ingested (fst (report_open top_module report_unused max_depth w))
    = ingested (fst w).
Proof.
  destruct w as [g o]. unfold report_open. destruct report_unused;
    reflexivity.
Qed.

Lemma fold_left_invariant (A B : Type) (P : A -> Prop) (f : A -> B -> A)
    (l : list B) (a : A) :
  P a -> (forall a b, P a -> P (f a b)) -> P (fold_left f l a).
Proof.
  intros Ha Hf. revert a Ha. induction l as [|b l IH]; intros a Ha; simpl.
  - exact Ha.
  - apply IH. apply Hf. exact Ha.
Qed.

Lemma report_close_ingested (top_module : string) (report_unused : bool)
    (w : world) :
  ingested (fst (report_close top_module report_unused w)) = ingested (fst w).
Proof.
  destruct w as [g o]. unfold report_close.
  destruct report_unused; [|reflexivity].
  match goal with
  | |- context [fold_left ?f ?l (g, ?o1)] =>
      pose proof (fold_left_invariant _ _
                    (fun w : world => ingested (fst w) = ingested g)
                    f l (g, o1) eq_refl) as H;
      destruct (fold_left f l (g, o1)) as [g2 o2]
  end.
  simpl. apply H. intros [ga oa] m Ha. destruct (_ && _); exact Ha.
Qed.

Section ReportLoop.

Variable rec : string -> Z -> world -> world * result unit.

Lemma report_instances_ingested (subs : list (string * string))
    (hier_num max_depth : Z) (w : world) :
  (forall t h w1, ingested (fst (fst (rec t h w1))) = ingested (fst w1)) ->
  ingested (fst (fst (report_instances rec subs hier_num max_depth w)))
    = ingested (fst w).
Proof.
  intros Hrec. revert w. induction subs as [|[t n] subs IH]; intros [g o].
  - reflexivity.
  - cbn [report_instances].
    destruct ((max_depth =? 0) || (hier_num <? max_depth - 1)).
    + match goal with
      | |- context [rec ?t ?h ?w1] =>
          pose proof (Hrec t h w1) as Hr;
          destruct (rec t h w1) as [w2 [[]| | |]]; simpl in Hr |- *;
          try exact Hr
      end.
      rewrite IH. exact Hr.
    + rewrite IH. reflexivity.
Qed.

Lemma report_instances_returns (subs : list (string * string))
    (hier_num max_depth : Z) (w : world) :
  ((max_depth =? 0) || (hier_num <? max_depth - 1) = true ->
   forall t w1, exists w2, rec t (hier_num + 1) w1 = (w2, Ok tt)) ->
  exists w', report_instances rec subs hier_num max_depth w = (w', Ok tt).
Proof.
  intros Hrec. revert w. induction subs as [|[t n] subs IH]; intros [g o].
  - eexists. reflexivity.
  - cbn [report_instances].
    destruct ((max_depth =? 0) || (hier_num <? max_depth - 1)) eqn:E.
    + match goal with
      | |- context [rec ?t ?h ?w1] =>
          destruct (Hrec eq_refl t w1) as [w2 ->]
      end.
      apply IH.
    + apply IH.
Qed.

(** With no recursion allowed, the loop writes one line per instance. *)
Lemma report_instances_flat (subs : list (string * string))
    (hier_num max_depth : Z) (w : world) :
  (max_depth =? 0) || (hier_num <? max_depth - 1) = false ->
  exists w',
    report_instances rec subs hier_num max_depth w = (w', Ok tt) /\
    out_file (snd w') = out_file (snd w) ++ map (tree_line hier_num) subs.
Proof.
  intros E. revert w. induction subs as [|[t n] subs IH]; intros [g o].
  - eexists. split; [reflexivity|]. simpl. symmetry. apply app_nil_r.
  - cbn [report_instances]. rewrite E.
    match goal with
    | |- context [report_instances rec subs hier_num max_depth ?w1] =>
        destruct (IH w1) as (w' & -> & Hw)
    end.
    exists w'. split; [reflexivity|]. rewrite Hw. simpl.
    rewrite <- app_assoc. reflexivity.
Qed.

End ReportLoop.

Lemma report_hierarchy_ingested (depth : nat) (top_module : string)
    (hier_num : Z) (report_unused : bool) (max_depth : Z) (w : world) :
  ingested (fst (fst (report_hierarchy depth top_module hier_num
                        report_unused max_depth w)))
    = ingested (fst w).
Proof.
  revert top_module hier_num report_unused w.
  induction depth as [|depth IH];
    intros top_module hier_num report_unused w.
  - reflexivity.
  - cbn [report_hierarchy]. cbv zeta.
    set (w0 := if hier_num =? 0
               then report_open top_module report_unused max_depth w
               else w).
    assert (H0 : ingested (fst w0) = ingested (fst w)).
    { unfold w0. destruct (hier_num =? 0);
        [apply report_open_ingested|reflexivity]. }
    destruct (read_module_info (verilog_modules (fst w)) top_module)
      as [info|].
    + destruct w0 as [g0 o0].
      match goal with
      | |- context [report_instances ?r ?s ?h ?m ?w1] =>
          pose proof (report_instances_ingested r s h m w1
                        (fun t h' w1' => IH t h' false w1')) as Hi;
          destruct (report_instances r s h m w1) as [w2 [[]| | |]]
      end; simpl in Hi |- *;
        try (rewrite Hi; destruct (negb _); exact H0).
      destruct (hier_num =? 0); simpl;
        [rewrite report_close_ingested|];
        rewrite Hi; destruct (negb _); exact H0.
    + destruct (hier_num =? 0); simpl;
        [rewrite report_close_ingested|]; exact H0.
Qed.

(** X4: a hierarchy report, however deep and however it ends, reads the
    registry and never changes it: the kept modules, the names taken,
    the records of later definitions and the defined variables are after
    the call what they were before. *)
Theorem report_hierarchy_reads_only (depth : nat) (top_module : string)
    (hier_num : Z) (report_unused : bool) (max_depth : Z) (w : world) :
  let w' := fst (report_hierarchy depth top_module hier_num report_unused
                   max_depth w) in
  verilog_modules (fst w') = verilog_modules (fst w) /\
  module_list (fst w') = module_list (fst w) /\
  multi_defined_list (fst w') = multi_defined_list (fst w) /\
  verilog_define_variables (fst w') = verilog_define_variables (fst w).
Proof.
  cbv zeta.
  pose proof (report_hierarchy_ingested depth top_module hier_num
                report_unused max_depth w) as H.
  unfold ingested in H. injection H as H1 H2 H3 H4. auto.
Qed.

Lemma report_hierarchy_returns (depth : nat) (max_depth : Z) :
  0 < max_depth ->
  forall top_module hier_num report_unused w,
    0 <= hier_num ->
    Z.max 1 (max_depth - hier_num) <= Z.of_nat depth ->
    exists w',
      report_hierarchy depth top_module hier_num report_unused max_depth w
        = (w', Ok tt).
Proof.
  intros Hmd. induction depth as [|depth IH];
    intros top_module hier_num report_unused w Hh Hd; [lia|].
  cbn [report_hierarchy]. cbv zeta.
  destruct (read_module_info (verilog_modules (fst w)) top_module)
    as [info|].
  - destruct (if hier_num =? 0 then _ else w) as [g0 o0].
    match goal with
    | |- context [report_instances ?r ?s ?h ?m ?w1] =>
        destruct (report_instances_returns r s h m w1) as [w2 ->]
    end.
    + intros E t w1. apply IH; [lia|].
      apply orb_true_iff in E. destruct E as [E|E].
      * apply Z.eqb_eq in E. lia.
      * apply Z.ltb_lt in E. lia.
    + destruct (hier_num =? 0); eexists; reflexivity.
  - destruct (hier_num =? 0); eexists; reflexivity.
Qed.

(** X5: with [max_depth] set, the report returns on every registry,
    cyclic or not, as soon as the interpreter allows [max_depth]
    frames. *)
Theorem max_depth_bounds_the_report (depth : nat) (max_depth : Z)
    (top_module : string) (report_unused : bool) (w : world) :
  0 < max_depth ->
  max_depth <= Z.of_nat depth ->
  exists w',
    report_hierarchy depth top_module 0 report_unused max_depth w
      = (w', Ok tt).
Proof.
  intros Hmd Hd. apply report_hierarchy_returns; lia.
Qed.

Lemma max_depth_bounds_the_report_witness :
  exists w',
    report_hierarchy 2 "top" 0 false 2
      (set_modules initial_globals ring_registry, no_io) = (w', Ok tt).
Proof.
  apply (max_depth_bounds_the_report 2 2 "top" false
           (set_modules initial_globals ring_registry, no_io)); lia.
Defined.

(** X6: with [max_depth = 1] the hierarchy file of a registered module
    holds the note on the depth, the line of the module and one line per
    instance of the module, in the order of the instances, and nothing
    of what is below them. *)
Theorem report_of_depth_one (depth : nat) (top_module : string)
    (g : globals) (o : io) (info : VerilogModule) :
  read_module_info (verilog_modules g) top_module = Some info ->
  exists w',
    report_hierarchy (S depth) top_module 0 false 1 (g, o) = (w', Ok tt) /\
    out_file (snd w') =
      [ "INFO : max_depth set to 1" +++ Py.nl +++ Py.nl;
        top_module +++ Py.nl ]
      ++ map (tree_line 0) (submodules info).
Proof.
  intros Hinfo. cbn [report_hierarchy]. cbv zeta. simpl fst. rewrite Hinfo.
  change (0 =? 0) with true. cbv iota.
  unfold report_open. simpl negb. cbv iota.
  match goal with
  | |- context [report_instances ?r ?s 0 1 ?w1] =>
      destruct (report_instances_flat r s 0 1 w1 eq_refl) as (w2 & E & Hw)
  end.
  destruct (negb _); rewrite E; destruct w2 as [g2 o2];
    (eexists; split; [reflexivity|]); simpl in Hw |- *; exact Hw.
Qed.

Lemma report_of_depth_one_witness :
  exists w',
    report_hierarchy 1 "top" 0 false 1
      (set_modules initial_globals ring_registry, no_io) = (w', Ok tt) /\
    out_file (snd w') =
      [ "INFO : max_depth set to 1" +++ Py.nl +++ Py.nl;
        "top" +++ Py.nl ]
      ++ map (tree_line 0) [("ring", "u0")].
Proof.
  apply (report_of_depth_one 0 "top"
           (set_modules initial_globals ring_registry) no_io
           (mk_module "top" [] [] [("ring", "u0")] "top.v" 1 11)).
  reflexivity.
Defined.

(* ================================================================== *)
(** ** More on the reverse path finder *)
(* ================================================================== *)

Lemma grows_by_refl (P : string -> Prop) (o : io) : grows_by P o o.
Proof. exists []. split; [symmetry; apply app_nil_r|constructor]. Qed.

Lemma grows_by_trans (P : string -> Prop) (o1 o2 o3 : io) :
  grows_by P o1 o2 -> grows_by P o2 o3 -> grows_by P o1 o3.
Proof.
  intros (l1 & H1 & F1) (l2 & H2 & F2). exists (l1 ++ l2).
  split; [rewrite H2, H1; symmetry; apply app_assoc|].
  apply Forall_app. split; assumption.
Qed.

Lemma grows_by_print (P : string -> Prop) (o : io) (s : string) :
  grows_by P o (print o s).
Proof. exists []. split; [simpl; symmetry; apply app_nil_r|constructor]. Qed.

Lemma grows_by_write (P : string -> Prop) (o : io) (s : string) :
  P s -> grows_by P o (write o s).
Proof. intros H. exists [s]. split; [reflexivity|]. repeat constructor. exact H. Qed.

Lemma grows_by_weaken (P Q : string -> Prop) (o o' : io) :
  (forall s, P s -> Q s) -> grows_by P o o' -> grows_by Q o o'.
Proof.
  intros H (l & E & F). exists l. split; [exact E|].
  eapply Forall_impl; [exact H|exact F].
Qed.

Lemma grows_by_grows (P : string -> Prop) (o o' : io) :
  grows_by P o o' -> grows o o'.
Proof. intros (l & E & _). exists l. exact E. Qed.

Section PathSearch.

Variable registry : list VerilogModule.
Variable search_module : string.
Variable rec : string -> string -> io -> io * result unit.

(** The call one frame deeper writes paths only. *)
Hypothesis rec_paths :
  forall t p o, grows_by (path_line registry search_module t p) o
                  (fst (rec t p o)).

Lemma search_submodules_paths (m : VerilogModule)
    (subs : list (string * string)) (module_type current_path : string)
    (o : io) :
  In m registry ->
  (forall x, In x subs -> In x (submodules m)) ->
  grows_by (path_line registry search_module module_type current_path) o
    (fst (search_submodules rec (name m) subs module_type search_module
            current_path o)).
Proof.
  intros Hm. revert o. induction subs as [|[t n] subs IH]; intros o Hsub;
    simpl.
  - apply grows_by_refl.
  - assert (Hrest : forall x, In x subs -> In x (submodules m))
      by (intros x Hx; apply Hsub; right; exact Hx).
    destruct (String.eqb t module_type) eqn:Et; [|apply IH; exact Hrest].
    apply String.eqb_eq in Et. subst t.
    assert (Hin : In (module_type, n) (submodules m))
      by (apply Hsub; left; reflexivity).
    fold (path_of n current_path).
    match goal with
    | |- context [rec ?mn ?p ?o1] =>
        assert (Hw : grows_by
                       (path_line registry search_module module_type
                          current_path) o o1);
        [|pose proof (rec_paths mn p o1) as Hr;
          apply (grows_by_weaken _
                   (path_line registry search_module module_type
                      current_path)) in Hr;
          [destruct (rec mn p o1) as [o2 [[]| | |]]; simpl in Hr |- *;
           try (eapply grows_by_trans; [exact Hw|exact Hr])|]]
    end.
    + destruct (String.eqb (name m) search_module) eqn:En;
        [|apply grows_by_refl].
      apply String.eqb_eq in En.
      eapply grows_by_trans; [apply grows_by_print|].
      apply grows_by_write. exists (path_of n current_path).
      split; [|rewrite En; reflexivity].
      eapply path_here; eassumption.
    + eapply grows_by_trans; [exact Hw|].
      eapply grows_by_trans; [exact Hr|]. apply IH. exact Hrest.
    + intros s (q & Hq & ->). exists q. split; [|reflexivity].
      eapply path_above; eassumption.
Qed.

Lemma search_modules_paths (mods : list VerilogModule)
    (module_type current_path : string) (o : io) :
  (forall m, In m mods -> In m registry) ->
  grows_by (path_line registry search_module module_type current_path) o
    (fst (search_modules rec mods module_type search_module current_path o)).
Proof.
  revert o. induction mods as [|m mods IH]; intros o Hmods; simpl.
  - apply grows_by_refl.
  - pose proof (search_submodules_paths m (submodules m) module_type
                  current_path o (Hmods m (or_introl eq_refl))
                  (fun x Hx => Hx)) as H.
    destruct (search_submodules _ _ _ _ _ _ _) as [o1 [[]| | |]];
      simpl in H |- *; try exact H.
    eapply grows_by_trans; [exact H|]. apply IH.
    intros m' Hm'. apply Hmods. right. exact Hm'.
Qed.

(** A loop that returns has made the deeper call, and that call has
    returned, for every matching instance. *)
Lemma search_submodules_called (module_name : string)
    (subs : list (string * string)) (module_type current_path : string)
    (o o' : io) (n : string) :
  search_submodules rec module_name subs module_type search_module
    current_path o = (o', Ok tt) ->
  In (module_type, n) subs ->
  exists o1 o2,
    rec module_name (path_of n current_path) o1 = (o2, Ok tt) /\
    grows o2 o'.
Proof.
  assert (Hg : forall m p o1, grows o1 (fst (rec m p o1))).
  { intros m p o1. eapply grows_by_grows. apply rec_paths. }
  revert o. induction subs as [|[t n0] subs IH]; intros o H Hin.
  - destruct Hin.
  - simpl in H. destruct (String.eqb t module_type) eqn:Et.
    + fold (path_of n0 current_path) in H.
      match type of H with
      | context [rec ?m ?p ?o1] =>
          destruct (rec m p o1) as [o2 [[]| | |]] eqn:Er; try discriminate;
          destruct Hin as [E|Hin];
          [injection E as _ E2; rewrite <- E2; exists o1, o2;
           split; [exact Er|]|]
      end.
      * pose proof (search_submodules_grows rec module_type search_module
                      Hg module_name subs current_path o2) as G.
        rewrite H in G. exact G.
      * eapply IH; [exact H|exact Hin].
    + destruct Hin as [E|Hin].
      * injection E as -> ->. rewrite String.eqb_refl in Et. discriminate.
      * eapply IH; [exact H|exact Hin].
Qed.

Lemma search_modules_called (mods : list VerilogModule)
    (module_type current_path : string) (o o' : io) (m : VerilogModule)
    (n : string) :
  search_modules rec mods module_type search_module current_path o
    = (o', Ok tt) ->
  In m mods -> In (module_type, n) (submodules m) ->
  exists o1 o2,
    rec (name m) (path_of n current_path) o1 = (o2, Ok tt) /\
    grows o2 o'.
Proof.
  assert (Hg : forall m p o1, grows o1 (fst (rec m p o1))).
  { intros m0 p o1. eapply grows_by_grows. apply rec_paths. }
  revert o. induction mods as [|m0 mods IH]; intros o H Hin Hs.
  - destruct Hin.
  - simpl in H.
    destruct (search_submodules rec (name m0) _ _ _ _ o)
      as [o1 [[]| | |]] eqn:E; try discriminate.
    pose proof (search_modules_grows rec module_type search_module Hg mods
                  current_path o1) as G.
    rewrite H in G. simpl in G.
    destruct Hin as [->|Hin].
    + destruct (search_submodules_called _ _ _ _ _ _ _ E Hs)
        as (oa & ob & Hr & Gr).
      exists oa, ob. split; [exact Hr|]. eapply grows_trans; eassumption.
    + eapply IH; eassumption.
Qed.

End PathSearch.

Lemma find_all_instances_paths (registry : list VerilogModule)
    (search_module : string) (depth : nat) (module_type current_path : string)
    (o : io) :
  grows_by (path_line registry search_module module_type current_path) o
    (fst (find_all_instances depth registry module_type search_module
            current_path o)).
Proof.
  revert module_type current_path o.
  induction depth as [|depth IH]; intros module_type current_path o.
  - apply grows_by_refl.
  - cbn [find_all_instances].
    eapply grows_by_trans;
      [|apply search_modules_paths; [intros t p o1; apply IH|auto]].
    destruct (String.eqb current_path "");
      [apply grows_by_print|apply grows_by_refl].
Qed.

Lemma find_all_instances_complete (registry : list VerilogModule)
    (search_module t p q : string) :
  hier_path registry search_module t p q ->
  forall depth o o',
    find_all_instances depth registry t search_module p o = (o', Ok tt) ->
    In (found_line search_module q) (out_file o').
Proof.
  induction 1 as [m t n p Hm Hs Hn|m t n p q Hm Hs Hq IH];
    intros depth o o' E; (destruct depth as [|depth]; [discriminate|]);
    cbn [find_all_instances] in E.
  - eapply search_modules_emits; [|exact E|exact Hm|exact Hn|exact Hs].
    intros m' p' o1. apply find_all_instances_grows.
  - destruct (search_modules_called registry search_module _
                (fun t' p' o1 =>
                   find_all_instances_paths registry search_module depth
                     t' p' o1)
                _ _ _ _ _ _ _ E Hm Hs) as (o1 & o2 & Er & G).
    eapply grows_In; [exact G|]. eapply IH. exact Er.
Qed.

(** X7: when a search into an empty report file returns, the lines of
    the file are exactly the hierarchical paths from the scope module
    down to an instance of the type looked for: a line for every such
    path, and no other line. *)
Theorem search_writes_the_paths (depth : nat) (registry : list VerilogModule)
    (module_type search_module current_path : string) (o o' : io) :
  out_file o = [] ->
  find_all_instances depth registry module_type search_module current_path o
    = (o', Ok tt) ->
  forall line,
    In line (out_file o') <->
    exists q,
      hier_path registry search_module module_type current_path q /\
      line = found_line search_module q.
Proof.
  intros Ho E line. split.
  - pose proof (find_all_instances_paths registry search_module depth
                  module_type current_path o) as (l & Hl & F).
    rewrite E in Hl. simpl in Hl. rewrite Ho in Hl. simpl in Hl.
    rewrite Hl. intros Hin. rewrite Forall_forall in F. exact (F _ Hin).
  - intros (q & Hq & ->). eapply find_all_instances_complete; eassumption.
Qed.

Lemma search_writes_the_paths_witness :
  In (found_line "top" "u0")
    (out_file (fst (find_all_instances 2 two_module_registry "leaf" "top"
                      "" no_io))) <->
  exists q,
    hier_path two_module_registry "top" "leaf" "" q /\
    found_line "top" "u0" = found_line "top" q.
Proof.
  apply (search_writes_the_paths 2 two_module_registry "leaf" "top" ""
           no_io _ eq_refl eq_refl (found_line "top" "u0")).
Defined.

(** X8: a search under a scope that names no registered module writes
    nothing, however deep it goes and however it ends. *)
Theorem search_under_unknown_scope (depth : nat)
    (registry : list VerilogModule)
    (module_type search_module current_path : string) (o : io) :
  (forall m, In m registry -> name m <> search_module) ->
  out_file (fst (find_all_instances depth registry module_type search_module
                   current_path o))
    = out_file o.
Proof.
  intros Hno.
  assert (Hnone : forall t p q,
             ~ hier_path registry search_module t p q).
  { intros t p q H. induction H as [m ? ? ? Hm _ Hn|]; [|assumption].
    exact (Hno m Hm Hn). }
  destruct (find_all_instances_paths registry search_module depth module_type
              current_path o) as (l & -> & F).
  destruct l as [|x l]; [apply app_nil_r|].
  inversion F as [|? ? (q & Hq & _) _]. destruct (Hnone _ _ _ Hq).
Qed.

Lemma search_under_unknown_scope_witness :
  out_file (fst (find_all_instances 3 ring_registry "ring" "nowhere" ""
                   no_io))
    = out_file no_io.
Proof.
  apply (search_under_unknown_scope 3 ring_registry "ring" "nowhere" ""
           no_io).
  intros m [<-|[<-|[]]]; discriminate.
Defined.

Section FirstSearch.

Variable registry : list VerilogModule.
Variable search_module : string.
Variable matches : string -> string -> bool.
Variable rec : string -> string -> io -> io * result unit.

Hypothesis rec_paths :
  forall t p o, grows_by (path_line registry search_module t p) o
                  (fst (rec t p o)).

(** What the write of one matching instance and the deeper call for it
    add to the report. *)
Lemma first_submodules_paths (m : VerilogModule)
    (subs : list (string * string)) (current_path : string) (o : io) :
  In m registry ->
  (forall x, In x subs -> In x (submodules m)) ->
  grows_by (first_line registry search_module matches current_path) o
    (fst (first_submodules matches rec (name m) subs search_module
            current_path o)).
Proof.
  intros Hm. revert o. induction subs as [|[t n] subs IH]; intros o Hsub;
    simpl.
  - apply grows_by_refl.
  - assert (Hrest : forall x, In x subs -> In x (submodules m))
      by (intros x Hx; apply Hsub; right; exact Hx).
    destruct (matches t n) eqn:Et; [|apply IH; exact Hrest].
    assert (Hin : In (t, n) (submodules m))
      by (apply Hsub; left; reflexivity).
    fold (path_of n current_path).
    match goal with
    | |- context [rec ?mn ?p ?o1] =>
        assert (Hw : grows_by
                       (first_line registry search_module matches
                          current_path) o o1);
        [|pose proof (rec_paths mn p o1) as Hr;
          apply (grows_by_weaken _
                   (first_line registry search_module matches
                      current_path)) in Hr;
          [destruct (rec mn p o1) as [o2 [[]| | |]]; simpl in Hr |- *;
           try (eapply grows_by_trans; [exact Hw|exact Hr])|]]
    end.
    + destruct (String.eqb (name m) search_module) eqn:En;
        [|apply grows_by_refl].
      apply String.eqb_eq in En.
      eapply grows_by_trans; [apply grows_by_print|].
      apply grows_by_write. exists (path_of n current_path).
      split; [|rewrite En; reflexivity].
      exists m, t, n. repeat split; try assumption. left. auto.
    + eapply grows_by_trans; [exact Hw|].
      eapply grows_by_trans; [exact Hr|]. apply IH. exact Hrest.
    + intros s (q & Hq & ->). exists q. split; [|reflexivity].
      exists m, t, n. repeat split; try assumption. right. exact Hq.
Qed.

Lemma first_modules_paths (mods : list VerilogModule)
    (current_path : string) (o : io) :
  (forall m, In m mods -> In m registry) ->
  grows_by (first_line registry search_module matches current_path) o
    (fst (first_modules matches rec mods search_module current_path o)).
Proof.
  revert o. induction mods as [|m mods IH]; intros o Hmods; simpl.
  - apply grows_by_refl.
  - pose proof (first_submodules_paths m (submodules m) current_path o
                  (Hmods m (or_introl eq_refl)) (fun x Hx => Hx)) as H.
    destruct (first_submodules _ _ _ _ _ _ _) as [o1 [[]| | |]];
      simpl in H |- *; try exact H.
    eapply grows_by_trans; [exact H|]. apply IH.
    intros m' Hm'. apply Hmods. right. exact Hm'.
Qed.

(** A loop that returns has, for every instance that passes the test,
    written its line when the module is the scope, and made the deeper
    call, which has returned. *)
Lemma first_submodules_called (m : VerilogModule)
    (subs : list (string * string)) (current_path : string) (o o' : io)
    (t n : string) :
  In m registry ->
  (forall x, In x subs -> In x (submodules m)) ->
  first_submodules matches rec (name m) subs search_module current_path o
    = (o', Ok tt) ->
  In (t, n) subs -> matches t n = true ->
  (name m = search_module ->
   In (found_line search_module (path_of n current_path)) (out_file o')) /\
  exists o1 o2,
    rec (name m) (path_of n current_path) o1 = (o2, Ok tt) /\
    grows o2 o'.
Proof.
  intros Hm. revert o. induction subs as [|[t0 n0] subs IH];
    intros o Hsub H Hin Hmt.
  - destruct Hin.
  - assert (Hrest : forall x, In x subs -> In x (submodules m))
      by (intros x Hx; apply Hsub; right; exact Hx).
    simpl in H. destruct (matches t0 n0) eqn:Et.
    + fold (path_of n0 current_path) in H.
      match type of H with
      | context [rec ?mn ?p ?o1] =>
          pose proof (rec_paths mn p o1) as Hr;
          apply grows_by_grows in Hr;
          destruct (rec mn p o1) as [o2 [[]| | |]] eqn:Er; try discriminate;
          simpl in Hr;
          pose proof (first_submodules_paths m subs current_path o2 Hm Hrest)
            as G;
          apply grows_by_grows in G; rewrite H in G; simpl in G;
          destruct Hin as [E|Hin];
          [injection E as E1 E2; rewrite <- E2; split;
           [intros En|exists o1, o2; split; [exact Er|exact G]]|]
      end.
      * eapply grows_In; [exact G|]. eapply grows_In; [exact Hr|].
        rewrite En, String.eqb_refl. simpl.
        apply in_or_app. right. left. reflexivity.
      * eapply IH; eassumption.
    + destruct Hin as [E|Hin].
      * injection E as -> ->. congruence.
      * eapply IH; eassumption.
Qed.

Lemma first_modules_called (mods : list VerilogModule)
    (current_path : string) (o o' : io) (m : VerilogModule) (t n : string) :
  (forall m, In m mods -> In m registry) ->
  first_modules matches rec mods search_module current_path o = (o', Ok tt) ->
  In m mods -> In (t, n) (submodules m) -> matches t n = true ->
  (name m = search_module ->
   In (found_line search_module (path_of n current_path)) (out_file o')) /\
  exists o1 o2,
    rec (name m) (path_of n current_path) o1 = (o2, Ok tt) /\
    grows o2 o'.
Proof.
  revert o. induction mods as [|m0 mods IH]; intros o Hmods H Hin Hs Hmt.
  - destruct Hin.
  - simpl in H.
    destruct (first_submodules matches rec (name m0) _ _ _ o)
      as [o1 [[]| | |]] eqn:E; try discriminate.
    assert (Hrest : forall m, In m mods -> In m registry)
      by (intros m' Hm'; apply Hmods; right; exact Hm').
    pose proof (first_modules_paths mods current_path o1 Hrest) as G.
    apply grows_by_grows in G. rewrite H in G. simpl in G.
    destruct Hin as [->|Hin].
    + destruct (first_submodules_called m (submodules m) current_path o o1
                  t n (Hmods m (or_introl eq_refl)) (fun x Hx => Hx) E Hs Hmt)
        as (Hline & oa & ob & Hr & Gr).
      split.
      * intros En. eapply grows_In; [exact G|]. apply Hline. exact En.
      * exists oa, ob. split; [exact Hr|]. eapply grows_trans; eassumption.
    + eapply IH; eassumption.
Qed.

(** The two together, for a search that starts on an empty file. *)
Lemma first_modules_exact (current_path : string) (o o' : io) :
  (forall t p q, hier_path registry search_module t p q ->
   forall o1 o2, rec t p o1 = (o2, Ok tt) ->
   In (found_line search_module q) (out_file o2)) ->
  out_file o = [] ->
  first_modules matches rec registry search_module current_path o
    = (o', Ok tt) ->
  forall line,
    In line (out_file o') <->
    first_line registry search_module matches current_path line.
Proof.
  intros Hcomplete Ho E line. split.
  - pose proof (first_modules_paths registry current_path o (fun m Hm => Hm))
      as (l & Hl & F).
    rewrite E in Hl. simpl in Hl. rewrite Ho in Hl. simpl in Hl.
    rewrite Hl. intros Hin. rewrite Forall_forall in F. exact (F _ Hin).
  - intros (q & (m & t & n & Hm & Hs & Hmt & Hq) & ->).
    destruct (first_modules_called registry current_path o o' m t n
                (fun m Hm => Hm) E Hm Hs Hmt) as (Hline & o1 & o2 & Er & G).
    destruct Hq as [[Hn ->]|Hq].
    + apply Hline. exact Hn.
    + eapply grows_In; [exact G|]. eapply Hcomplete; eassumption.
Qed.

End FirstSearch.

(** X9: when [find_all_instances_re], started on an empty report file,
    returns, the lines of the file are exactly the hierarchical paths
    from the scope module down to an instance whose type contains the
    string looked for. *)
Theorem search_by_type_substring (depth : nat)
    (registry : list VerilogModule)
    (module_type search_module current_path : string) (o o' : io) :
  out_file o = [] ->
  find_all_instances_re depth registry module_type search_module
    current_path o = (o', Ok tt) ->
  forall line,
    In line (out_file o') <->
    exists q,
      first_path registry search_module
        (fun i_type _ => negb (Py.find i_type module_type =? -1))
        current_path q /\
      line = found_line search_module q.
Proof.
  intros Ho E. destruct depth as [|depth]; [discriminate|].
  unfold find_all_instances_re in E.
  eapply first_modules_exact; [| | |exact E].
  - intros t p o1. apply find_all_instances_paths.
  - intros t p q Hq o1 o2 Er. cbv beta in Er.
    eapply find_all_instances_complete; eassumption.
  - simpl. rewrite Ho. reflexivity.
Qed.

Lemma search_by_type_substring_witness :
  In (found_line "top" "u0")
    (out_file (fst (find_all_instances_re 2 two_module_registry "ea" "top"
                      "" no_io))) <->
  exists q,
    first_path two_module_registry "top"
      (fun i_type _ => negb (Py.find i_type "ea" =? -1)) "" q /\
    found_line "top" "u0" = found_line "top" q.
Proof.
  apply (search_by_type_substring 2 two_module_registry "ea" "top" ""
           no_io _ eq_refl eq_refl (found_line "top" "u0")).
Defined.

(** X10: when [find_all_instances_iname_re], started on an empty report
    file, returns, the lines of the file are exactly the hierarchical
    paths from the scope module down to an instance whose name contains
    the string looked for. *)
Theorem search_by_instance_name (depth : nat)
    (registry : list VerilogModule)
    (module_name search_module current_path : string) (o o' : io) :
  out_file o = [] ->
  find_all_instances_iname_re depth registry module_name search_module
    current_path o = (o', Ok tt) ->
  forall line,
    In line (out_file o') <->
    exists q,
      first_path registry search_module
        (fun _ i_name => negb (Py.find i_name module_name =? -1))
        current_path q /\
      line = found_line search_module q.
Proof.
  intros Ho E. destruct depth as [|depth]; [discriminate|].
  unfold find_all_instances_iname_re in E.
  eapply first_modules_exact; [| | |exact E].
  - intros t p o1. apply find_all_instances_paths.
  - intros t p q Hq o1 o2 Er. cbv beta in Er.
    eapply find_all_instances_complete; eassumption.
  - simpl. rewrite Ho. reflexivity.
Qed.

Lemma search_by_instance_name_witness :
  In (found_line "top" "u0")
    (out_file (fst (find_all_instances_iname_re 2 two_module_registry "u"
                      "top" "" no_io))) <->
  exists q,
    first_path two_module_registry "top"
      (fun _ i_name => negb (Py.find i_name "u" =? -1)) "" q /\
    found_line "top" "u0" = found_line "top" q.
Proof.
  apply (search_by_instance_name 2 two_module_registry "u" "top" ""
           no_io _ eq_refl eq_refl (found_line "top" "u0")).
Defined.

(* ================================================================== *)
(** ** More on the port and instance extraction *)
(* ================================================================== *)

Lemma sort_ports (ports : list port) (input_list output_list : list port) :
  fold_left
    (fun (io : list port * list port) (p : port) =>
       let '(input_list, output_list) := io in
       let '(port_type, _, _) := p in
       let input_list :=
         if String.eqb port_type "input" then input_list ++ [p]
         else input_list in
       let output_list :=
         if String.eqb port_type "output" then output_list ++ [p]
         else output_list in
       if String.eqb port_type "inout"
       then (input_list ++ [p], output_list ++ [p])
       else (input_list, output_list))
    ports (input_list, output_list)
  = (input_list ++ filter is_input ports,
     output_list ++ filter is_output ports).
Proof.
  revert input_list output_list.
  induction ports as [|[[t n] w] ports IH]; intros il ol; simpl.
  - rewrite !app_nil_r. reflexivity.
  - destruct (String.eqb t "input") eqn:E1;
      destruct (String.eqb t "output") eqn:E2;
      destruct (String.eqb t "inout") eqn:E3;
      try (apply String.eqb_eq in E1; subst t; discriminate);
      try (apply String.eqb_eq in E2; subst t; discriminate);
      rewrite IH; simpl; rewrite <- ?app_assoc; reflexivity.
Qed.

(** X11: [save_module_attributes] sorts the ports that [parse_ports]
    found without losing, repeating or reordering any: the input list
    holds the [input] and [inout] ports, the output list the [output]
    and [inout] ports, each in the order of the declarations, so that an
    [inout] port is once in each list; the instances are those of the
    scan. *)
Theorem ports_are_sorted_by_direction
    (finditer : string -> list (string * option string * string))
    (module code : string) (input_list output_list : list port)
    (submod_list : list (string * string)) :
  save_module_attributes finditer module code
    = Ok (input_list, output_list, submod_list) ->
  input_list = filter is_input (parse_ports finditer code) /\
  output_list = filter is_output (parse_ports finditer code) /\
  scan_submodules module code = Ok submod_list.
Proof.
  unfold save_module_attributes. cbv zeta. rewrite sort_ports. simpl.
  destruct (scan_submodules module code); simpl; try discriminate.
  intros H. injection H as <- <- <-. auto.
Qed.

Lemma ports_are_sorted_by_direction_witness :
  [("inout", "a", "[7:0]"); ("inout", "b", "[7:0]")]
    = filter is_input (parse_ports one_inout "module m; endmodule") /\
  [("inout", "a", "[7:0]"); ("inout", "b", "[7:0]")]
    = filter is_output (parse_ports one_inout "module m; endmodule") /\
  scan_submodules "m" "module m; endmodule" = Ok [].
Proof.
  apply (ports_are_sorted_by_direction one_inout "m" "module m; endmodule").
  reflexivity.
Defined.

Lemma scan_step_appends (module code : string) (i i' : Z)
    (submod_list submod_list' : list (string * string)) :
  scan_step module code i submod_list = Ok (i', submod_list') ->
  submod_list' = submod_list \/
  exists inst_type inst_name,
    submod_list' = submod_list ++ [(inst_type, inst_name)] /\
    acceptable inst_type inst_name.
Proof.
  intros H. unfold scan_step in H. cbv zeta in H.
  repeat match type of H with
         | (if ?b then _ else _) = _ => destruct b
         end;
    try (injection H as _ <-; left; reflexivity).
  destruct (strip_keywords _ _ _ _) as [start| | |]; simpl in H;
    try discriminate.
  injection H as _ <-.
  destruct (candidate_cases code start
              (i + Py.find (Py.slice_from code i) "("))
    as [->|(t & n & -> & Ha)].
  - left. apply app_nil_r.
  - right. exists t, n. split; [reflexivity|].
    apply accepts_iff. exact Ha.
Qed.

Lemma scan_loop_acceptable (fuel : nat) (module code : string) (i : Z)
    (submod_list result : list (string * string)) :
  scan_loop fuel module code i submod_list = Ok result ->
  (forall t n, In (t, n) submod_list -> acceptable t n) ->
  forall t n, In (t, n) result -> acceptable t n.
Proof.
  revert i submod_list. induction fuel as [|fuel IH];
    intros i submod_list H Hacc; [discriminate|].
  cbn [scan_loop] in H.
  destruct (i <? Py.len code); [|injection H as <-; exact Hacc].
  destruct (scan_step module code i submod_list) as [[i' subs']| | |] eqn:E;
    simpl in H; try discriminate.
  destruct (i' =? i); [discriminate|].
  apply (IH _ _ H).
  destruct (scan_step_appends _ _ _ _ _ _ E) as [->|(t0 & n0 & -> & Ha)];
    [exact Hacc|].
  intros t n Hin. apply in_app_or in Hin.
  destruct Hin as [Hin|[Hin|[]]]; [apply Hacc; exact Hin|].
  injection Hin as <- <-. exact Ha.
Qed.

(** X12: every instance in the list that the scan of a body returns has
    a non-empty type and a non-empty name, neither of them a reserved
    word, and none of the characters [= : . [ ] $ < >] or a space in
    either. *)
Theorem instances_are_acceptable (module code : string)
    (submod_list : list (string * string)) :
  scan_submodules module code = Ok submod_list ->
  forall inst_type inst_name,
    In (inst_type, inst_name) submod_list ->
    acceptable inst_type inst_name.
Proof.
  unfold scan_submodules. intros H.
  apply (scan_loop_acceptable _ _ _ _ _ _ H). intros t n [].
Qed.

Lemma instances_are_acceptable_witness :
  acceptable "my_adder" "u_add".
Proof.
  apply (instances_are_acceptable "top"
           "module top; my_adder u_add (...); endmodule"
           [("my_adder", "u_add")] eq_refl).
  left. reflexivity.
Defined.

(** X13: when the cursor of the scan stands where a parenthesis follows
    but no [;] does, and the header of the module does not follow
    either, the loop of [save_module_attributes] cannot end: every turn
    sets the cursor to itself, whether or not it appends an instance.
    This is the case of a module whose last instantiation lacks its
    [;]. *)
Theorem scan_hangs_without_semicolon (fuel : nat) (module code : string)
    (i : Z) (submod_list : list (string * string)) :
  0 <= i < Py.len code ->
  Py.find (Py.slice_from code i) ";" = -1 ->
  Py.find (Py.slice_from code i) ("module " +++ module) = -1 ->
  Py.find (Py.slice_from code i) "(" <> -1 ->
  scan_loop (S fuel) module code i submod_list = Hang.
Proof.
  intros Hi Hsemi Hhead Hpar. cbn [scan_loop].
  destruct (i <? Py.len code) eqn:E; [|apply Z.ltb_ge in E; lia].
  unfold scan_step. cbv zeta. rewrite Hsemi, Hhead.
  change (-1 =? -1) with true. cbn [negb]. change (Py.len ";") with 1.
  replace (i + -1 + 1) with i by lia.
  destruct (_ =? 0); [simpl; rewrite Z.eqb_refl; reflexivity|].
  destruct (_ =? 0); [simpl; rewrite Z.eqb_refl; reflexivity|].
  apply Z.eqb_neq in Hpar. rewrite Hpar. cbn [negb].
  apply Z.eqb_neq in Hpar.
  match goal with
  | |- context [strip_keywords ?f code ?e i] =>
      destruct (strip_keywords_returns f code e i) as [r ->]
  end.
  - lia.
  - pose proof (find_ge (Py.slice_from code i) "("). lia.
  - pose proof (find_ge (Py.slice_from code i) "("). lia.
  - simpl. rewrite Z.eqb_refl. reflexivity.
Qed.

Lemma scan_hangs_without_semicolon_witness :
  scan_loop 1 "m" "module m; foo u1 (x) endmodule" 9 [] = Hang.
Proof.
  apply (scan_hangs_without_semicolon 0 "m"
           "module m; foo u1 (x) endmodule" 9 []).
  - unfold Py.len. simpl. lia.
  - reflexivity.
  - reflexivity.
  - discriminate.
Defined.

(* ================================================================== *)
(** ** More on the lexical preprocessor *)
(* ================================================================== *)

Lemma find_at_here (s sub : string) (k : Z) :
  Py.startswith s sub = true -> Py.find_at k s sub = k.
Proof. intros H. destruct s; simpl; rewrite H; reflexivity. Qed.

Lemma find_at_tail (c : ascii) (sub s : string) (k k' : Z) :
  0 <= k' ->
  Py.find_at k s (String c sub) <> -1 -> Py.find_at k' s sub <> -1.
Proof.
  revert k k'. induction s as [|d s IH]; intros k k' Hk H.
  - simpl in H. congruence.
  - cbn [Py.find_at] in H |- *.
    destruct (Py.startswith (String d s) (String c sub)) eqn:E.
    + simpl in E. apply andb_true_iff in E. destruct E as [_ E].
      destruct (Py.startswith (String d s) sub); [lia|].
      rewrite (find_at_here _ _ _ E). lia.
    + destruct (Py.startswith (String d s) sub); [lia|].
      apply (IH (k + 1)); [lia|exact H].
Qed.

Lemma no_opener_no_unblock (line : string) :
  Py.find line "/*" = -1 -> Py.find line "//*" = -1.
Proof.
  intros H. destruct (Z.eq_dec (Py.find line "//*") (-1)) as [E|E];
    [exact E|].
  exfalso. apply (find_at_tail "/" "/*" line 0 0 ltac:(lia) E). exact H.
Qed.

Lemma slice_from_len (s : string) : Py.slice_from s (Py.len s) = "".
Proof.
  rewrite <- (append_nil_r s) at 1. apply slice_from_append.
Qed.

(** X14: outside a block comment, a line that holds no block-comment
    opener is returned up to its first [//], whole when it has none;
    no block comment is open after it. *)
Theorem line_without_block_comment (line : string) :
  Py.find line "/*" = -1 ->
  get_uncommented line false
    = Ok (if Py.find line "//" =? -1 then line
          else Py.slice line 0 (Py.find line "//"), false).
Proof.
  intros Hb. pose proof (no_opener_no_unblock line Hb) as Hu.
  destruct (Py.find line "//" =? -1) eqn:Ek.
  - apply Z.eqb_eq in Ek.
    unfold get_uncommented. cbn [negb unblock]. rewrite Hu.
    change (-1 =? -1) with true. cbn [negb bind].
    destruct line as [|c line]; [reflexivity|].
    replace (2 * String.length (String c line) + 2)%nat
      with (S (S (2 * String.length (String c line))))%nat by lia.
    cbn [uncomment_loop].
    destruct (0 <? Py.len (String c line)) eqn:E0;
      [|apply Z.ltb_ge in E0; unfold Py.len in E0; simpl in E0; lia].
    rewrite slice_from_0, Hb, Ek. change (-1 =? -1) with true.
    cbn [negb]. rewrite Z.ltb_irrefl. reflexivity.
  - apply Z.eqb_neq in Ek.
    apply line_comment_from_column_0; auto.
Qed.

Lemma line_without_block_comment_witness :
  get_uncommented "assign a = b; // c" false = Ok ("assign a = b; ", false).
Proof.
  exact (line_without_block_comment "assign a = b; // c" eq_refl).
Defined.

(** X15: a line read inside a block comment that holds no [*/] gives
    nothing, and the block comment is still open after it. *)
Theorem comment_block_stays_open (line : string) :
  Py.find line "*/" = -1 ->
  get_uncommented line true = Ok ("", true).
Proof.
  intros H. unfold get_uncommented. cbn [negb bind].
  destruct line as [|c line]; [reflexivity|].
  replace (2 * String.length (String c line) + 2)%nat
    with (S (S (2 * String.length (String c line))))%nat by lia.
  cbn [uncomment_loop].
  destruct (0 <? Py.len (String c line)) eqn:E0;
    [|apply Z.ltb_ge in E0; unfold Py.len in E0; simpl in E0; lia].
  rewrite slice_from_0, H. change (-1 =? -1) with true.
  cbn [negb]. rewrite Z.ltb_irrefl. reflexivity.
Qed.

Lemma comment_block_stays_open_witness :
  get_uncommented "still // inside /* the comment" true = Ok ("", true).
Proof.
  exact (comment_block_stays_open "still // inside /* the comment" eq_refl).
Defined.

(** X16: a line read inside a block comment that holds a [*/] gives the
    text after the first [*/] when that text holds no comment of either
    kind, and the block comment is closed after it. *)
Theorem comment_block_closes (line : string) (k : Z) :
  Py.find line "*/" = k -> k <> -1 ->
  Py.find (Py.slice_from line (k + 2)) "/*" = -1 ->
  Py.find (Py.slice_from line (k + 2)) "//" = -1 ->
  get_uncommented line true = Ok (Py.slice_from line (k + 2), false).
Proof.
  intros Hk Hk' Hb Hl.
  assert (Hbounds : 0 <= k /\ k + 2 <= Py.len line).
  { subst k. apply (find_bounds line "*/") in Hk'. exact Hk'. }
  unfold get_uncommented. cbn [negb bind].
  replace (2 * String.length line + 2)%nat
    with (S (S (S (2 * String.length line - 1))))%nat
    by (unfold Py.len in Hbounds; lia).
  cbn [uncomment_loop].
  destruct (0 <? Py.len line) eqn:E0; [|apply Z.ltb_ge in E0; lia].
  rewrite slice_from_0, Hk.
  destruct (k =? -1) eqn:Ek; [apply Z.eqb_eq in Ek; congruence|].
  cbn [negb]. change (Py.len "*/") with 2.
  replace (0 + k + 2) with (k + 2) by lia.
  destruct (k + 2 <? Py.len line) eqn:E2.
  - rewrite Hb, Hl. change (-1 =? -1) with true. cbn [negb].
    rewrite Z.ltb_irrefl. reflexivity.
  - apply Z.ltb_ge in E2.
    replace (k + 2) with (Py.len line) by lia.
    rewrite slice_from_len. reflexivity.
Qed.

Lemma comment_block_closes_witness :
  get_uncommented "end of it */ wire x;" true = Ok (" wire x;", false).
Proof.
  apply (comment_block_closes "end of it */ wire x;" 10).
  - reflexivity.
  - discriminate.
  - reflexivity.
  - reflexivity.
Defined.

(* ================================================================== *)
(** ** More on the conditional stack *)
(* ================================================================== *)

(** X17: [check_ifdefs] never alters a line: what it hands back is the
    line itself or the empty string.  When the line is handed back, it
    was visible (inside an active block, or outside every block) and
    the call changed neither the flag, nor the stack, nor the defined
    variables. *)
Theorem passed_lines_are_unchanged (line : string) (inside : bool)
    (stack defs : list string) (st : ifdef_state) :
  check_ifdefs line inside stack defs = Ok st ->
  filtered_line st = "" \/
  (filtered_line st = line /\
   (inside = true \/ stack = []) /\
   inside_ifdef st = inside /\
   ifdef_stack st = stack /\
   define_variables st = defs).
Proof.
  unfold check_ifdefs. intros H.
  repeat match type of H with
         | (if ?b then _ else _) = _ => destruct b eqn:?
         | bind (pop ?s) _ = _ => destruct (pop s); simpl in H
         end;
    try discriminate;
    try (injection H as <-; left; reflexivity).
  injection H as <-. right. simpl. repeat split.
  match goal with
  | E : (inside || _) = true |- _ => apply orb_true_iff in E; destruct E as [E|E]
  end; [left; assumption|right].
  destruct stack; [reflexivity|discriminate].
Qed.

Lemma passed_lines_are_unchanged_witness :
  "wire x;" = "" \/
  ("wire x;" = "wire x;" /\
   (false = true \/ @nil string = []) /\
   false = false /\ @nil string = [] /\ @nil string = []).
Proof.
  exact (passed_lines_are_unchanged "wire x;" false [] []
           (mk_ifdef_state "wire x;" false [] []) eq_refl).
Defined.

(** X18: a call of [check_ifdefs] leaves the defined variables as they
    were or adds one at the end; it adds one only for a [`define] line
    that is visible, never for one in a hidden block. *)
Theorem defines_only_grow (line : string) (inside : bool)
    (stack defs : list string) (st : ifdef_state) :
  check_ifdefs line inside stack defs = Ok st ->
  define_variables st = defs \/
  ((exists v, define_variables st = defs ++ [v]) /\
   Py.startswith (trimmed line) "`define" = true /\
   (inside = true \/ stack = [])).
Proof.
  unfold check_ifdefs. fold (trimmed line). intros H.
  repeat match type of H with
         | (if ?b then _ else _) = _ => destruct b eqn:?
         | bind (pop ?s) _ = _ => destruct (pop s); simpl in H
         end;
    try discriminate;
    try (injection H as <-; left; reflexivity).
  injection H as <-. right. simpl. repeat split.
  - eexists. reflexivity.
  - match goal with
    | E : (inside || _) = true |- _ =>
        apply orb_true_iff in E; destruct E as [E|E]
    end; [left; assumption|right].
    destruct stack; [reflexivity|discriminate].
Qed.

Lemma defines_only_grow_witness :
  ["SIM"; "FPGA"] = ["SIM"] \/
  ((exists v, ["SIM"; "FPGA"] = ["SIM"] ++ [v]) /\
   Py.startswith (trimmed "`define FPGA 1") "`define" = true /\
   (true = true \/ ["SIM"] = [])).
Proof.
  exact (defines_only_grow "`define FPGA 1" true ["SIM"] ["SIM"]
           (mk_ifdef_state "" true ["SIM"] ["SIM"; "FPGA"]) eq_refl).
Defined.

Lemma else_is_no_push (t : string) :
  Py.startswith t "`else" = true ->
  Py.startswith t "`ifdef" = false /\
  Py.startswith t "`protected" = false /\
  Py.startswith t "`ifndef" = false /\
  Py.startswith t "`endif" = false /\
  Py.startswith t "`endprotected" = false.
Proof.
  intros H. expose_prefix H. subst t. repeat split; reflexivity.
Qed.

(** X19: after an [`ifdef] line, at any depth of the stack, an [`else]
    line turns the visibility over and leaves the stack and the defined
    variables alone: of the two branches exactly one is shown. *)
Theorem else_flips_ifdef (line1 line2 : string) (inside : bool)
    (stack defs : list string) (st1 st2 : ifdef_state) :
  Py.startswith (trimmed line1) "`ifdef" = true ->
  Py.startswith (trimmed line2) "`else" = true ->
  check_ifdefs line1 inside stack defs = Ok st1 ->
  check_ifdefs line2 (inside_ifdef st1) (ifdef_stack st1)
    (define_variables st1) = Ok st2 ->
  inside_ifdef st2 = negb (inside_ifdef st1) /\
  ifdef_stack st2 = ifdef_stack st1 /\
  define_variables st2 = defs.
Proof.
  intros H1 H2 E1 E2.
  unfold check_ifdefs in E1. fold (trimmed line1) in E1.
  rewrite H1 in E1. injection E1 as <-. simpl in E2.
  unfold check_ifdefs in E2. fold (trimmed line2) in E2.
  destruct (else_is_no_push _ H2) as (N1 & N2 & N3 & N4 & N5).
  rewrite N1, N2, N3, N4, N5, H2 in E2. injection E2 as <-. simpl.
  repeat split.
  rewrite length_app. simpl.
  replace (Z.of_nat (List.length stack + 1) >? 0) with true; [reflexivity|].
  symmetry. apply Z.gtb_lt. lia.
Qed.

Lemma else_flips_ifdef_witness :
  true = negb false /\ ["SIM"] = ["SIM"] /\ @nil string = [].
Proof.
  exact (else_flips_ifdef "`ifdef SIM" "`else" false [] []
           (mk_ifdef_state "" false ["SIM"] [])
           (mk_ifdef_state "" true ["SIM"] [])
           eq_refl eq_refl eq_refl eq_refl).
Defined.

(** X20: a line that, once trimmed, does not begin with a backquote is
    no directive: [check_ifdefs] hands it back unchanged when it is
    visible (inside an active block, or outside every block), hands back
    the empty string when it is hidden, and changes nothing else. *)
Theorem plain_line_visibility (line : string) (inside : bool)
    (stack defs : list string) :
  Py.startswith (trimmed line) "`" = false ->
  check_ifdefs line inside stack defs
    = Ok (mk_ifdef_state
            (if inside then line
             else match stack with [] => line | _ :: _ => "" end)
            inside stack defs).
Proof.
  intros H. unfold check_ifdefs. fold (trimmed line).
  assert (N : forall d, Py.startswith (trimmed line) ("`" +++ d) = false).
  { intros d. destruct (Py.startswith (trimmed line) ("`" +++ d)) eqn:E;
      [|reflexivity].
    apply startswith_append_l in E. congruence. }
  pose proof (N "ifdef") as N1. pose proof (N "protected") as N2.
  pose proof (N "ifndef") as N3. pose proof (N "endif") as N4.
  pose proof (N "endprotected") as N5. pose proof (N "else") as N6.
  pose proof (N "define") as N7.
  cbn [String.append] in N1, N2, N3, N4, N5, N6, N7.
  rewrite N1, N2, N3, N4, N5, N6, N7.
  destruct inside; [reflexivity|]. destruct stack; reflexivity.
Qed.

Lemma plain_line_visibility_witness :
  check_ifdefs "  wire x;" false ["SIM"] []
    = Ok (mk_ifdef_state "" false ["SIM"] []).
Proof.
  exact (plain_line_visibility "  wire x;" false ["SIM"] [] eq_refl).
Defined.

(* ================================================================== *)
(** ** More on the body normalisation *)
(* ================================================================== *)

Lemma has_char_replace_go (c : ascii) (old new s : string) (k : nat) :
  has_char c (Py.replace_go old new k s) -> has_char c s \/ has_char c new.
Proof.
  revert k. induction s as [|d s IH]; intros k H.
  - left. exact H.
  - cbn [Py.replace_go] in H. destruct k as [|k].
    + destruct (Py.startswith (String d s) old).
      * apply has_char_app in H. destruct H as [H|H]; [right; exact H|].
        apply IH in H. destruct H as [H|H]; [left; right; exact H|right; exact H].
      * destruct H as [H|H]; [left; left; exact H|].
        apply IH in H. destruct H as [H|H]; [left; right; exact H|right; exact H].
    + apply IH in H. destruct H as [H|H]; [left; right; exact H|right; exact H].
Qed.

Lemma has_char_intersperse (c : ascii) (new s : string) :
  has_char c (Py.intersperse new s) -> has_char c s \/ has_char c new.
Proof.
  induction s as [|d s IH]; intros H; cbn [Py.intersperse] in H.
  - right. exact H.
  - apply has_char_app in H. destruct H as [H|H]; [right; exact H|].
    destruct H as [H|H]; [left; left; exact H|].
    apply IH in H. destruct H as [H|H]; [left; right; exact H|right; exact H].
Qed.

Lemma has_char_replace (c : ascii) (s old new : string) :
  has_char c (Py.replace s old new) -> has_char c s \/ has_char c new.
Proof.
  unfold Py.replace. destruct old.
  - apply has_char_intersperse.
  - apply has_char_replace_go.
Qed.

Lemma replace_char_gone (c : ascii) (new s : string) :
  ~ has_char c new -> ~ has_char c (Py.replace s (String c "") new).
Proof.
  intros Hn. unfold Py.replace.
  induction s as [|d s IH]; cbn [Py.replace_go].
  - intros [].
  - cbn [Py.startswith]. destruct (Ascii.eqb d c) eqn:E; cbn [andb].
    + destruct s; cbn [Py.startswith String.length Nat.sub];
        intros H; apply has_char_app in H; destruct H as [H|H]; auto.
    + intros [H|H]; [|auto].
      apply Ascii.eqb_neq in E. auto.
Qed.

Lemma skip_blocks_keeps_out (c : ascii) (fuel : nat)
    (opener code r : string) :
  skip_blocks fuel opener code = Ok r ->
  ~ has_char c code -> ~ has_char c r.
Proof.
  revert code. induction fuel as [|fuel IH]; intros code H Hc;
    [discriminate|].
  cbn [skip_blocks] in H.
  destruct (skip_block opener code) as [[code'|]| | |] eqn:E; simpl in H;
    try discriminate.
  - apply (IH _ H). unfold skip_block in E.
    destruct (negb _); [|discriminate].
    destruct (paren_scan _ _ _); simpl in E; try discriminate.
    injection E as <-. intros Hr. apply has_char_replace in Hr.
    destruct Hr as [Hr|[]]. auto.
  - injection H as <-. exact Hc.
Qed.

Lemma squeeze_keeps_out (c : ascii) (fuel : nat) (code r : string) :
  c <> " "%char ->
  squeeze fuel code = Ok r ->
  ~ has_char c code -> ~ has_char c r.
Proof.
  intros Hsp. revert code. induction fuel as [|fuel IH]; intros code H Hc;
    [discriminate|].
  cbn [squeeze] in H. destruct (negb _).
  - apply (IH _ H). intros Hr. apply has_char_replace in Hr.
    destruct Hr as [Hr|[Hr|[]]]; auto.
  - injection H as <-. exact Hc.
Qed.

Lemma squeeze_none_left (fuel : nat) (code r : string) :
  squeeze fuel code = Ok r -> Py.find r "  " = -1.
Proof.
  revert code. induction fuel as [|fuel IH]; intros code H; [discriminate|].
  cbn [squeeze] in H. destruct (Py.find code "  " =? -1) eqn:E;
    cbn [negb] in H.
  - injection H as <-. apply Z.eqb_eq. exact E.
  - apply (IH _ H).
Qed.

Lemma normalisation_keeps_out (c : ascii) (code0 : string)
    (r : string) :
  c <> " "%char -> c <> ","%char -> c <> "#"%char -> c <> "("%char ->
  ~ has_char c code0 ->
  (one_line_code <- skip_blocks
      (S (String.length
            (Py.replace (Py.replace code0 ", " ",") "# (" "#(")))
      "#(" (Py.replace (Py.replace code0 ", " ",") "# (" "#(") ;;
   one_line_code <- skip_blocks (S (String.length one_line_code)) "@("
                      one_line_code ;;
   squeeze (S (String.length one_line_code)) one_line_code) = Ok r ->
  ~ has_char c r.
Proof.
  intros N1 N2 N3 N4 Hc H.
  destruct (skip_blocks _ "#(" _) as [c4| | |] eqn:E4; cbn [bind] in H;
    try discriminate.
  destruct (skip_blocks _ "@(" _) as [c5| | |] eqn:E5; cbn [bind] in H;
    try discriminate.
  apply (squeeze_keeps_out c _ _ _ N1 H).
  apply (skip_blocks_keeps_out c _ _ _ _ E5).
  apply (skip_blocks_keeps_out c _ _ _ _ E4).
  intros Hr. apply has_char_replace in Hr.
  destruct Hr as [Hr|[Hr|[Hr|[]]]]; [|congruence|congruence].
  apply has_char_replace in Hr.
  destruct Hr as [Hr|[Hr|[]]]; [auto|congruence].
Qed.

Ltac other_char :=
  let E := fresh "E" in intros E; vm_compute in E; discriminate.

(** X21: the text that [get_one_line_code] returns is on one line and
    squeezed: it holds no newline, no tab and no two spaces in a row. *)
Theorem one_line_code_is_flat (module_code : list string) (r : string) :
  get_one_line_code module_code = Ok r ->
  ~ has_char (ascii_of_nat 10) r /\
  ~ has_char (ascii_of_nat 9) r /\
  Py.find r "  " = -1.
Proof.
  intros H. unfold get_one_line_code in H. cbv zeta in H.
  repeat split.
  - apply (normalisation_keeps_out (ascii_of_nat 10)) in H;
      [exact H|other_char..|].
    intros Hr. apply has_char_replace in Hr.
    destruct Hr as [Hr|[Hr|[]]]; [|vm_compute in Hr; discriminate].
    revert Hr. apply replace_char_gone.
    intros [Hs|[]]. vm_compute in Hs. discriminate.
  - apply (normalisation_keeps_out (ascii_of_nat 9)) in H;
      [exact H|other_char..|].
    apply replace_char_gone.
    intros [Hs|[]]. vm_compute in Hs. discriminate.
  - destruct (skip_blocks _ "#(" _) as [c4| | |]; cbn [bind] in H;
      try discriminate.
    destruct (skip_blocks _ "@(" _) as [c5| | |]; cbn [bind] in H;
      try discriminate.
    apply (squeeze_none_left _ _ _ H).
Qed.

Lemma one_line_code_is_flat_witness :
  ~ has_char (ascii_of_nat 10) "wire a; wire b;" /\
  ~ has_char (ascii_of_nat 9) "wire a; wire b;" /\
  Py.find "wire a; wire b;" "  " = -1.
Proof.
  exact (one_line_code_is_flat
           ["wire  a;" +++ Py.nl; Py.tab +++ "wire b;"]
           "wire a; wire b;" eq_refl).
Defined.

Lemma has_char_drop (c : ascii) (n : nat) (s : string) :
  has_char c (Py.drop n s) -> has_char c s.
Proof.
  revert s. induction n as [|n IH]; intros s H; [exact H|].
  destruct s as [|d s]; [exact H|]. right. apply IH. exact H.
Qed.

Lemma paren_scan_unclosed (rest : string) (i lvl : Z) :
  1 <= lvl ->
  ~ has_char ")" rest ->
  paren_scan rest i lvl = Raise IndexError.
Proof.
  revert i lvl. induction rest as [|c rest IH]; intros i lvl Hl Hc;
    [reflexivity|].
  cbn [paren_scan].
  destruct (Ascii.eqb c ")") eqn:E.
  - apply Ascii.eqb_eq in E. exfalso. apply Hc. left. exact E.
  - assert (Hr : ~ has_char ")" rest) by (intros H; apply Hc; right; exact H).
    destruct (Ascii.eqb c "(").
    + destruct (lvl + 1 =? 0) eqn:E0; [apply Z.eqb_eq in E0; lia|].
      apply IH; [lia|exact Hr].
    + destruct (lvl =? 0) eqn:E0; [apply Z.eqb_eq in E0; lia|].
      apply IH; [lia|exact Hr].
Qed.

Lemma skip_block_unclosed (opener code : string) :
  Py.find code opener <> -1 ->
  ~ has_char ")" code ->
  skip_block opener code = Raise IndexError.
Proof.
  intros Hf Hc. unfold skip_block.
  apply Z.eqb_neq in Hf. rewrite Hf. cbn [negb].
  rewrite paren_scan_unclosed; [reflexivity|lia|].
  intros H. apply Hc. unfold Py.slice_from in H.
  apply has_char_drop in H. exact H.
Qed.

(** X22: a body that, once its lines are joined and flattened, holds a
    [#(] or an [@(] but no closing parenthesis makes
    [get_one_line_code] raise [IndexError]: the skipper reads past the
    end of the text. *)
Theorem unclosed_block_raises (module_code : list string) :
  ~ has_char ")" (flattened module_code) ->
  Py.find (flattened module_code) "#(" <> -1 \/
  Py.find (flattened module_code) "@(" <> -1 ->
  get_one_line_code module_code = Raise IndexError.
Proof.
  intros Hc Hf. unfold get_one_line_code. cbv zeta.
  fold (flattened module_code).
  destruct (Z.eq_dec (Py.find (flattened module_code) "#(") (-1)) as [E|E].
  - destruct Hf as [Hf|Hf]; [congruence|].
    cbn [skip_blocks]. unfold skip_block at 1. rewrite E.
    change (-1 =? -1) with true. cbn [negb bind].
    rewrite skip_block_unclosed; [reflexivity|exact Hf|exact Hc].
  - cbn [skip_blocks].
    rewrite skip_block_unclosed; [reflexivity|exact E|exact Hc].
Qed.

Lemma unclosed_block_raises_witness :
  get_one_line_code ["always @(posedge clk"; " q <= d;"] = Raise IndexError.
Proof.
  apply (unclosed_block_raises ["always @(posedge clk"; " q <= d;"]).
  - intros H. vm_compute in H. intuition discriminate.
  - right. discriminate.
Defined.

(* ================================================================== *)
(** ** More on the module name *)
(* ================================================================== *)

Lemma rev_onto_app (s acc : string) :
  Py.rev_onto s acc = Py.rev s +++ acc.
Proof.
  unfold Py.rev. revert acc. induction s as [|c s IH]; intros acc;
    [reflexivity|].
  cbn [Py.rev_onto]. rewrite IH, (IH (String c "")), append_assoc.
  reflexivity.
Qed.

Lemma rev_cons (c : ascii) (s : string) :
  Py.rev (String c s) = Py.rev s +++ String c "".
Proof. unfold Py.rev at 1. cbn [Py.rev_onto]. apply rev_onto_app. Qed.

Lemma rev_app (a b : string) : Py.rev (a +++ b) = Py.rev b +++ Py.rev a.
Proof.
  induction a as [|c a IH].
  - simpl. symmetry. apply append_nil_r.
  - cbn [String.append]. rewrite !rev_cons, IH, append_assoc. reflexivity.
Qed.

Lemma rev_involutive (s : string) : Py.rev (Py.rev s) = s.
Proof.
  induction s as [|c s IH]; [reflexivity|].
  rewrite rev_cons, rev_app, IH. reflexivity.
Qed.

Lemma has_char_rev (c : ascii) (s : string) :
  has_char c (Py.rev s) -> has_char c s.
Proof.
  induction s as [|d s IH]; [intros H; exact H|].
  rewrite rev_cons. intros H. apply has_char_app in H.
  destruct H as [H|[H|[]]]; [right; apply IH; exact H|left; exact H].
Qed.

Lemma lstrip_word (s : string) :
  (forall c, has_char c s -> Py.isspace c = false) -> Py.lstrip s = s.
Proof.
  intros H. destruct s as [|c s]; [reflexivity|].
  cbn [Py.lstrip]. rewrite (H c); [reflexivity|left; reflexivity].
Qed.

Lemma lstrip_app (x y : string) :
  (Py.lstrip x = "" /\ Py.lstrip (x +++ y) = Py.lstrip y) \/
  (Py.lstrip x <> "" /\ Py.lstrip (x +++ y) = Py.lstrip x +++ y).
Proof.
  induction x as [|c x IH].
  - left. split; reflexivity.
  - cbn [String.append Py.lstrip]. destruct (Py.isspace c); [exact IH|].
    right. split; [discriminate|reflexivity].
Qed.

Lemma lstrip_suffix (x : string) : exists w, x = w +++ Py.lstrip x.
Proof.
  induction x as [|c x [w IH]].
  - exists "". reflexivity.
  - cbn [Py.lstrip]. destruct (Py.isspace c).
    + exists (String c w). cbn [String.append]. rewrite <- IH. reflexivity.
    + exists "". reflexivity.
Qed.

Lemma rstrip_prefix (b : string) : exists w, b = Py.rstrip b +++ w.
Proof.
  unfold Py.rstrip. destruct (lstrip_suffix (Py.rev b)) as [w Hw].
  exists (Py.rev w). rewrite <- rev_app, <- Hw, rev_involutive. reflexivity.
Qed.

Lemma rstrip_after_word (a b : string) :
  a <> "" ->
  (forall c, has_char c a -> Py.isspace c = false) ->
  Py.rstrip (a +++ b) = a +++ Py.rstrip b.
Proof.
  intros Ha Hw. unfold Py.rstrip. rewrite rev_app.
  assert (Hra : Py.lstrip (Py.rev a) = Py.rev a).
  { apply lstrip_word. intros c Hc. apply Hw. apply has_char_rev. exact Hc. }
  assert (Hne : Py.rev a <> "").
  { intros E. apply Ha. rewrite <- (rev_involutive a), E. reflexivity. }
  destruct (lstrip_app (Py.rev b) (Py.rev a)) as [[E1 E2]|[E1 E2]];
    rewrite E2.
  - rewrite Hra, E1, rev_involutive. simpl. symmetry. apply append_nil_r.
  - rewrite rev_app, rev_involutive. reflexivity.
Qed.

Lemma strip_after_word (a b : string) :
  a <> "" ->
  (forall c, has_char c a -> Py.isspace c = false) ->
  Py.strip (a +++ b) = a +++ Py.rstrip b.
Proof.
  intros Ha Hw. unfold Py.strip.
  assert (E : Py.lstrip (a +++ b) = a +++ b).
  { destruct a as [|c a]; [congruence|].
    cbn [String.append Py.lstrip].
    rewrite (Hw c); [reflexivity|left; reflexivity]. }
  rewrite E. apply rstrip_after_word; assumption.
Qed.

Lemma take_inside (n : nat) (a b : string) :
  (n <= String.length a)%nat -> Py.take n (a +++ b) = Py.take n a.
Proof.
  revert a. induction n as [|n IH]; intros a H; [reflexivity|].
  destruct a as [|c a]; [simpl in H; lia|].
  cbn [String.append Py.take]. rewrite IH; [reflexivity|simpl in H; lia].
Qed.

Lemma has_char_take (c : ascii) (n : nat) (s : string) :
  has_char c (Py.take n s) -> has_char c s.
Proof.
  revert s. induction n as [|n IH]; intros s H; [destruct H|].
  destruct s as [|d s]; [exact H|].
  destruct H as [H|H]; [left; exact H|right; apply IH; exact H].
Qed.

Lemma name_has_no_delimiter (nm : string) (d : ascii) :
  is_name nm -> In d name_delimiters -> ~ has_char d nm.
Proof.
  intros [_ H] Hd Hc. destruct (H d Hc) as (Hs & Hp & Hsc).
  unfold name_delimiters in Hd. simpl in Hd.
  destruct Hd as [<-|[<-|[<-|[<-|[<-|[]]]]]];
    try discriminate; congruence.
Qed.

Lemma name_end_passes (line : string) (end_idx : Z) (fuel : nat) :
  (forall d, In d name_delimiters ->
     ~ has_char d (Py.slice_to line end_idx)) ->
  name_end (S fuel) line end_idx
    = if end_idx =? Py.len line then Ok (Py.len line + 1)
      else name_end fuel line (end_idx + 1).
Proof.
  intros H. cbn [name_end]. unfold Py.tab, Py.nl.
  rewrite (proj2 (find_char " " _)), (proj2 (find_char (ascii_of_nat 9) _)),
    (proj2 (find_char "(" _)), (proj2 (find_char ";" _)),
    (proj2 (find_char (ascii_of_nat 10) _));
    [reflexivity|apply H; simpl; auto 6..].
Qed.

Lemma name_end_stops (line : string) (end_idx : Z) (fuel : nat) (d : ascii) :
  In d name_delimiters ->
  has_char d (Py.slice_to line end_idx) ->
  name_end (S fuel) line end_idx = Ok end_idx.
Proof.
  intros Hd Hc. cbn [name_end]. unfold Py.tab, Py.nl.
  repeat match goal with
         | |- context [negb (Py.find ?h (String ?c "") =? -1)] =>
             let E := fresh "E" in
             destruct (Py.find h (String c "") =? -1) eqn:E;
               cbn [negb]; [apply find_char in E|reflexivity]
         end.
  exfalso. unfold name_delimiters in Hd. simpl in Hd.
  destruct Hd as [<-|[<-|[<-|[<-|[<-|[]]]]]]; auto.
Qed.

Lemma name_end_finds (fuel : nat) (nm rest : string) (end_idx : Z) :
  is_name nm ->
  ends_name rest ->
  0 <= end_idx <= Py.len nm ->
  Py.len nm + 1 - end_idx < Z.of_nat fuel ->
  name_end fuel (nm +++ rest) end_idx = Ok (Py.len nm + 1).
Proof.
  intros Hn He. revert end_idx.
  induction fuel as [|fuel IH]; intros end_idx Hi Hf; [lia|].
  assert (Hhead : Py.slice_to (nm +++ rest) end_idx
                  = Py.take (Z.to_nat end_idx) nm).
  { unfold Py.slice_to. rewrite clamp_inside.
    - apply take_inside. unfold Py.len in Hi. lia.
    - rewrite len_append. pose proof (len_nonneg rest). lia. }
  rewrite name_end_passes.
  2:{ intros d Hd Hc. rewrite Hhead in Hc. apply has_char_take in Hc.
      revert Hc. apply name_has_no_delimiter; assumption. }
  rewrite len_append.
  destruct (Z.eq_dec end_idx (Py.len nm)) as [E|E].
  - destruct He as [->|(d & rest' & -> & Hd)].
    + change (Py.len "") with 0.
      replace (Py.len nm + 0) with end_idx by lia.
      rewrite Z.eqb_refl. rewrite E. reflexivity.
    + destruct (end_idx =? Py.len nm + Py.len (String d rest')) eqn:E';
        [apply Z.eqb_eq in E';
         change (Py.len (String d rest'))
           with (Z.of_nat (S (String.length rest'))) in E'; lia|].
      destruct fuel as [|fuel]; [lia|].
      rewrite (name_end_stops _ _ _ d Hd); [rewrite E; reflexivity|].
      unfold Py.slice_to. rewrite clamp_inside.
      * replace (Z.to_nat (end_idx + 1)) with (String.length nm + 1)%nat
          by (unfold Py.len in E; lia).
        change (String d rest') with (String d "" +++ rest').
        rewrite <- append_assoc.
        replace (String.length nm + 1)%nat
          with (String.length (nm +++ String d ""))
          by (rewrite length_append; reflexivity).
        rewrite take_append. apply has_char_app. right. left. reflexivity.
      * rewrite len_append.
        change (Py.len (String d rest'))
          with (Z.of_nat (S (String.length rest'))).
        pose proof (len_nonneg nm). lia.
  - destruct (end_idx =? Py.len nm + Py.len rest) eqn:E';
      [apply Z.eqb_eq in E'; pose proof (len_nonneg rest); lia|].
    apply IH; lia.
Qed.

(** X23: on a line whose first [module ] is followed by a name, a
    non-empty word without white space, [(] or [;], and then by nothing
    or by a space, a tab, a [(], a [;] or a newline, [get_module_name]
    returns that name. *)
Theorem module_name_is_extracted (pre nm tail : string) :
  Py.find (pre +++ "module " +++ nm +++ tail) "module " = Py.len pre ->
  is_name nm ->
  ends_name tail ->
  get_module_name (pre +++ "module " +++ nm +++ tail) = Ok nm.
Proof.
  intros Hf Hn He. unfold get_module_name. cbv zeta. rewrite Hf.
  replace (Py.len pre + Py.len "module ")
    with (Py.len (pre +++ "module ")) by apply len_append.
  rewrite <- (append_assoc pre "module " (nm +++ tail)).
  rewrite slice_from_append.
  destruct Hn as [Hne Hchars].
  rewrite strip_after_word;
    [|exact Hne|intros c Hc; apply (Hchars c Hc)].
  assert (He' : ends_name (Py.rstrip tail)).
  { destruct (rstrip_prefix tail) as [w Hw].
    destruct (Py.rstrip tail) as [|d' t'] eqn:Er; [left; reflexivity|].
    right. destruct He as [->|(d & rest & -> & Hd)]; [discriminate|].
    injection Hw as <- _. exists d, t'. split; [reflexivity|exact Hd]. }
  rewrite (name_end_finds _ nm (Py.rstrip tail) 0 (conj Hne Hchars) He').
  - cbn [bind].
    destruct (Py.len nm + 1 =? -1) eqn:E;
      [apply Z.eqb_eq in E; pose proof (len_nonneg nm); lia|].
    cbn [negb]. f_equal.
    replace (Py.len nm + 1 - 1) with (Py.len nm) by lia.
    unfold Py.slice_to. rewrite clamp_inside.
    + unfold Py.len. rewrite Nat2Z.id. apply take_append.
    + rewrite len_append. pose proof (len_nonneg nm).
      pose proof (len_nonneg (Py.rstrip tail)). lia.
  - pose proof (len_nonneg nm). lia.
  - rewrite length_append. unfold Py.len. lia.
Qed.

Lemma module_name_is_extracted_witness :
  get_module_name ("  " +++ "module " +++ "fifo_ctrl" +++ " #(") = Ok "fifo_ctrl".
Proof.
  apply (module_name_is_extracted "  " "fifo_ctrl" " #(").
  - reflexivity.
  - split; [discriminate|].
    intros c H. vm_compute in H.
    repeat (destruct H as [<-|H]; [repeat split; discriminate|]).
    destruct H.
  - right. exists " "%char, "#(". split; [reflexivity|left; reflexivity].
Defined.
